(** * Calificame: the request pipeline of the evaluation-report backend

    A shallow embedding of the three deployment variants of the API
    handler found in the repository:

    - [Pages]  : functions/api/[[route]].js           ([onRequest])
    - [Fixed]  : the "routing corregido" Pages function ([onRequest],
                 with [deleteList], [getList], [updateList])
    - [Worker] : the Cloudflare Worker               ([handleRequest])

    The D1 store is a record of three tables; a handler is a function
    from the store to a response and a new store.  Every suspension point
    ([await]) of the source is sequential here: one request runs to
    completion before the next one starts. *)

From Stdlib Require Import String Ascii List ZArith Bool Lia.
From Stdlib Require Import DecimalString DecimalZ DecimalFacts.
Import ListNotations.
Open Scope list_scope.
Open Scope string_scope.

(* ================================================================= *)
(** ** JavaScript string primitives used by the handlers *)

Module JsString.

Fixpoint has_prefix (p s : string) : bool :=
  match p, s with
  | EmptyString, _ => true
  | String _ _, EmptyString => false
  | String c p', String d s' => Ascii.eqb c d && has_prefix p' s'
  end.

(** [s.startsWith(p)] *)
Definition startsWith (s p : string) : bool := has_prefix p s.

(** [s.substring(n)]: the characters from index [n] on. *)
Fixpoint substring_from (n : nat) (s : string) : string :=
  match n, s with
  | O, _ => s
  | S _, EmptyString => EmptyString
  | S k, String _ r => substring_from k r
  end.

(** [s.replace(pat, '')] with a string pattern: only the first
    occurrence is removed. *)
Fixpoint remove_first (pat s : string) : string :=
  if has_prefix pat s then substring_from (String.length pat) s
  else match s with
       | EmptyString => EmptyString
       | String c r => String c (remove_first pat r)
       end.

(** [s.split(sep)] for a one-character separator. *)
Fixpoint split (sep : ascii) (s : string) : list string :=
  match s with
  | EmptyString => [EmptyString]
  | String c r =>
      if Ascii.eqb c sep then EmptyString :: split sep r
      else match split sep r with
           | [] => [String c EmptyString]
           | h :: t => String c h :: t
           end
  end.

(** The truthiness of a string: [!s] holds of the empty string only. *)
Definition truthy (s : string) : bool := negb (String.eqb s EmptyString).

(** [path.split('/').filter(p => p)] *)
Definition segments (path : string) : list string :=
  filter truthy (split "/" path).

Fixpoint no_char (c : ascii) (s : string) : bool :=
  match s with
  | EmptyString => true
  | String d r => negb (Ascii.eqb d c) && no_char c r
  end.

End JsString.
Import JsString.

(* ================================================================= *)
(** ** JavaScript numbers

    A number is a binary64 value: NaN, an infinity, or a finite value
    (-1)^negative * m * 2^e with 0 <= m < 2^53 and -1074 <= e <= 971,
    where 2^52 <= m unless e = -1074 (the subnormal numbers and the two
    zeros).  This is the part of the arithmetic that [JSON.parse] and
    [JSON.stringify] need: the number a decimal literal denotes, and
    the decimal text of a number. *)

Module Double.
Local Open Scope Z_scope.

Inductive number : Type :=
| NaN
| Infinity (negative : bool)
| Finite (negative : bool) (m : Z) (e : Z).

Definition is_double (x : number) : bool :=
  match x with
  | Finite _ m e =>
      (0 <=? m) && (m <? 2 ^ 53) && (-1074 <=? e) && (e <=? 971)
      && ((2 ^ 52 <=? m) || (e =? -1074))
  | _ => true
  end.

Definition same (x y : number) : bool :=
  match x, y with
  | NaN, NaN => true
  | Infinity a, Infinity b => Bool.eqb a b
  | Finite a m e, Finite b m' e' => Bool.eqb a b && (m =? m') && (e =? e')
  | _, _ => false
  end.

(** *** The number a decimal literal denotes *)

(** The integer nearest to [num / den], the even one of two that are
    equally near. *)
Definition half_even (num den : Z) : Z :=
  let q := num / den in
  match 2 * (num mod den) ?= den with
  | Lt => q
  | Gt => q + 1
  | Eq => if Z.even q then q else q + 1
  end.

(** The [g] with 2^g <= P / d < 2^(g+1), when P >= d. *)
Definition ilog2 (P d : Z) : Z :=
  let g := Z.log2 P - Z.log2 d in
  if d * 2 ^ g <=? P then g else g - 1.

(** The binary64 magnitude nearest to [P / d] counted in units of
    2^-1074, ties to even: its [m] and [e].  [None] is the overflow to
    an infinity. *)
Definition round_units (P d : Z) : option (Z * Z) :=
  let shift := Z.max (ilog2 P d - 52) 0 in
  let m := half_even P (d * 2 ^ shift) in
  let (m, shift) := if m =? 2 ^ 53 then (2 ^ 52, shift + 1) else (m, shift) in
  if 2045 <? shift then None else Some (m, shift - 1074).

(** The number nearest to [s * 10^q], with the sign [negative]. *)
Definition of_decimal (negative : bool) (s q : Z) : number :=
  if s <=? 0 then Finite negative 0 (-1074)
  else
    let (P, d) := if 0 <=? q then (s * 10 ^ q * 2 ^ 1074, 1)
                  else (s * 2 ^ 1074, 10 ^ (- q)) in
    match round_units P d with
    | Some (m, e) => Finite negative m e
    | None => Infinity negative
    end.

(** The number an integer converts to. *)
Definition of_Z (n : Z) : number := of_decimal (n <? 0) (Z.abs n) 0.

(** [s * 10^q] with the trailing zeros of [s] moved to the exponent. *)
Fixpoint strip (fuel : nat) (s q : Z) : Z * Z :=
  match fuel with
  | O => (s, q)
  | S f =>
      if (0 <? s) && (s mod 10 =? 0) then strip f (s / 10) (q + 1)
      else (s, q)
  end.

Definition normal_decimal (s q : Z) : Z * Z :=
  strip (Z.to_nat (Z.log2 s)) s q.

Definition of_literal (negative : bool) (s q : Z) : number :=
  let (s', q') := normal_decimal s q in of_decimal negative s' q'.

(** *** The decimal text of a number: Number::toString

    For a finite number other than zero the text holds the digits of
    the integer [s], the least number [k] of them, such that
    [s * 10^(n-k)] denotes the number, and of those the [s] nearest to
    it. *)

(** [10^n <= N / D] *)
Definition pow10_le (n N D : Z) : bool :=
  if 0 <=? n then 10 ^ n * D <=? N else D <=? N * 10 ^ (- n).

(** The [n] with 10^(n-1) <= N / D < 10^n. *)
Definition magnitude (N D : Z) : Z :=
  let est := (Z.log2 N - Z.log2 D) * 30103 / 100000 in
  if pow10_le (est + 1) N D then est + 2
  else if pow10_le est N D then est + 1
  else if pow10_le (est - 1) N D then est
  else est - 1.

Section Shortest.

Variables m e : Z.

(** The decimal [c * 10^q], without trailing zeros, when it denotes
    m * 2^e. *)
Definition reads_as (c q : Z) : option (Z * Z) :=
  let (s, q') := normal_decimal c q in
  if same (of_decimal false s q') (Finite false m e) then Some (s, q')
  else None.

(** m * 2^e = N / D.  The decimal of [k] digits that denotes it, if
    there is one: the two multiples of 10^(n-k) around it are tried,
    the nearer one first. *)
Definition candidate (N D n k : Z) : option (Z * Z) :=
  let q := n - k in
  let (num, den) := if 0 <=? q then (N, D * 10 ^ q)
                    else (N * 10 ^ (- q), D) in
  let lo := num / den in
  match reads_as lo q, reads_as (lo + 1) q with
  | Some below, Some above =>
      Some (match 2 * (num mod den) ?= den with
            | Lt => below
            | Gt => above
            | Eq => if Z.even lo then below else above
            end)
  | Some below, None => Some below
  | None, Some above => Some above
  | None, None => None
  end.

Fixpoint shortest (tries : nat) (N D n k : Z) : option (Z * Z) :=
  match tries with
  | O => None
  | S t =>
      match candidate N D n k with
      | Some found => Some found
      | None => shortest t N D n (k + 1)
      end
  end.

(** The whole decimal expansion of m * 2^e. *)
Definition exact_decimal : Z * Z :=
  if 0 <=? e then normal_decimal (m * 2 ^ e) 0
  else normal_decimal (m * 5 ^ (- e)) e.

(** Seventeen digits tell any two binary64 values apart, so the search
    ends before the whole expansion is needed. *)
Definition to_decimal : Z * Z :=
  let N := m * 2 ^ Z.max e 0 in
  let D := 2 ^ Z.max (- e) 0 in
  match shortest 17 N D (magnitude N D) 1 with
  | Some found => found
  | None => exact_decimal
  end.

End Shortest.

Definition digit_char (d : Z) : ascii := ascii_of_nat (48 + Z.to_nat d).

Fixpoint digits_onto (fuel : nat) (s : Z) (tail : string) : string :=
  match fuel with
  | O => tail
  | S f =>
      if s <? 10 then String (digit_char s) tail
      else digits_onto f (s / 10) (String (digit_char (s mod 10)) tail)
  end.

(** The decimal digits of a natural number. *)
Definition digits (s : Z) : string :=
  digits_onto (S (Z.to_nat (Z.log2 s))) s EmptyString.

Fixpoint zeros (n : nat) : string :=
  match n with
  | O => EmptyString
  | S k => String "0" (zeros k)
  end.

Fixpoint first_chars (n : nat) (s : string) : string :=
  match n, s with
  | S k, String c r => String c (first_chars k r)
  | _, _ => EmptyString
  end.

Fixpoint rest_chars (n : nat) (s : string) : string :=
  match n, s with
  | S k, String _ r => rest_chars k r
  | _, _ => s
  end.

Definition exponent_text (x : Z) : string :=
  String (if x <? 0 then "-"%char else "+"%char) (digits (Z.abs x)).

(** The text of [s * 10^q], [s] having [k] digits and n = q + k: plain
    digits up to 21 of them, a fraction down to 10^-7, the exponent
    form beyond. *)
Definition print_decimal (s q : Z) : string :=
  let ds := digits s in
  let k := Z.of_nat (String.length ds) in
  let n := q + k in
  if (k <=? n) && (n <=? 21) then ds ++ zeros (Z.to_nat (n - k))
  else if (0 <? n) && (n <=? 21) then
    first_chars (Z.to_nat n) ds ++ String "." (rest_chars (Z.to_nat n) ds)
  else if (-6 <? n) && (n <=? 0) then
    String "0" (String "." (zeros (Z.to_nat (- n)) ++ ds))
  else
    match ds with
    | String c EmptyString => String c (String "e" (exponent_text (n - 1)))
    | String c r =>
        String c (String "." (r ++ String "e" (exponent_text (n - 1))))
    | EmptyString => EmptyString
    end.

(** [String(x)] *)
Definition to_string (x : number) : string :=
  match x with
  | NaN => "NaN"
  | Infinity negative => if negative then "-Infinity" else "Infinity"
  | Finite negative m e =>
      if m <=? 0 then "0"
      else
        let (s, q) := to_decimal m e in
        if negative then String "-" (print_decimal s q) else print_decimal s q
  end.

End Double.

(* ================================================================= *)
(** ** JSON values, [JSON.stringify] and [JSON.parse]

    An object is the sequence of its properties in their order. *)

Unset Elimination Schemes.
Inductive json : Type :=
| JNull
| JBool (b : bool)
| JNumber (x : Double.number)
| JStr (s : string)
| JArr (items : list json)
| JObj (props : list (string * json)).
Set Elimination Schemes.

(** The number an integer is: a row key, a count. *)
Definition JNum (n : Z) : json := JNumber (Double.of_Z n).
Arguments JNum : simpl never.

(** A possibly [undefined] value: what destructuring a body yields. *)
Definition jsval := option json.

(** JavaScript truthiness, as [x || d] and [!x] test it.  [undefined],
    [null], [false], the two zeros, NaN and the empty string are falsy;
    every object and every array is truthy. *)
Definition json_truthy (v : json) : bool :=
  match v with
  | JNull => false
  | JBool b => b
  | JNumber (Double.Finite _ m _) => negb (Z.eqb m 0)
  | JNumber Double.NaN => false
  | JNumber (Double.Infinity _) => true
  | JStr s => truthy s
  | JArr _ | JObj _ => true
  end.

(** [x === 0] for a count that may be [undefined]. *)
Definition is_zero (x : option nat) : bool :=
  match x with
  | Some n => Nat.eqb n 0
  | None => false
  end.

(** [x || d] *)
Definition or_else (x : jsval) (d : json) : json :=
  match x with
  | Some v => if json_truthy v then v else d
  | None => d
  end.

(** The properties of an object literal some of whose values may be
    [undefined]: [JSON.stringify] leaves those out of a response. *)
Fixpoint defined_props (l : list (string * jsval)) : list (string * json) :=
  match l with
  | [] => []
  | (k, Some v) :: r => (k, v) :: defined_props r
  | (_, None) :: r => defined_props r
  end.

Definition object_of (fields : list (string * jsval)) : json :=
  JObj (defined_props fields).

Module Json.

Definition dquote : ascii := "034"%char.
Definition bslash : ascii := "092"%char.

Definition hex_digit (n : nat) : ascii :=
  match n with
  | 0 => "0" | 1 => "1" | 2 => "2" | 3 => "3" | 4 => "4" | 5 => "5"
  | 6 => "6" | 7 => "7" | 8 => "8" | 9 => "9" | 10 => "a" | 11 => "b"
  | 12 => "c" | 13 => "d" | 14 => "e" | _ => "f"
  end%char.

(** The value of a hexadecimal digit, by its character code: the
    digits from 48, the lower-case letters from 97, the upper-case
    letters from 65. *)
Definition hex_value (c : ascii) : option nat :=
  let n := nat_of_ascii c in
  if Nat.leb 48 n && Nat.leb n 57 then Some (n - 48)
  else if Nat.leb 97 n && Nat.leb n 102 then Some (n - 87)
  else if Nat.leb 65 n && Nat.leb n 70 then Some (n - 55)
  else None.

(** The text [JSON.stringify] emits for one character of a string:
    the quote and the backslash are escaped, a control character has
    its short escape or its u00xx form, anything else is itself. *)
Definition escape_char (c : ascii) : string :=
  let n := nat_of_ascii c in
  if Nat.eqb n 34 then String bslash (String dquote EmptyString)
  else if Nat.eqb n 92 then String bslash (String bslash EmptyString)
  else if Nat.eqb n 8 then String bslash "b"
  else if Nat.eqb n 12 then String bslash "f"
  else if Nat.eqb n 10 then String bslash "n"
  else if Nat.eqb n 13 then String bslash "r"
  else if Nat.eqb n 9 then String bslash "t"
  else if Nat.ltb n 32 then
    String bslash (String "u" (String "0" (String "0"
      (String (hex_digit (n / 16)) (String (hex_digit (n mod 16)) EmptyString)))))
  else String c EmptyString.

Fixpoint escape (s : string) : string :=
  match s with
  | EmptyString => EmptyString
  | String c r => escape_char c ++ escape r
  end.

Definition quote (s : string) : string :=
  String dquote (escape s ++ String dquote EmptyString).

(** The decimal text of an integer, as [String(n)] gives it for an
    integer below 10^21. *)
Definition string_of_Z (n : Z) : string :=
  NilZero.string_of_int (Z.to_int n).

(** [JSON.stringify(v)] of a value that holds no [undefined]: the
    compact form, properties in their order.  A finite number is
    written as [String] writes it, NaN and the infinities as [null]. *)
Fixpoint stringify (v : json) : string :=
  match v with
  | JNull => "null"
  | JBool true => "true"
  | JBool false => "false"
  | JNumber (Double.Finite negative m e) =>
      Double.to_string (Double.Finite negative m e)
  | JNumber _ => "null"
  | JStr s => quote s
  | JArr [] => "[]"
  | JArr (x :: r) =>
      "[" ++ stringify x ++
      (fix more (l : list json) : string :=
         match l with
         | [] => "]"
         | y :: l' => "," ++ stringify y ++ more l'
         end) r
  | JObj [] => "{}"
  | JObj ((k, x) :: r) =>
      "{" ++ quote k ++ ":" ++ stringify x ++
      (fix more (l : list (string * json)) : string :=
         match l with
         | [] => "}"
         | (k', y) :: l' => "," ++ quote k' ++ ":" ++ stringify y ++ more l'
         end) r
  end.

(** *** Decoding *)

(** Decimal digits as [parseInt] reads them. *)
Definition digit_of (c : ascii) : option (Decimal.uint -> Decimal.uint) :=
  match c with
  | "0" => Some Decimal.D0 | "1" => Some Decimal.D1
  | "2" => Some Decimal.D2 | "3" => Some Decimal.D3
  | "4" => Some Decimal.D4 | "5" => Some Decimal.D5
  | "6" => Some Decimal.D6 | "7" => Some Decimal.D7
  | "8" => Some Decimal.D8 | "9" => Some Decimal.D9
  | _ => None
  end%char.

(** The longest run of decimal digits at the head of [s]. *)
Fixpoint read_uint (s : string) : Decimal.uint * string :=
  match s with
  | EmptyString => (Decimal.Nil, EmptyString)
  | String c r =>
      match digit_of c with
      | Some d => let (u, rest) := read_uint r in (d u, rest)
      | None => (Decimal.Nil, s)
      end
  end.

(** No superfluous leading zero. *)
Definition plain_uint (u : Decimal.uint) : bool :=
  match u with
  | Decimal.Nil => false
  | Decimal.D0 Decimal.Nil => true
  | Decimal.D0 _ => false
  | _ => true
  end.

(** *** Number literals

    [-? int frac? exp?], where [int] is 0 or starts with a digit from
    1 to 9, [frac] is a point and digits, [exp] is e or E, a sign or
    none, and digits. *)

Definition digit_value (c : ascii) : option Z :=
  let n := nat_of_ascii c in
  if Nat.leb 48 n && Nat.leb n 57 then Some (Z.of_nat (n - 48)) else None.

(** The longest run of digits at the head of [s]: the value they give
    to the digits read before, of value [acc]; how many they are; and
    what follows them. *)
Fixpoint read_digits (s : string) (acc : Z) : Z * nat * string :=
  match s with
  | String c r =>
      match digit_value c with
      | Some v =>
          let '(a, n, rest) := read_digits r (acc * 10 + v)%Z in (a, S n, rest)
      | None => (acc, O, s)
      end
  | EmptyString => (acc, O, s)
  end.

Definition read_int (s : string) : option (Z * string) :=
  match s with
  | String "0" r => Some (0%Z, r)
  | _ =>
      match read_digits s 0 with
      | (_, O, _) => None
      | (v, _, rest) => Some (v, rest)
      end
  end.

Definition read_fraction (s : string) (int : Z) : option (Z * nat * string) :=
  match s with
  | String "." r =>
      match read_digits r int with
      | (_, O, _) => None
      | found => Some found
      end
  | _ => Some (int, O, s)
  end.

Definition read_power (s : string) (negative : bool) : option (Z * string) :=
  match read_digits s 0 with
  | (_, O, _) => None
  | (x, _, rest) => Some (if negative then (- x)%Z else x, rest)
  end.

Definition read_exponent (s : string) : option (Z * string) :=
  match s with
  | String "e" r | String "E" r =>
      match r with
      | String "-" t => read_power t true
      | String "+" t => read_power t false
      | _ => read_power r false
      end
  | _ => Some (0%Z, s)
  end.

Definition read_unsigned (negative : bool) (s : string)
  : option (Double.number * string) :=
  match read_int s with
  | None => None
  | Some (int, r1) =>
      match read_fraction r1 int with
      | None => None
      | Some (v, places, r2) =>
          match read_exponent r2 with
          | None => None
          | Some (x, r3) =>
              Some (Double.of_literal negative v (x - Z.of_nat places), r3)
          end
      end
  end.

Definition read_number (s : string) : option (Double.number * string) :=
  match s with
  | String "-" r => read_unsigned true r
  | _ => read_unsigned false s
  end.

Definition simple_escape (e : ascii) : option ascii :=
  match e with
  | "034" => Some "034" | "092" => Some "092" | "/" => Some "/"
  | "b" => Some "008" | "f" => Some "012" | "n" => Some "010"
  | "r" => Some "013" | "t" => Some "009"
  | _ => None
  end%char.

(** A u-escape; code units above 255 are outside the byte strings of
    this model and are refused. *)
Definition unicode_escape (a b c d : ascii) : option ascii :=
  match hex_value a, hex_value b, hex_value c, hex_value d with
  | Some 0, Some 0, Some h, Some l => Some (ascii_of_nat (h * 16 + l))
  | _, _, _, _ => None
  end.

Definition cons_char (c : ascii) (r : option (string * string)) :=
  match r with
  | Some (str, rest) => Some (String c str, rest)
  | None => None
  end.

(** The body of a string literal, after its opening quote, up to and
    including the closing quote. *)
Fixpoint read_string (s : string) : option (string * string) :=
  match s with
  | EmptyString => None
  | String c r =>
      if Ascii.eqb c dquote then Some (EmptyString, r)
      else if Ascii.eqb c bslash then
        match r with
        | EmptyString => None
        | String e r1 =>
            match simple_escape e with
            | Some ch => cons_char ch (read_string r1)
            | None =>
                if Ascii.eqb e "u" then
                  match r1 with
                  | String h3 (String h2 (String h1 (String h0 r2))) =>
                      match unicode_escape h3 h2 h1 h0 with
                      | Some ch => cons_char ch (read_string r2)
                      | None => None
                      end
                  | _ => None
                  end
                else None
            end
        end
      else if Nat.ltb (nat_of_ascii c) 32 then None
      else cons_char c (read_string r)
  end.

(** A property name followed by its colon. *)
Definition read_key (s : string) : option (string * string) :=
  match s with
  | String q r =>
      if Ascii.eqb q dquote then
        match read_string r with
        | Some (k, String ":" r') => Some (k, r')
        | _ => None
        end
      else None
  | EmptyString => None
  end.

(** Recursive descent over the compact texts [stringify] emits; the
    fuel bounds the number of nested calls and the length of the text
    is always enough (see [parse]). *)
Fixpoint parse_value (fuel : nat) (s : string) : option (json * string) :=
  match fuel with
  | O => None
  | S f =>
      match read_number s with
      | Some (x, rest) => Some (JNumber x, rest)
      | None =>
          match s with
          | String "n" (String "u" (String "l" (String "l" r))) =>
              Some (JNull, r)
          | String "t" (String "r" (String "u" (String "e" r))) =>
              Some (JBool true, r)
          | String "f" (String "a" (String "l" (String "s" (String "e" r)))) =>
              Some (JBool false, r)
          | String "034" r =>
              match read_string r with
              | Some (str, rest) => Some (JStr str, rest)
              | None => None
              end
          | String "[" r =>
              match parse_value f r with
              | Some (x, r1) =>
                  match parse_items f r1 with
                  | Some (xs, r2) => Some (JArr (x :: xs), r2)
                  | None => None
                  end
              | None =>
                  match r with
                  | String "]" r' => Some (JArr [], r')
                  | _ => None
                  end
              end
          | String "{" r =>
              match read_key r with
              | Some (k, r0) =>
                  match parse_value f r0 with
                  | Some (x, r1) =>
                      match parse_members f r1 with
                      | Some (ms, r2) => Some (JObj ((k, x) :: ms), r2)
                      | None => None
                      end
                  | None => None
                  end
              | None =>
                  match r with
                  | String "}" r' => Some (JObj [], r')
                  | _ => None
                  end
              end
          | _ => None
          end
      end
  end
with parse_items (fuel : nat) (s : string) : option (list json * string) :=
  match fuel with
  | O => None
  | S f =>
      match s with
      | String "]" r => Some ([], r)
      | String "," r =>
          match parse_value f r with
          | Some (y, r1) =>
              match parse_items f r1 with
              | Some (ys, r2) => Some (y :: ys, r2)
              | None => None
              end
          | None => None
          end
      | _ => None
      end
  end
with parse_members (fuel : nat) (s : string)
     : option (list (string * json) * string) :=
  match fuel with
  | O => None
  | S f =>
      match s with
      | String "}" r => Some ([], r)
      | String "," r =>
          match read_key r with
          | Some (k, r0) =>
              match parse_value f r0 with
              | Some (y, r1) =>
                  match parse_members f r1 with
                  | Some (ms, r2) => Some ((k, y) :: ms, r2)
                  | None => None
                  end
              | None => None
              end
          | None => None
          end
      | _ => None
      end
  end.

(** [JSON.parse(text)]; [None] stands for the [SyntaxError] it throws.
    Only the compact form is read, which is the form every stored text
    has: the columns are written by [JSON.stringify] alone. *)
Definition parse (text : string) : option json :=
  match parse_value (String.length text) text with
  | Some (v, EmptyString) => Some v
  | _ => None
  end.

End Json.

(* ================================================================= *)
(** ** [parseInt] and [isNaN] *)

Module JsNumber.

Definition is_space (c : ascii) : bool :=
  let n := nat_of_ascii c in
  Nat.eqb n 32 || (Nat.leb 9 n && Nat.leb n 13).

Fixpoint skip_spaces (s : string) : string :=
  match s with
  | String c r => if is_space c then skip_spaces r else s
  | EmptyString => EmptyString
  end.

(** The value of the longest run of hexadecimal digits at the head of
    [s], continuing the value [acc]; [None] when there is no digit. *)
Fixpoint read_hex (acc : option Z) (s : string) : option Z :=
  match s with
  | EmptyString => acc
  | String c r =>
      match Json.hex_value c with
      | Some d =>
          read_hex (Some (match acc with
                          | Some a => a * 16 + Z.of_nat d
                          | None => Z.of_nat d
                          end)%Z) r
      | None => acc
      end
  end.

Definition read_magnitude (s : string) : option Z :=
  match s with
  | String "0" (String "x" r) | String "0" (String "X" r) =>
      read_hex None r
  | _ =>
      match fst (Json.read_uint s) with
      | Decimal.Nil => None
      | u => Some (Z.of_uint u)
      end
  end.

(** [parseInt(s)] with no radix; [None] is [NaN]. *)
Definition parseInt (s : string) : option Z :=
  match skip_spaces s with
  | String "-" r => option_map Z.opp (read_magnitude r)
  | String "+" r => read_magnitude r
  | t => read_magnitude t
  end.

(** [parseInt(n)] of a number first converts it to its decimal text. *)
Definition parseInt_number (n : Z) : option Z :=
  parseInt (Json.string_of_Z n).

Definition isNaN (x : option Z) : bool :=
  match x with
  | Some _ => false
  | None => true
  end.

End JsNumber.
Import JsNumber.

(* ================================================================= *)
(** ** The D1 store: schema.sql

    A table is the list of its rows in insertion order, which is the
    order a [SELECT] without [ORDER BY] visits them in.  A list carries
    its [created_at]; the timestamp columns of [users] and [reports]
    are left out.  A statement that violates a constraint fails with a
    message and leaves the store as it was.  The [meta] of a result holds [last_row_id], the
    key of the inserted row, and [changes], the number of rows the
    statement changed. *)

Inductive result (A : Type) : Type :=
| Done (a : A)
| Failed (message : string).
Arguments Done {A} a.
Arguments Failed {A} message.

Module D1.

Record user_row := {
  u_id : Z;
  u_name : string;
  u_email : string;
  u_university : string;
  u_password : string;
  u_token : option string }.

Record list_row := {
  l_id : Z;
  l_name : string;
  l_user_id : Z;
  l_created_at : string }.

Record report_row := {
  r_id : string;
  r_user_id : Z;
  r_list_id : option Z;
  r_info_general : option string;
  r_configuracion : option string;
  r_niveles_desempeno : option string;
  r_criterios : option string;
  r_feedback : option string;
  r_resultados : option string }.

(** [users_seq] and [lists_seq] are the AUTOINCREMENT counters: the
    largest row id ever handed out in the table. *)
Record db := {
  users : list user_row;
  lists : list list_row;
  reports : list report_row;
  users_seq : Z;
  lists_seq : Z }.

Definition empty : db :=
  {| users := []; lists := []; reports := []; users_seq := 0; lists_seq := 0 |}.

Definition has_token (t : string) (u : user_row) : bool :=
  match u_token u with
  | Some t' => String.eqb t' t
  | None => false
  end.

Definition same_list (a b : option Z) : bool :=
  match a, b with
  | Some x, Some y => Z.eqb x y
  | _, _ => false
  end.

(** [SELECT * FROM users WHERE email = ?] with [.first()] *)
Definition user_by_email (email : string) (d : db) : option user_row :=
  find (fun u => String.eqb (u_email u) email) (users d).

(** [SELECT * FROM users WHERE email = ? AND password = ?] *)
Definition user_by_credentials (email password : string) (d : db)
  : option user_row :=
  find (fun u => String.eqb (u_email u) email
                 && String.eqb (u_password u) password) (users d).

(** [SELECT * FROM users WHERE token = ?] *)
Definition user_by_token (token : string) (d : db) : option user_row :=
  find (has_token token) (users d).

(** [INSERT INTO users (name, email, university, password, token)]:
    [email] and [token] are UNIQUE.  Yields [meta.last_row_id]. *)
Definition insert_user (name email university password token : string)
           (d : db) : result (Z * db) :=
  if existsb (fun u => String.eqb (u_email u) email) (users d) then
    Failed "UNIQUE constraint failed: users.email"
  else if existsb (has_token token) (users d) then
    Failed "UNIQUE constraint failed: users.token"
  else
    let i := (users_seq d + 1)%Z in
    Done (i, {| users := (users d ++ [ {| u_id := i; u_name := name;
                                         u_email := email;
                                         u_university := university;
                                         u_password := password;
                                         u_token := Some token |} ])%list;
                lists := lists d; reports := reports d;
                users_seq := i; lists_seq := lists_seq d |}).

Definition set_token (token : string) (u : user_row) : user_row :=
  {| u_id := u_id u; u_name := u_name u; u_email := u_email u;
     u_university := u_university u; u_password := u_password u;
     u_token := Some token |}.

Definition set_token_of (id : Z) (token : string) (u : user_row) : user_row :=
  if Z.eqb (u_id u) id then set_token token u else u.

(** [UPDATE users SET token = ? WHERE id = ?] *)
Definition update_user_token (token : string) (id : Z) (d : db)
  : result db :=
  if existsb (fun u => Z.eqb (u_id u) id) (users d)
     && existsb (fun u => has_token token u && negb (Z.eqb (u_id u) id))
                (users d)
  then Failed "UNIQUE constraint failed: users.token"
  else
    Done {| users := map (set_token_of id token) (users d);
            lists := lists d; reports := reports d;
            users_seq := users_seq d; lists_seq := lists_seq d |}.

Definition owned_by (userId : Z) (r : report_row) : bool :=
  Z.eqb (r_user_id r) userId.

Definition is_report (id : string) (userId : Z) (r : report_row) : bool :=
  String.eqb (r_id r) id && owned_by userId r.

(** [SELECT * FROM reports WHERE user_id = ?] with [.all()] *)
Definition reports_of (userId : Z) (d : db) : list report_row :=
  filter (owned_by userId) (reports d).

(** [SELECT * FROM reports WHERE id = ? AND user_id = ?] with [.first()] *)
Definition report_by_id (id : string) (userId : Z) (d : db)
  : option report_row :=
  find (is_report id userId) (reports d).

Definition user_exists (userId : Z) (d : db) : bool :=
  existsb (fun u => Z.eqb (u_id u) userId) (users d).

Definition list_exists (listId : option Z) (d : db) : bool :=
  match listId with
  | Some n => existsb (fun l => Z.eqb (l_id l) n) (lists d)
  | None => true
  end.

Definition set_reports (rs : list report_row) (d : db) : db :=
  {| users := users d; lists := lists d; reports := rs;
     users_seq := users_seq d; lists_seq := lists_seq d |}.

(** [INSERT INTO reports (id, user_id, list_id, ... six texts)]:
    [id] is the primary key, [user_id] and [list_id] are foreign keys. *)
Definition insert_report (row : report_row) (d : db) : result db :=
  if existsb (fun r => String.eqb (r_id r) (r_id row)) (reports d) then
    Failed "UNIQUE constraint failed: reports.id"
  else if negb (user_exists (r_user_id row) d
                && list_exists (r_list_id row) d) then
    Failed "FOREIGN KEY constraint failed"
  else Done (set_reports (reports d ++ [row])%list d).

(** [UPDATE reports SET (six texts), list_id = ? WHERE id = ? AND
    user_id = ?].  The argument [row] carries the new column values,
    its [r_id] and [r_user_id] the two keys of the WHERE clause.
    Yields [meta.changes]. *)
Definition update_report (row : report_row) (d : db) : result (nat * db) :=
  let hit := is_report (r_id row) (r_user_id row) in
  let n := List.length (filter hit (reports d)) in
  if negb (Nat.eqb n 0) && negb (list_exists (r_list_id row) d) then
    Failed "FOREIGN KEY constraint failed"
  else
    Done (n, set_reports (map (fun r => if hit r then row else r)
                              (reports d)) d).

(** [DELETE FROM reports WHERE id = ? AND user_id = ?]; yields
    [meta.changes]. *)
Definition delete_report (id : string) (userId : Z) (d : db) : nat * db :=
  (List.length (filter (is_report id userId) (reports d)),
   set_reports (filter (fun r => negb (is_report id userId r)) (reports d)) d).

(** [SELECT * FROM lists WHERE user_id = ?] *)
Definition lists_of (userId : Z) (d : db) : list list_row :=
  filter (fun l => Z.eqb (l_user_id l) userId) (lists d).

(** [SELECT * FROM lists WHERE id = ?] with [.first()] *)
Definition list_by_id (id : Z) (d : db) : option list_row :=
  find (fun l => Z.eqb (l_id l) id) (lists d).

Definition is_list (id userId : Z) (l : list_row) : bool :=
  Z.eqb (l_id l) id && Z.eqb (l_user_id l) userId.

(** [SELECT * FROM lists WHERE id = ? AND user_id = ?] with [.first()] *)
Definition list_by_id_owner (id userId : Z) (d : db) : option list_row :=
  find (is_list id userId) (lists d).

(** [INSERT INTO lists (name, user_id)]; [created_at] takes its
    default, CURRENT_TIMESTAMP, whose reading is [timestamp].  Yields
    [meta.last_row_id]. *)
Definition insert_list (name : string) (userId : Z) (timestamp : string)
           (d : db) : result (Z * db) :=
  if negb (user_exists userId d) then
    Failed "FOREIGN KEY constraint failed"
  else
    let i := (lists_seq d + 1)%Z in
    Done (i, {| users := users d;
                lists := (lists d ++ [ {| l_id := i; l_name := name;
                                         l_user_id := userId;
                                         l_created_at := timestamp |} ])%list;
                reports := reports d;
                users_seq := users_seq d; lists_seq := i |}).

Definition clear_list (gone : list Z) (r : report_row) : report_row :=
  match r_list_id r with
  | Some n =>
      if existsb (Z.eqb n) gone then
        {| r_id := r_id r; r_user_id := r_user_id r; r_list_id := None;
           r_info_general := r_info_general r;
           r_configuracion := r_configuracion r;
           r_niveles_desempeno := r_niveles_desempeno r;
           r_criterios := r_criterios r; r_feedback := r_feedback r;
           r_resultados := r_resultados r |}
      else r
  | None => r
  end.

(** [DELETE FROM lists WHERE id = ? AND user_id = ?]; the reports that
    referred to a deleted list have their [list_id] set to NULL
    (ON DELETE SET NULL).  Yields [meta.changes]. *)
Definition delete_list (id userId : Z) (d : db) : nat * db :=
  let gone := filter (is_list id userId) (lists d) in
  (List.length gone,
   {| users := users d;
      lists := filter (fun l => negb (is_list id userId l)) (lists d);
      reports := map (clear_list (map l_id gone)) (reports d);
      users_seq := users_seq d; lists_seq := lists_seq d |}).

(** [UPDATE lists SET name = ? WHERE id = ? AND user_id = ?]; yields
    [meta.changes]. *)
Definition update_list_name (name : string) (id userId : Z) (d : db)
  : nat * db :=
  (List.length (filter (is_list id userId) (lists d)),
   {| users := users d;
      lists := map (fun l => if is_list id userId l
                             then {| l_id := l_id l; l_name := name;
                                     l_user_id := l_user_id l;
                                     l_created_at := l_created_at l |}
                             else l) (lists d);
      reports := reports d;
      users_seq := users_seq d; lists_seq := lists_seq d |}).

(** [result.meta.rows_affected], as the handlers read it after a
    writing statement.  The [meta] of D1 has no property of that name,
    the count being [meta.changes]: the reading is [undefined],
    whatever the statement changed. *)
Definition rows_affected (changes : nat) : option nat := None.

End D1.
Import D1.

(* ================================================================= *)
(** ** Requests and responses *)

(** The fields the handlers destructure from a decoded body.  A field
    that is absent is [None] ([undefined]); the scalar fields carry the
    types the client sends them with. *)
Record body := {
  b_id : option string;
  b_name : option string;
  b_email : option string;
  b_university : option string;
  b_password : option string;
  b_title : option string;
  b_student : option string;
  b_listaId : option Z;
  b_infoGeneral : jsval;
  b_configuracion : jsval;
  b_nivelesDesempeno : jsval;
  b_criterios : jsval;
  b_feedback : jsval;
  b_resultados : jsval }.

Definition empty_body : body :=
  {| b_id := None; b_name := None; b_email := None; b_university := None;
     b_password := None; b_title := None; b_student := None;
     b_listaId := None; b_infoGeneral := None; b_configuracion := None;
     b_nivelesDesempeno := None; b_criterios := None; b_feedback := None;
     b_resultados := None |}.

(** [pathname] is [new URL(request.url).pathname]; [authorization] is
    [request.headers.get('Authorization')]; [req_json] is what
    [await request.json()] gives: the decoded body, or the failure it
    rejects with.  [served_at] is not sent by the client: it is what
    CURRENT_TIMESTAMP reads in the store while the request is served,
    the text a row inserted by the request takes as its [created_at]. *)
Record request := {
  method : string;
  pathname : string;
  authorization : option string;
  req_json : result body;
  served_at : string }.

Record response := {
  status : nat;
  headers : list (string * string);
  content : option json }.

Definition corsHeaders : list (string * string) :=
  [ ("Access-Control-Allow-Origin", "*");
    ("Access-Control-Allow-Methods", "GET, POST, PUT, DELETE, OPTIONS");
    ("Access-Control-Allow-Headers", "Content-Type, Authorization") ].

Definition jsonResponse (data : json) (status : nat) : response :=
  {| status := status;
     headers := ("Content-Type", "application/json") :: corsHeaders;
     content := Some data |}.

Definition errorResponse (message : string) (status : nat) : response :=
  {| status := status;
     headers := ("Content-Type", "application/json") :: corsHeaders;
     content := Some (JObj [("message", JStr message)]) |}.

(** [new Response(null, { headers: corsHeaders })] *)
Definition preflightResponse : response :=
  {| status := 200; headers := corsHeaders; content := None |}.

Definition extractToken (request : request) : option string :=
  match authorization request with
  | None => None
  | Some authHeader =>
      if negb (truthy authHeader) || negb (startsWith authHeader "Bearer ")
      then None
      else Some (substring_from 7 authHeader)
  end.

(** [new URL(request.url).pathname.replace('/api', '')] *)
Definition path_of (request : request) : string :=
  remove_first "/api" (pathname request).

(** [!x] for a string field of the body. *)
Definition missing (x : option string) : bool :=
  match x with
  | Some s => negb (truthy s)
  | None => true
  end.

Definition text_of (x : option string) : string :=
  match x with
  | Some s => s
  | None => EmptyString
  end.

(* ================================================================= *)
(** ** The handlers common to the two Pages functions

    functions/api/[[route]].js and its corrected copy define these
    functions with the same text.  A handler takes the store and gives
    the response and the store it leaves.  [uuid] is the value
    [crypto.randomUUID()] returns during the request; no handler draws
    more than one.  Each [try { ... } catch (err)] turns a failure into
    [errorResponse(err.message, 500)]. *)

Record user := {
  user_id : Z;
  user_name : string;
  user_email : string;
  user_university : string }.

Definition user_json (u : user) : json :=
  JObj [ ("id", JNum (user_id u)); ("name", JStr (user_name u));
         ("email", JStr (user_email u));
         ("university", JStr (user_university u)) ].

Definition findUserByToken (token : string) (d : db) : option user :=
  match user_by_token token d with
  | None => None
  | Some u => Some {| user_id := u_id u; user_name := u_name u;
                      user_email := u_email u;
                      user_university := u_university u |}
  end.

Definition registerUser (uuid : string) (request : request) (d : db)
  : response * db :=
  match req_json request with
  | Failed m => (errorResponse m 500, d)
  | Done body =>
      if missing (b_name body) || missing (b_email body)
         || missing (b_university body) || missing (b_password body)
      then (errorResponse
              "Name, email, university, and password are required." 400, d)
      else
        match user_by_email (text_of (b_email body)) d with
        | Some _ => (errorResponse "Email already registered." 409, d)
        | None =>
            let token := uuid in
            match insert_user (text_of (b_name body)) (text_of (b_email body))
                              (text_of (b_university body))
                              (text_of (b_password body)) token d with
            | Failed m => (errorResponse m 500, d)
            | Done (last_row_id, d') =>
                let u := {| user_id := last_row_id;
                            user_name := text_of (b_name body);
                            user_email := text_of (b_email body);
                            user_university := text_of (b_university body) |} in
                (jsonResponse (JObj [("user", user_json u);
                                     ("token", JStr token)]) 201, d')
            end
        end
  end.

Definition loginUser (uuid : string) (request : request) (d : db)
  : response * db :=
  match req_json request with
  | Failed m => (errorResponse m 500, d)
  | Done body =>
      if missing (b_email body) || missing (b_password body)
      then (errorResponse "Email and password are required." 400, d)
      else
        match user_by_credentials (text_of (b_email body))
                                  (text_of (b_password body)) d with
        | None => (errorResponse "Invalid email or password." 401, d)
        | Some row =>
            let token := uuid in
            match update_user_token token (u_id row) d with
            | Failed m => (errorResponse m 500, d)
            | Done d' =>
                let loggedInUser :=
                  {| user_id := u_id row; user_name := u_name row;
                     user_email := u_email row;
                     user_university := u_university row |} in
                (jsonResponse (JObj [("user", user_json loggedInUser);
                                     ("token", JStr token)]) 200, d')
            end
        end
  end.

Definition handleAuth (uuid : string) (request : request) (path : string)
           (d : db) : response * db :=
  if String.eqb path "/auth/register" then
    if negb (String.eqb (method request) "POST")
    then (errorResponse "Method Not Allowed" 405, d)
    else registerUser uuid request d
  else if String.eqb path "/auth/login" then
    if negb (String.eqb (method request) "POST")
    then (errorResponse "Method Not Allowed" 405, d)
    else loginUser uuid request d
  else if String.eqb path "/auth/me" then
    if negb (String.eqb (method request) "GET")
    then (errorResponse "Method Not Allowed" 405, d)
    else
      match extractToken request with
      | None => (errorResponse "Authentication required" 401, d)
      | Some token =>
          if negb (truthy token)
          then (errorResponse "Authentication required" 401, d)
          else match findUserByToken token d with
               | None => (errorResponse "Invalid token" 401, d)
               | Some u => (jsonResponse (user_json u) 200, d)
               end
      end
  else (errorResponse "Not Found" 404, d).

(** *** Reports *)

Definition json_of_text (x : option string) : json :=
  match x with
  | Some s => JStr s
  | None => JNull
  end.

(** What [parseInt] gave, as a value: the integer, or [NaN]. *)
Definition number_or_nan (x : option Z) : json :=
  match x with
  | Some n => JNum n
  | None => JNumber Double.NaN
  end.

Definition json_of_int (x : option Z) : json :=
  match x with
  | Some n => JNum n
  | None => JNull
  end.

(** The columns of a row as [SELECT *] returns them. *)
Definition report_columns (r : report_row) : list (string * json) :=
  [ ("id", JStr (r_id r)); ("user_id", JNum (r_user_id r));
    ("list_id", json_of_int (r_list_id r));
    ("info_general", json_of_text (r_info_general r));
    ("configuracion", json_of_text (r_configuracion r));
    ("niveles_desempeno", json_of_text (r_niveles_desempeno r));
    ("criterios", json_of_text (r_criterios r));
    ("feedback", json_of_text (r_feedback r));
    ("resultados", json_of_text (r_resultados r)) ].

(** [{ ...o, k: v }]: a property that exists keeps its place and takes
    the new value, a new one goes last. *)
Fixpoint set_prop (k : string) (v : json) (props : list (string * json))
  : list (string * json) :=
  match props with
  | [] => [(k, v)]
  | (k', v') :: r =>
      if String.eqb k' k then (k, v) :: r else (k', v') :: set_prop k v r
  end.

Fixpoint get_prop (k : string) (props : list (string * json)) : option json :=
  match props with
  | [] => None
  | (k', v) :: r => if String.eqb k' k then Some v else get_prop k r
  end.

(** [JSON.parse(column || fallback)]; a column is NULL or a text. *)
Definition decode_column (column : option string) (fallback : string)
  : result json :=
  let text := match column with
              | Some s => if truthy s then s else fallback
              | None => fallback
              end in
  match Json.parse text with
  | Some v => Done v
  | None => Failed "Unexpected token in JSON"
  end.

(** The object the three reading handlers build from a row:
    [{ ...r, infoGeneral: JSON.parse(r.info_general || '{}'), ... }]. *)
Definition parsedReport (r : report_row) : result json :=
  match decode_column (r_info_general r) "{}" with
  | Failed m => Failed m
  | Done infoGeneral =>
  match decode_column (r_configuracion r) "{}" with
  | Failed m => Failed m
  | Done configuracion =>
  match decode_column (r_niveles_desempeno r) "[]" with
  | Failed m => Failed m
  | Done nivelesDesempeno =>
  match decode_column (r_criterios r) "[]" with
  | Failed m => Failed m
  | Done criterios =>
  match decode_column (r_feedback r) "{}" with
  | Failed m => Failed m
  | Done feedback =>
  match decode_column (r_resultados r) "{}" with
  | Failed m => Failed m
  | Done resultados =>
      Done (JObj (set_prop "resultados" resultados
                 (set_prop "feedback" feedback
                 (set_prop "criterios" criterios
                 (set_prop "nivelesDesempeno" nivelesDesempeno
                 (set_prop "configuracion" configuracion
                 (set_prop "infoGeneral" infoGeneral
                           (report_columns r))))))))
  end end end end end end.

(** [results.map(r => ({ ...r, ... }))] *)
Fixpoint parsedReports (rows : list report_row) : result (list json) :=
  match rows with
  | [] => Done []
  | r :: rest =>
      match parsedReport r with
      | Failed m => Failed m
      | Done v =>
          match parsedReports rest with
          | Failed m => Failed m
          | Done vs => Done (v :: vs)
          end
      end
  end.

Definition getReports (request : request) (d : db) (userId : Z)
  : response * db :=
  match parsedReports (reports_of userId d) with
  | Failed m => (errorResponse m 500, d)
  | Done reports => (jsonResponse (JArr reports) 200, d)
  end.

Definition getReport (request : request) (d : db) (userId : Z) (id : string)
  : response * db :=
  match report_by_id id userId d with
  | None => (errorResponse "Report not found" 404, d)
  | Some report =>
      match parsedReport report with
      | Failed m => (errorResponse m 500, d)
      | Done v => (jsonResponse v 200, d)
      end
  end.

(** [listaId || null] *)
Definition list_or_null (listaId : option Z) : option Z :=
  match listaId with
  | Some n => if Z.eqb n 0 then None else Some n
  | None => None
  end.

(** The values [createReport] and [updateReport] bind for the columns of
    a report, from the destructured body. *)
Definition bound_row (id : string) (userId : Z) (b : body) : report_row :=
  {| r_id := id;
     r_user_id := userId;
     r_list_id := list_or_null (b_listaId b);
     r_info_general := Some (Json.stringify (or_else (b_infoGeneral b) (JObj [])));
     r_configuracion := Some (Json.stringify (or_else (b_configuracion b) (JObj [])));
     r_niveles_desempeno :=
       Some (Json.stringify (or_else (b_nivelesDesempeno b) (JArr [])));
     r_criterios := Some (Json.stringify (or_else (b_criterios b) (JArr [])));
     r_feedback := Some (Json.stringify (or_else (b_feedback b) (JObj [])));
     r_resultados := Some (Json.stringify (or_else (b_resultados b) (JObj []))) |}.

Definition createReport (uuid : string) (request : request) (d : db)
           (userId : Z) : response * db :=
  match req_json request with
  | Failed m => (errorResponse m 500, d)
  | Done body =>
      let id := b_id body in
      let bound_id := if missing id then uuid else text_of id in
      match insert_report (bound_row bound_id userId body) d with
      | Failed m => (errorResponse m 500, d)
      | Done d' =>
          (jsonResponse (object_of [("id", option_map JStr id)]) 201, d')
      end
  end.

Definition updateReport (request : request) (d : db) (userId : Z)
           (id : string) : response * db :=
  match req_json request with
  | Failed m => (errorResponse m 500, d)
  | Done body =>
      match update_report (bound_row id userId body) d with
      | Failed m => (errorResponse m 500, d)
      | Done (changes, d') =>
          if is_zero (rows_affected changes)
          then (errorResponse "Report not found or not authorized." 404, d')
          else (jsonResponse (JObj [("message", JStr "Report updated")]) 200, d')
      end
  end.

Definition deleteReport (request : request) (d : db) (userId : Z)
           (id : string) : response * db :=
  let (changes, d') := delete_report id userId d in
  if is_zero (rows_affected changes)
  then (errorResponse "Report not found or not authorized." 404, d')
  else (jsonResponse (JObj [("message", JStr "Report deleted")]) 200, d').

(** [json_extract(column, '$.key')] compared with a bound text: the
    text the comparison sees, or [None] when the extracted value is
    NULL or a number, which no text equals.  A column that holds
    malformed JSON makes the statement fail. *)
Definition json_extract (column : option string) (key : string)
  : result (option string) :=
  match column with
  | None => Done None
  | Some text =>
      match Json.parse text with
      | None => Failed "malformed JSON"
      | Some (JObj props) =>
          match get_prop key props with
          | Some (JStr s) => Done (Some s)
          | Some (JArr l) => Done (Some (Json.stringify (JArr l)))
          | Some (JObj l) => Done (Some (Json.stringify (JObj l)))
          | _ => Done None
          end
      | Some _ => Done None
      end
  end.

Definition extract_is (column : option string) (key value : string)
  : result bool :=
  match json_extract column key with
  | Failed m => Failed m
  | Done (Some s) => Done (String.eqb s value)
  | Done None => Done false
  end.

(** [SELECT * FROM reports WHERE user_id = ? AND
    json_extract(info_general, '$.tituloEvaluacion') = ? AND
    json_extract(info_general, '$.nombreEstudiante') = ?] *)
Fixpoint search_rows (userId : Z) (title student : string)
         (rows : list report_row) : result (list report_row) :=
  match rows with
  | [] => Done []
  | r :: rest =>
      let keep :=
        if owned_by userId r then
          match extract_is (r_info_general r) "tituloEvaluacion" title with
          | Failed m => Failed m
          | Done false => Done false
          | Done true =>
              extract_is (r_info_general r) "nombreEstudiante" student
          end
        else Done false in
      match keep with
      | Failed m => Failed m
      | Done k =>
          match search_rows userId title student rest with
          | Failed m => Failed m
          | Done found => Done (if k then r :: found else found)
          end
      end
  end.

(** [bind] refuses an [undefined] value. *)
Definition bind_text (x : option string) : result string :=
  match x with
  | Some s => Done s
  | None =>
      Failed "D1_TYPE_ERROR: Type 'undefined' not supported for value 'undefined'"
  end.

Definition searchReports (request : request) (d : db) (userId : Z)
  : response * db :=
  match req_json request with
  | Failed m => (errorResponse m 500, d)
  | Done body =>
      match bind_text (b_title body) with
      | Failed m => (errorResponse m 500, d)
      | Done title =>
      match bind_text (b_student body) with
      | Failed m => (errorResponse m 500, d)
      | Done student =>
          match search_rows userId title student (reports d) with
          | Failed m => (errorResponse m 500, d)
          | Done results =>
              match parsedReports results with
              | Failed m => (errorResponse m 500, d)
              | Done reports => (jsonResponse (JArr reports) 200, d)
              end
          end
      end end
  end.

(** *** Lists *)

(** A row of [lists] as [SELECT *] returns it. *)
Definition list_json (l : list_row) : json :=
  JObj [ ("id", JNum (l_id l)); ("name", JStr (l_name l));
         ("user_id", JNum (l_user_id l));
         ("created_at", JStr (l_created_at l)) ].

Definition getLists (request : request) (d : db) (userId : Z)
  : response * db :=
  (jsonResponse (JArr (map list_json (lists_of userId d))) 200, d).

Definition createList (request : request) (d : db) (userId : Z)
  : response * db :=
  match req_json request with
  | Failed m => (errorResponse m 500, d)
  | Done body =>
      if missing (b_name body)
      then (errorResponse "List name is required." 400, d)
      else
        match insert_list (text_of (b_name body)) userId (served_at request)
                          d with
        | Failed m => (errorResponse m 500, d)
        | Done (last_row_id, d') =>
            (jsonResponse (JObj [("id", JNum last_row_id);
                                 ("name", JStr (text_of (b_name body)))]) 201,
             d')
        end
  end.

(* ================================================================= *)
(** ** functions/api/[[route]].js *)

Module Pages.

Definition onRequest (uuid : string) (request : request) (d : db)
  : response * db :=
  let path := path_of request in
  if String.eqb (method request) "OPTIONS" then (preflightResponse, d)
  else if startsWith path "/auth/" then handleAuth uuid request path d
  else
    match extractToken request with
    | None => (errorResponse "Authentication required" 401, d)
    | Some token =>
    if negb (truthy token)
    then (errorResponse "Authentication required" 401, d)
    else
    match findUserByToken token d with
    | None => (errorResponse "Invalid token" 401, d)
    | Some user =>
    let userId := user_id user in
    if String.eqb path "/reports" then
      if String.eqb (method request) "GET"
      then getReports request d userId
      else if String.eqb (method request) "POST"
      then createReport uuid request d userId
      else (errorResponse "Method Not Allowed" 405, d)
    else if startsWith path "/reports/" then
      let parts := segments path in
      match parts with
      | _ :: reportId :: more =>
          match more with
          | [] =>
              if String.eqb (method request) "GET"
              then getReport request d userId reportId
              else if String.eqb (method request) "PUT"
              then updateReport request d userId reportId
              else if String.eqb (method request) "DELETE"
              then deleteReport request d userId reportId
              else (errorResponse "Not Found" 404, d)
          | [third] =>
              if String.eqb third "search"
                 && String.eqb (method request) "POST"
              then searchReports request d userId
              else (errorResponse "Not Found" 404, d)
          | _ => (errorResponse "Not Found" 404, d)
          end
      | _ => (errorResponse "Not Found" 404, d)
      end
    else if String.eqb path "/reports/search" then
      if String.eqb (method request) "POST"
      then searchReports request d userId
      else (errorResponse "Method Not Allowed" 405, d)
    else if String.eqb path "/lists" then
      if String.eqb (method request) "GET"
      then getLists request d userId
      else if String.eqb (method request) "POST"
      then createList request d userId
      else (errorResponse "Method Not Allowed" 405, d)
    else (errorResponse "Not Found" 404, d)
    end
    end.

End Pages.

(* ================================================================= *)
(** ** The corrected Pages function ("ROUTING CORREGIDO Y COMPLETO")

    It shares the handlers above, checks the static search route before
    the parameterized report route, and adds the single-list routes. *)

Module Fixed.

Definition deleteList (request : request) (d : db) (userId : Z)
           (id : string) : response * db :=
  match parseInt id, parseInt_number userId with
  | Some listIdNum, Some userIdNum =>
      match list_by_id listIdNum d with
      | None => (errorResponse "List not found" 404, d)
      | Some existingList =>
          if negb (Z.eqb (l_user_id existingList) userIdNum)
          then (errorResponse "Not authorized" 403, d)
          else
            let (changes, d') := delete_list listIdNum userIdNum d in
            if is_zero (rows_affected changes)
            then (errorResponse "Failed to delete list" 500, d')
            else
              (jsonResponse
                 (object_of
                    [("message", Some (JStr "List deleted successfully"));
                     ("deletedId", Some (JNum listIdNum));
                     ("rowsAffected",
                      option_map (fun n => JNum (Z.of_nat n))
                                 (rows_affected changes))])
                 200, d')
      end
  | _, _ => (errorResponse "Invalid ID format" 400, d)
  end.

(** A [NaN] bound to the statement reaches the store as NULL, which
    no row's key equals. *)
Definition getList (request : request) (d : db) (userId : Z) (id : string)
  : response * db :=
  match parseInt id, parseInt_number userId with
  | Some listIdNum, Some userIdNum =>
      match list_by_id_owner listIdNum userIdNum d with
      | None => (errorResponse "List not found" 404, d)
      | Some l => (jsonResponse (list_json l) 200, d)
      end
  | _, _ => (errorResponse "List not found" 404, d)
  end.

(** Here no guard stops a [NaN]: the statement runs, changes no row,
    and the answer is built all the same, with the [NaN] as its [id],
    which [JSON.stringify] writes as [null]. *)
Definition updateList (request : request) (d : db) (userId : Z)
           (id : string) : response * db :=
  match req_json request with
  | Failed m => (errorResponse m 500, d)
  | Done body =>
      if missing (b_name body)
      then (errorResponse "List name is required" 400, d)
      else
        match parseInt id, parseInt_number userId with
        | Some listIdNum, Some userIdNum =>
            let (changes, d') :=
              update_list_name (text_of (b_name body)) listIdNum userIdNum d in
            if is_zero (rows_affected changes)
            then (errorResponse "List not found or not authorized" 404, d')
            else
              (jsonResponse
                 (JObj [("message", JStr "List updated");
                        ("id", JNum listIdNum);
                        ("name", JStr (text_of (b_name body)))]) 200, d')
        | listIdNum, _ =>
            if is_zero (rows_affected 0)
            then (errorResponse "List not found or not authorized" 404, d)
            else
              (jsonResponse
                 (JObj [("message", JStr "List updated");
                        ("id", number_or_nan listIdNum);
                        ("name", JStr (text_of (b_name body)))]) 200, d)
        end
  end.

Definition onRequest (uuid : string) (request : request) (d : db)
  : response * db :=
  let path := path_of request in
  if String.eqb (method request) "OPTIONS" then (preflightResponse, d)
  else if startsWith path "/auth/" then handleAuth uuid request path d
  else
    match extractToken request with
    | None => (errorResponse "Authentication required" 401, d)
    | Some token =>
    if negb (truthy token)
    then (errorResponse "Authentication required" 401, d)
    else
    match findUserByToken token d with
    | None => (errorResponse "Invalid token" 401, d)
    | Some user =>
    let userId := user_id user in
    if String.eqb path "/reports" then
      if String.eqb (method request) "GET"
      then getReports request d userId
      else if String.eqb (method request) "POST"
      then createReport uuid request d userId
      else (errorResponse "Method Not Allowed" 405, d)
    else if String.eqb path "/reports/search" then
      if String.eqb (method request) "POST"
      then searchReports request d userId
      else (errorResponse "Method Not Allowed" 405, d)
    else if startsWith path "/reports/" then
      match segments path with
      | _ :: reportId :: _ =>
          if String.eqb (method request) "GET"
          then getReport request d userId reportId
          else if String.eqb (method request) "PUT"
          then updateReport request d userId reportId
          else if String.eqb (method request) "DELETE"
          then deleteReport request d userId reportId
          else (errorResponse "Not Found" 404, d)
      | _ => (errorResponse "Not Found" 404, d)
      end
    else if String.eqb path "/lists" then
      if String.eqb (method request) "GET"
      then getLists request d userId
      else if String.eqb (method request) "POST"
      then createList request d userId
      else (errorResponse "Method Not Allowed" 405, d)
    else if startsWith path "/lists/" then
      match segments path with
      | _ :: listId :: _ =>
          if String.eqb (method request) "DELETE"
          then deleteList request d userId listId
          else if String.eqb (method request) "GET"
          then getList request d userId listId
          else if String.eqb (method request) "PUT"
          then updateList request d userId listId
          else (errorResponse "Method Not Allowed" 405, d)
      | _ => (errorResponse "Invalid list path" 404, d)
      end
    else (errorResponse "Not Found" 404, d)
    end
    end.

End Fixed.

(* ================================================================= *)
(** ** The Worker

    Of the Worker this development needs the dispatch chain of
    [handleRequest], which runs once the session is resolved.  The
    chain is embedded as the function [route] from the method and the
    path to the handler call the chain returns. *)

Module Worker.

Inductive call : Type :=
| Answer (r : response)
| GetReports (userId : Z)
| CreateReport (userId : Z)
| GetReport (userId : Z) (reportId : string)
| UpdateReport (userId : Z) (reportId : string)
| DeleteReport (userId : Z) (reportId : string)
| SearchReports (userId : Z)
| DeleteList (userId : Z) (listId : string)
| GetLists (userId : Z)
| CreateList (userId : Z).

Definition route (method path : string) (userId : Z) : call :=
  if String.eqb path "/reports" then
    if String.eqb method "GET" then GetReports userId
    else if String.eqb method "POST" then CreateReport userId
    else Answer (errorResponse "Method Not Allowed" 405)
  else if startsWith path "/reports/" then
    match split "/" path with
    | [_; _; reportId] =>
        if String.eqb method "GET" then GetReport userId reportId
        else if String.eqb method "PUT" then UpdateReport userId reportId
        else if String.eqb method "DELETE" then DeleteReport userId reportId
        else Answer (errorResponse "Not Found" 404)
    | _ => Answer (errorResponse "Not Found" 404)
    end
  else if String.eqb path "/reports/search" then
    if String.eqb method "POST" then SearchReports userId
    else Answer (errorResponse "Method Not Allowed" 405)
  else if startsWith path "/lists/" then
    match split "/" path with
    | [_; _; listId] =>
        if String.eqb method "DELETE" then DeleteList userId listId
        else Answer (errorResponse "Not Found" 404)
    | _ => Answer (errorResponse "Not Found" 404)
    end
  else if String.eqb path "/lists" then
    if String.eqb method "GET" then GetLists userId
    else if String.eqb method "POST" then CreateList userId
    else Answer (errorResponse "Method Not Allowed" 405)
  else Answer (errorResponse "Not Found" 404).

End Worker.

(* ================================================================= *)
(** ** Sessions, histories and the shape of a well-formed store *)

(** The user a request is authenticated as: the one its bearer token
    resolves to, as the routers compute it before dispatching. *)
Definition session (request : request) (d : db) : option user :=
  match extractToken request with
  | Some token => if truthy token then findUserByToken token d else None
  | None => None
  end.

(** A history: the requests served one after the other, each with the
    identifier the runtime generates while it is served. *)
Definition history := list (string * request).

Fixpoint run (h : history) (d : db) : db :=
  match h with
  | [] => d
  | (uuid, request) :: rest => run rest (snd (Pages.onRequest uuid request d))
  end.

(** The stores the service can be in: the empty store and whatever a
    request makes of a store it can be in. *)
Inductive reachable : db -> Prop :=
| reachable_empty : reachable D1.empty
| reachable_step (uuid : string) (request : request) (d : db) :
    reachable d -> reachable (snd (Pages.onRequest uuid request d)).


Definition token_list (l : list user_row) : list string :=
  flat_map (fun u => match u_token u with
                     | Some t => [t]
                     | None => []
                     end) l.

Definition tokens (d : db) : list string := token_list (users d).

(** The constraints of the [users] table: the primary key, the
    AUTOINCREMENT counter and the UNIQUE token. *)
Record users_ok (d : db) : Prop := {
  ids_unique : NoDup (map u_id (users d));
  ids_issued : Forall (fun u => (u_id u <= users_seq d)%Z) (users d);
  tokens_unique : NoDup (tokens d) }.

(** How one request can change the [users] table. *)
Inductive users_change (uuid : string) (d d' : db) : Prop :=
| users_kept :
    users d' = users d -> users_seq d' = users_seq d ->
    users_change uuid d d'
| users_registered (row : user_row) :
    users d' = (users d ++ [row])%list ->
    u_id row = (users_seq d + 1)%Z ->
    users_seq d' = (users_seq d + 1)%Z ->
    u_token row = Some uuid ->
    existsb (has_token uuid) (users d) = false ->
    users_change uuid d d'
| users_logged_in (id : Z) :
    users d' = map (set_token_of id uuid) (users d) ->
    users_seq d' = users_seq d ->
    existsb (fun u => has_token uuid u && negb (Z.eqb (u_id u) id))
            (users d) = false ->
    users_change uuid d d'.

(* ================================================================= *)
(** ** Measures and predicates for the codec *)

(** Predicates on digits, decimals and binary64 magnitudes. *)
Module DoubleTools.
Import Double Json.
Local Open Scope Z_scope.

Definition is_digit (c : ascii) : Prop := exists v, digit_value c = Some v.

Fixpoint all_digits (s : string) : Prop :=
  match s with
  | EmptyString => True
  | String c r => is_digit c /\ all_digits r
  end.

Definition digit_or_zero (c : ascii) : Z :=
  match digit_value c with
  | Some v => v
  | None => 0
  end.

Fixpoint value_from (acc : Z) (s : string) : Z :=
  match s with
  | EmptyString => acc
  | String c r => value_from (acc * 10 + digit_or_zero c) r
  end.

(** What follows a run of digits. *)
Definition no_digit_ahead (rest : string) : Prop :=
  match rest with
  | EmptyString => True
  | String c _ => digit_value c = None
  end.

(** A decimal without trailing zeros. *)
Definition canonical (s : Z) : Prop := 0 < s /\ s mod 10 <> 0.

(** The sign of a literal is the sign of its number. *)
Definition with_sign (negative : bool) (x : number) : number :=
  match x with
  | NaN => NaN
  | Infinity _ => Infinity negative
  | Finite _ m e => Finite negative m e
  end.

(** What a decimal that [to_decimal] accepts for the magnitude [m] times
    2 to the [e] is like. *)
Definition denotes (m e : Z) (d : Z * Z) : Prop :=
  canonical (fst d) /\ of_decimal false (fst d) (snd d) = Finite false m e.

(** A binary64 magnitude other than zero. *)
Definition magnitude_ok (m e : Z) : Prop :=
  0 < m < 2 ^ 53 /\ -1074 <= e <= 971 /\ (2 ^ 52 <= m \/ e = -1074).

End DoubleTools.

Module JsonTools.
Import Json.

(** Induction on a value together with the values nested in it. *)
Section Induction.
Variable P : json -> Prop.
Hypothesis Hnull : P JNull.
Hypothesis Hbool : forall b, P (JBool b).
Hypothesis Hnum : forall x, P (JNumber x).
Hypothesis Hstr : forall s, P (JStr s).
Hypothesis Harr : forall items, Forall P items -> P (JArr items).
Hypothesis Hobj :
  forall props, Forall (fun kv => P (snd kv)) props -> P (JObj props).

Fixpoint json_nested_ind (v : json) : P v :=
  match v with
  | JNull => Hnull
  | JBool b => Hbool b
  | JNumber x => Hnum x
  | JStr s => Hstr s
  | JArr items =>
      Harr items ((fix all (l : list json) : Forall P l :=
                     match l with
                     | [] => Forall_nil P
                     | x :: r => Forall_cons x (json_nested_ind x) (all r)
                     end) items)
  | JObj props =>
      Hobj props ((fix all (l : list (string * json))
                   : Forall (fun kv => P (snd kv)) l :=
                     match l with
                     | [] => Forall_nil _
                     | kv :: r =>
                         Forall_cons kv (json_nested_ind (snd kv)) (all r)
                     end) props)
  end.
End Induction.

(** What follows a number in a text must not extend it. *)
Definition extends_number (c : ascii) : bool :=
  match digit_value c with
  | Some _ => true
  | None => Ascii.eqb c "." || Ascii.eqb c "e" || Ascii.eqb c "E"
  end.

Definition ends_number (rest : string) : Prop :=
  match rest with
  | EmptyString => True
  | String c _ => extends_number c = false
  end.

(** A number that [JSON.stringify] writes as a literal that denotes it:
    a finite binary64 value other than the negative zero, which is
    written 0. *)
Definition storable_number (x : Double.number) : bool :=
  match x with
  | Double.Finite negative m _ =>
      Double.is_double x && ((0 <? m)%Z || negb negative)
  | _ => false
  end.

(** A value all of whose numbers are such. *)
Fixpoint storable (v : json) : bool :=
  match v with
  | JNumber x => storable_number x
  | JArr items => forallb storable items
  | JObj props => forallb (fun kv => storable (snd kv)) props
  | _ => true
  end.

(** What [JSON.parse] reads in the text [JSON.stringify] wrote for a
    number: the number its literal denotes, and [null] for NaN and the
    infinities. *)
Definition reread_number (x : Double.number) : json :=
  match x with
  | Double.Finite negative m e =>
      if (m <=? 0)%Z then JNumber (Double.Finite false 0 (-1074))
      else let (s, q) := Double.to_decimal m e in
           JNumber (Double.of_decimal negative s q)
  | _ => JNull
  end.

Fixpoint reread (v : json) : json :=
  match v with
  | JNumber x => reread_number x
  | JArr items => JArr (map reread items)
  | JObj props => JObj (map (fun kv => (fst kv, reread (snd kv))) props)
  | _ => v
  end.

(** The tails [stringify] prints after the first element of an array
    and after the first property of an object. *)
Fixpoint items_tail (l : list json) : string :=
  match l with
  | [] => "]"
  | y :: l' => "," ++ stringify y ++ items_tail l'
  end.

Fixpoint members_tail (l : list (string * json)) : string :=
  match l with
  | [] => "}"
  | (k, y) :: l' => "," ++ quote k ++ ":" ++ stringify y ++ members_tail l'
  end.

(** The fuel a value needs: one unit per value and per separator. *)
Fixpoint jsize (v : json) : nat :=
  match v with
  | JArr (x :: r) =>
      S (jsize x + (fix tail (l : list json) : nat :=
                      match l with
                      | [] => 1
                      | y :: l' => S (jsize y + tail l')
                      end) r)
  | JObj ((_, x) :: r) =>
      S (jsize x + (fix tail (l : list (string * json)) : nat :=
                      match l with
                      | [] => 1
                      | (_, y) :: l' => S (jsize y + tail l')
                      end) r)
  | _ => 1
  end.

Fixpoint items_size (l : list json) : nat :=
  match l with
  | [] => 1
  | y :: l' => S (jsize y + items_size l')
  end.

Fixpoint members_size (l : list (string * json)) : nat :=
  match l with
  | [] => 1
  | (_, y) :: l' => S (jsize y + members_size l')
  end.

Definition reads_back (v : json) : Prop :=
  forall (f : nat) (rest : string),
    jsize v <= f -> ends_number rest ->
    parse_value f (stringify v ++ rest) = Some (reread v, rest).

Definition fits (v : json) : Prop :=
  jsize v <= String.length (stringify v).

End JsonTools.

(** A sub-document read back.  Omitted or falsy, it is the empty value
    of the field's shape.  Truthy, as every object and every array is,
    it is the value supplied as [JSON.parse] reads it in the stored
    text: with [null] for each number that is not finite and 0 for the
    negative zero; and so the value supplied itself when all its
    numbers are finite and none is the negative zero. *)
Definition read_back (supplied : jsval) (empty : json) (decoded : option json)
  : Prop :=
  match supplied with
  | None => decoded = Some empty
  | Some v =>
      if json_truthy v
      then decoded = Some (JsonTools.reread v)
           /\ (JsonTools.storable v = true -> decoded = Some v)
      else decoded = Some empty
  end.

(* ================================================================= *)
(** ** Tenancy *)

(** A row that belongs to someone other than [userId]. *)
Definition foreign (userId : Z) (r : report_row) : bool :=
  negb (owned_by userId r).

(** No row with the key [id] belongs to [userId]: the report [id], if
    there is one, is another user's. *)
Definition owned_by_others (userId : Z) (id : string)
           (rows : list report_row) : Prop :=
  forall r, In r rows -> r_id r = id -> r_user_id r <> userId.

(* ================================================================= *)
(** ** What a request does to the store *)

(** The one writing statement a request of functions/api/[[route]].js
    can run to completion, with the method it arrives by, the session it
    runs in and the status it is answered with.  A request that fits
    none of these leaves the store as it was. *)
Inductive effect (uuid : string) (request : request) (d : db)
  : response * db -> Prop :=
| effect_none (answer : response) :
    effect uuid request d (answer, d)
| effect_registered (b : body) (answer : response) (id : Z) (d' : db) :
    method request = "POST" -> req_json request = Done b ->
    status answer = 201 ->
    user_by_email (text_of (b_email b)) d = None ->
    insert_user (text_of (b_name b)) (text_of (b_email b))
                (text_of (b_university b)) (text_of (b_password b)) uuid d
    = Done (id, d') ->
    effect uuid request d (answer, d')
| effect_logged_in (row : user_row) (answer : response) (d' : db) :
    method request = "POST" -> status answer = 200 ->
    In row (users d) ->
    update_user_token uuid (u_id row) d = Done d' ->
    effect uuid request d (answer, d')
| effect_report_created (u : user) (b : body) (answer : response) (d' : db) :
    method request = "POST" -> session request d = Some u ->
    req_json request = Done b -> status answer = 201 ->
    insert_report (bound_row (if missing (b_id b) then uuid
                              else text_of (b_id b)) (user_id u) b) d
    = Done d' ->
    effect uuid request d (answer, d')
| effect_report_updated (u : user) (id : string) (b : body)
                        (answer : response) (n : nat) (d' : db) :
    method request = "PUT" -> session request d = Some u ->
    req_json request = Done b -> status answer = 200 ->
    update_report (bound_row id (user_id u) b) d = Done (n, d') ->
    n <> 0 ->
    effect uuid request d (answer, d')
| effect_report_deleted (u : user) (id : string) (answer : response)
                        (n : nat) (d' : db) :
    method request = "DELETE" -> session request d = Some u ->
    status answer = 200 ->
    delete_report id (user_id u) d = (n, d') -> n <> 0 ->
    effect uuid request d (answer, d')
| effect_list_created (u : user) (b : body) (answer : response)
                      (id : Z) (d' : db) :
    method request = "POST" -> session request d = Some u ->
    req_json request = Done b -> status answer = 201 ->
    insert_list (text_of (b_name b)) (user_id u) (served_at request) d
    = Done (id, d') ->
    effect uuid request d (answer, d').

(** The corrected Pages function adds the two writing statements of the
    single-list routes. *)
Inductive fixed_effect (uuid : string) (request : request) (d : db)
  : response * db -> Prop :=
| fixed_common (outcome : response * db) :
    effect uuid request d outcome -> fixed_effect uuid request d outcome
| fixed_list_deleted (u : user) (id : Z) (answer : response)
                     (n : nat) (d' : db) :
    method request = "DELETE" -> session request d = Some u ->
    status answer = 200 ->
    delete_list id (user_id u) d = (n, d') -> n <> 0 ->
    fixed_effect uuid request d (answer, d')
| fixed_list_renamed (u : user) (id : Z) (b : body) (answer : response)
                     (n : nat) (d' : db) :
    method request = "PUT" -> session request d = Some u ->
    req_json request = Done b -> status answer = 200 ->
    update_list_name (text_of (b_name b)) id (user_id u) d = (n, d') ->
    n <> 0 ->
    fixed_effect uuid request d (answer, d').

(** A response built by [jsonResponse] or [errorResponse]. *)
Definition json_response (r : response) : Prop :=
  exists data status, r = jsonResponse data status.

(** A column that holds the text [JSON.stringify] gave for some value. *)
Definition encoded (column : option string) : Prop :=
  exists v, column = Some (Json.stringify v).

(** The constraints of the [reports] table that the service maintains:
    the primary key, and six columns written by [JSON.stringify]. *)
Record reports_ok (d : db) : Prop := {
  report_ids_unique : NoDup (map r_id (reports d));
  report_columns_encoded :
    Forall (fun r => encoded (r_info_general r)
                     /\ encoded (r_configuracion r)
                     /\ encoded (r_niveles_desempeno r)
                     /\ encoded (r_criterios r)
                     /\ encoded (r_feedback r)
                     /\ encoded (r_resultados r)) (reports d) }.

(** Two rows of [users] that are the same account: all but the token. *)
Definition same_account (a b : user_row) : Prop :=
  u_id a = u_id b /\ u_name a = u_name b /\ u_email a = u_email b
  /\ u_university a = u_university b /\ u_password a = u_password b.

(** The constraints of the [lists] table: the primary key and the
    AUTOINCREMENT counter. *)
Record lists_ok (d : db) : Prop := {
  list_ids_unique : NoDup (map l_id (lists d));
  list_ids_issued : Forall (fun l => (l_id l <= lists_seq d)%Z) (lists d) }.

(** The public fields of a row of [users]. *)
Definition public (row : user_row) : user :=
  {| user_id := u_id row; user_name := u_name row;
     user_email := u_email row; user_university := u_university row |}.

(** The reports after a list is gone: the same rows, those that were
    in the list now in none. *)
Definition unlisted (n : Z) (before after : report_row) : Prop :=
  r_id after = r_id before /\ r_user_id after = r_user_id before
  /\ r_info_general after = r_info_general before
  /\ r_configuracion after = r_configuracion before
  /\ r_niveles_desempeno after = r_niveles_desempeno before
  /\ r_criterios after = r_criterios before
  /\ r_feedback after = r_feedback before
  /\ r_resultados after = r_resultados before
  /\ r_list_id after = (if same_list (r_list_id before) (Some n)
                        then None else r_list_id before).

(* ================================================================= *)
(** ** Sample requests and stores *)

Module Sample.

Definition credentials (name email university password : option string)
  : body :=
  {| b_id := None; b_name := name; b_email := email;
     b_university := university; b_password := password;
     b_title := None; b_student := None; b_listaId := None;
     b_infoGeneral := None; b_configuracion := None;
     b_nivelesDesempeno := None; b_criterios := None; b_feedback := None;
     b_resultados := None |}.

Definition named (name : string) : body :=
  credentials (Some name) None None None.

(** A report body that supplies [configuracion] and [criterios] and
    omits the four other sub-documents. *)
Definition report_body (id : option string) (listaId : option Z) : body :=
  {| b_id := id; b_name := None; b_email := None; b_university := None;
     b_password := None; b_title := None; b_student := None;
     b_listaId := listaId;
     b_infoGeneral := None;
     b_configuracion := Some (JObj [("scale", JNum 7)]);
     b_nivelesDesempeno := None;
     b_criterios := Some (JArr [JStr "rigor"; JStr "claridad"]);
     b_feedback := None; b_resultados := None |}.

(** Two configurations as [request.json()] decodes them: [{nota: 1e999}],
    whose number is too large for a double and is read as Infinity, and
    [{nota: -0}]. *)
Definition overflowing : json := JObj [("nota", JNumber (Double.Infinity false))].

Definition negative_zero : json :=
  JObj [("nota", JNumber (Double.Finite true 0 (-1074)))].

Definition configured (id : string) (configuracion : json) : body :=
  {| b_id := Some id; b_name := None; b_email := None; b_university := None;
     b_password := None; b_title := None; b_student := None;
     b_listaId := None; b_infoGeneral := None;
     b_configuracion := Some configuracion;
     b_nivelesDesempeno := None; b_criterios := None; b_feedback := None;
     b_resultados := None |}.

Definition post (path : string) (token : option string) (b : result body)
  : request :=
  {| method := "POST"; pathname := path; authorization := token;
     req_json := b; served_at := "2025-03-01 10:00:00" |}.

Definition bodiless (method path : string) (token : option string) : request :=
  {| method := method; pathname := path; authorization := token;
     req_json := Failed "Unexpected end of JSON input";
     served_at := "2025-03-01 10:05:00" |}.

(** A PUT with a body. *)
Definition put (path : string) (token : option string) (b : body) : request :=
  {| method := "PUT"; pathname := path; authorization := token;
     req_json := Done b; served_at := "2025-03-01 10:10:00" |}.

Definition register_alice : request :=
  post "/api/auth/register" None
       (Done (credentials (Some "Alice") (Some "a@x.com") (Some "UCh")
                          (Some "secret"))).

Definition register_bob : request :=
  post "/api/auth/register" None
       (Done (credentials (Some "Bob") (Some "b@x.com") (Some "PUC")
                          (Some "hunter2"))).

Definition as_alice : option string := Some "Bearer tok-alice".
Definition as_bob : option string := Some "Bearer tok-bob".

(** Alice and Bob register, Alice creates the list "Section 1" and the
    report "r1" in it. *)
Definition two_users : history :=
  [ ("tok-alice", register_alice);
    ("tok-bob", register_bob);
    ("unused-1", post "/api/lists" as_alice (Done (named "Section 1")));
    ("unused-2", post "/api/reports" as_alice
                      (Done (report_body (Some "r1") (Some 1%Z)))) ].

Definition store : db := run two_users D1.empty.

Definition only_alice : db := run [("tok-alice", register_alice)] D1.empty.

Definition alice : user :=
  {| user_id := 1; user_name := "Alice"; user_email := "a@x.com";
     user_university := "UCh" |}.

Definition bob : user :=
  {| user_id := 2; user_name := "Bob"; user_email := "b@x.com";
     user_university := "PUC" |}.

Definition search_body (title student : string) : body :=
  {| b_id := None; b_name := None; b_email := None; b_university := None;
     b_password := None; b_title := Some title; b_student := Some student;
     b_listaId := None; b_infoGeneral := None; b_configuracion := None;
     b_nivelesDesempeno := None; b_criterios := None; b_feedback := None;
     b_resultados := None |}.

Definition search_request : request :=
  post "/api/reports/search" as_alice (Done (search_body "Prueba 1" "Ana")).

(** A create-report request that carries no [id]. *)
Definition create_without_id : request :=
  post "/api/reports" as_alice (Done (report_body None None)).

Definition anonymous_put : request :=
  {| method := "PUT"; pathname := "/api/nowhere/at/all";
     authorization := Some "Basic dXNlcjpwYXNz"; req_json := Failed "no body";
     served_at := "2025-03-01 09:00:00" |}.

(** Alice logs in again. *)
Definition login_again (token : option string) : request :=
  post "/api/auth/login" token
       (Done (credentials None (Some "a@x.com") None (Some "secret"))).

(** The store after that login when the generator yields a new token,
    and when it yields the token Alice holds already. *)
Definition logged_in_again : db :=
  snd (Pages.onRequest "tok-alice-2" (login_again None) store).

Definition same_token_again : db :=
  snd (Pages.onRequest "tok-alice" (login_again None) store).

(** After Alice's new login, Bob logs in and the generator yields the
    token Alice held first. *)
Definition token_reissued : db :=
  snd (Pages.onRequest
         "tok-alice"
         (post "/api/auth/login" None
               (Done (credentials None (Some "b@x.com") None
                                  (Some "hunter2"))))
         logged_in_again).

(** The configuration a read of the report answers after Alice created
    it with the given one. *)
Definition configuration_read_back (configuracion : json) : option json :=
  let created :=
    Pages.onRequest "unused"
                    (post "/api/reports" as_alice
                          (Done (configured "r2" configuracion)))
                    store in
  match content (fst (Pages.onRequest
                        "x" (bodiless "GET" "/api/reports/r2" as_alice)
                        (snd created))) with
  | Some (JObj props) =>
      if Nat.eqb (status (fst created)) 201
      then get_prop "configuracion" props
      else None
  | _ => None
  end.


End Sample.
Import Sample.
(* ================================================================= *)
(** * Properties *)

(** ** Numbers: a literal read back from the text of a number *)

Module DoubleFacts.
Import Double Json DoubleTools.
Local Open Scope Z_scope.

Lemma ends_no_digit (rest : string) : JsonTools.ends_number rest -> no_digit_ahead rest.
Proof.
  destruct rest as [|c r]; [trivial|]. cbn. unfold JsonTools.extends_number.
  now destruct (digit_value c).
Qed.

Lemma digit_value_char (d : Z) :
  0 <= d <= 9 -> digit_value (digit_char d) = Some d.
Proof.
  intros H.
  assert (Hd : d = 0 \/ d = 1 \/ d = 2 \/ d = 3 \/ d = 4 \/ d = 5 \/ d = 6
               \/ d = 7 \/ d = 8 \/ d = 9) by lia.
  repeat (destruct Hd as [-> | Hd]; [reflexivity|]). now subst.
Qed.

Lemma digit_or_zero_char (d : Z) : 0 <= d <= 9 -> digit_or_zero (digit_char d) = d.
Proof. intros H. unfold digit_or_zero. now rewrite digit_value_char. Qed.

Lemma is_digit_char (d : Z) : 0 <= d <= 9 -> is_digit (digit_char d).
Proof. intros H. exists d. now apply digit_value_char. Qed.

Lemma all_digits_app (a b : string) :
  all_digits a -> all_digits b -> all_digits (a ++ b).
Proof.
  induction a as [|c a IH]; cbn; [auto|]. intros [Hc Ha] Hb. split; auto.
Qed.

Lemma value_from_app (acc : Z) (a b : string) :
  value_from acc (a ++ b) = value_from (value_from acc a) b.
Proof.
  revert acc. induction a as [|c a IH]; intros acc; cbn; [reflexivity|].
  apply IH.
Qed.

Lemma length_app (a b : string) :
  String.length (a ++ b) = (String.length a + String.length b)%nat.
Proof.
  induction a as [|x a IH]; simpl; [reflexivity | now rewrite IH].
Qed.

Lemma app_assoc (a b c : string) : (a ++ b) ++ c = a ++ (b ++ c).
Proof.
  induction a as [|x a IH]; simpl; [reflexivity | now rewrite IH].
Qed.

Lemma value_from_shift (acc : Z) (s : string) :
  value_from acc s = acc * 10 ^ Z.of_nat (String.length s) + value_from 0 s.
Proof.
  revert acc. induction s as [|c s IH]; intros acc.
  - cbn. lia.
  - cbn [value_from String.length]. rewrite IH, (IH (0 * 10 + _)).
    rewrite Nat2Z.inj_succ, Z.pow_succ_r by lia. ring.
Qed.

Lemma read_digits_run (ds rest : string) (acc : Z) :
  all_digits ds -> no_digit_ahead rest ->
  read_digits (ds ++ rest) acc = (value_from acc ds, String.length ds, rest).
Proof.
  revert acc. induction ds as [|c ds IH]; intros acc Hds Hrest.
  - cbn. destruct rest as [|c r]; [reflexivity|]. cbn in *. now rewrite Hrest.
  - destruct Hds as [[v Hv] Hds]. cbn [append read_digits value_from String.length].
    unfold digit_or_zero. rewrite Hv. now rewrite IH.
Qed.

Lemma one_digit (s : Z) (tail : string) :
  0 <= s < 10 ->
  exists D,
    String (digit_char s) tail = D ++ tail
    /\ all_digits D /\ (1 <= String.length D)%nat
    /\ value_from 0 D = s
    /\ (0 < s -> exists c r, D = String c r /\ digit_value c <> Some 0).
Proof.
  intros Hs. exists (String (digit_char s) EmptyString).
  cbn [append all_digits String.length value_from].
  rewrite digit_or_zero_char by lia.
  split; [reflexivity|]. split; [split; [apply is_digit_char; lia | trivial]|].
  split; [lia|]. split; [lia|].
  intros Hpos. exists (digit_char s), EmptyString. split; [reflexivity|].
  rewrite digit_value_char by lia. intros [= E]. lia.
Qed.

(** The digits of a number, most significant first. *)
Lemma digits_onto_spec (f : nat) :
  forall (s : Z) (tail : string),
    0 <= s < 10 ^ Z.of_nat (S f) ->
    exists D,
      digits_onto (S f) s tail = D ++ tail
      /\ all_digits D /\ (1 <= String.length D)%nat
      /\ value_from 0 D = s
      /\ (0 < s -> exists c r, D = String c r /\ digit_value c <> Some 0).
Proof.
  induction f as [|f IH]; intros s tail Hs.
  - assert (Hlt : s < 10) by (cbn in Hs; lia).
    cbn [digits_onto]. apply Z.ltb_lt in Hlt. rewrite Hlt. apply Z.ltb_lt in Hlt.
    apply one_digit. lia.
  - change (digits_onto (S (S f)) s tail)
      with (if s <? 10 then String (digit_char s) tail
            else digits_onto (S f) (s / 10)
                             (String (digit_char (s mod 10)) tail)).
    destruct (s <? 10) eqn:E.
    + apply Z.ltb_lt in E. apply one_digit. lia.
    + apply Z.ltb_ge in E.
      assert (Hq : 0 <= s / 10 < 10 ^ Z.of_nat (S f)).
      { split; [apply Z.div_pos; lia|].
        apply Z.div_lt_upper_bound; [lia|].
        replace (10 * 10 ^ Z.of_nat (S f)) with (10 ^ Z.of_nat (S (S f)));
          [lia|].
        rewrite (Nat2Z.inj_succ (S f)), Z.pow_succ_r by lia. reflexivity. }
      destruct (IH (s / 10) (String (digit_char (s mod 10)) tail) Hq)
        as (D & HD & Hall & Hlen & Hval & Hhead).
      pose proof (Z.mod_pos_bound s 10 ltac:(lia)) as Hmod.
      exists (D ++ String (digit_char (s mod 10)) EmptyString).
      rewrite HD, app_assoc. cbn [append].
      split; [reflexivity|]. split; [|split; [|split]].
      * apply all_digits_app; [assumption|]. cbn [all_digits]. split; [|trivial].
        apply is_digit_char. lia.
      * rewrite length_app. lia.
      * rewrite value_from_app, Hval. cbn [value_from].
        rewrite digit_or_zero_char by lia.
        pose proof (Z.div_mod s 10 ltac:(lia)). lia.
      * intros Hpos. destruct Hhead as (c & r & -> & Hc).
        { apply Z.div_str_pos. lia. }
        exists c, (r ++ String (digit_char (s mod 10)) EmptyString).
        split; [reflexivity | assumption].
Qed.

Lemma pow2_le_pow10 (n : Z) : 0 <= n -> 2 ^ n <= 10 ^ n.
Proof. intros H. apply Z.pow_le_mono_l. lia. Qed.

Lemma digits_spec (s : Z) :
  0 <= s ->
  all_digits (digits s) /\ (1 <= String.length (digits s))%nat
  /\ value_from 0 (digits s) = s
  /\ (0 < s -> exists c r, digits s = String c r /\ digit_value c <> Some 0).
Proof.
  intros Hs. unfold digits.
  assert (Hfuel : 0 <= s < 10 ^ Z.of_nat (S (Z.to_nat (Z.log2 s)))).
  { split; [assumption|].
    rewrite Nat2Z.inj_succ, Z2Nat.id by apply Z.log2_nonneg.
    destruct (Z.eq_dec s 0) as [-> | Hne]; [cbn; lia|].
    pose proof (Z.log2_spec s ltac:(lia)) as [_ Hup].
    pose proof (pow2_le_pow10 (Z.succ (Z.log2 s))
                              ltac:(pose proof (Z.log2_nonneg s); lia)).
    lia. }
  destruct (digits_onto_spec _ s EmptyString Hfuel)
    as (D & HD & Hall & Hlen & Hval & Hhead).
  assert (E : D ++ EmptyString = D) by (clear; induction D; cbn; congruence).
  rewrite E in HD. rewrite HD. repeat split; assumption.
Qed.

Lemma digits_nonempty (s : Z) : (1 <= String.length (digits s))%nat.
Proof.
  unfold digits. generalize (Z.to_nat (Z.log2 s)) as f.
  assert (H : forall f s tail,
             (String.length tail <= String.length (digits_onto f s tail))%nat
             /\ (1 <= String.length (digits_onto (S f) s tail))%nat).
  { clear. induction f as [|f IH]; intros s tail.
    - cbn. destruct (s <? 10); cbn; lia.
    - destruct (IH (s / 10) (String (digit_char (s mod 10)) tail))
        as [Hle Hone].
      change (digits_onto (S (S f)) s tail)
        with (if s <? 10 then String (digit_char s) tail
              else digits_onto (S f) (s / 10)
                               (String (digit_char (s mod 10)) tail)).
      change (digits_onto (S f) s tail)
        with (if s <? 10 then String (digit_char s) tail
              else digits_onto f (s / 10)
                               (String (digit_char (s mod 10)) tail)).
      destruct (s <? 10); cbn [String.length] in *; lia. }
  intros f. apply H.
Qed.

Lemma zeros_spec (n : nat) (acc : Z) :
  all_digits (zeros n) /\ String.length (zeros n) = n
  /\ value_from acc (zeros n) = acc * 10 ^ Z.of_nat n.
Proof.
  revert acc. induction n as [|n IH]; intros acc.
  - cbn. repeat split. lia.
  - destruct (IH (acc * 10 + 0)) as (Ha & Hl & Hv).
    cbn [zeros all_digits String.length value_from].
    change (digit_or_zero "0") with 0. rewrite Hv, Hl.
    repeat split; try assumption; [now exists 0|].
    rewrite Nat2Z.inj_succ, Z.pow_succ_r by lia. ring.
Qed.

Lemma chars_split (n : nat) (s : string) :
  first_chars n s ++ rest_chars n s = s.
Proof.
  revert s. induction n as [|n IH]; intros s; [reflexivity|].
  destruct s as [|c s]; [reflexivity|]. cbn. now rewrite IH.
Qed.

Lemma first_chars_length (n : nat) (s : string) :
  (n <= String.length s)%nat -> String.length (first_chars n s) = n.
Proof.
  revert s. induction n as [|n IH]; intros s H; [reflexivity|].
  destruct s as [|c s]; cbn in *; [lia|]. rewrite IH; lia.
Qed.

Lemma all_digits_split (n : nat) (s : string) :
  all_digits s -> all_digits (first_chars n s) /\ all_digits (rest_chars n s).
Proof.
  revert s. induction n as [|n IH]; intros s H; [now split|].
  destruct s as [|c s]; [now split|]. destruct H as [Hc Hs].
  destruct (IH s Hs). cbn. repeat split; assumption.
Qed.

(** *** Trailing zeros *)

Lemma strip_spec (fuel : nat) :
  forall s q, 0 < s ->
    0 < fst (strip fuel s q) /\ q <= snd (strip fuel s q)
    /\ s = fst (strip fuel s q) * 10 ^ (snd (strip fuel s q) - q).
Proof.
  induction fuel as [|f IH]; intros s q Hs.
  - cbn. rewrite Z.sub_diag. lia.
  - cbn [strip]. destruct ((0 <? s) && (s mod 10 =? 0)) eqn:E.
    + apply andb_prop in E as [_ E]. apply Z.eqb_eq in E.
      pose proof (Z.div_mod s 10 ltac:(lia)) as Hdm.
      assert (Hq : 0 < s / 10) by (apply Z.div_str_pos; lia).
      destruct (IH (s / 10) (q + 1) Hq) as (Hpos & Hle & Hval).
      split; [assumption|]. split; [lia|].
      replace (snd (strip f (s / 10) (q + 1)) - q)
        with (Z.succ (snd (strip f (s / 10) (q + 1)) - (q + 1))) by lia.
      rewrite Z.pow_succ_r by lia. lia.
    + cbn. rewrite Z.sub_diag. lia.
Qed.

Lemma strip_done (fuel : nat) :
  forall s q, 0 < s < 10 * 2 ^ Z.of_nat fuel ->
    fst (strip fuel s q) mod 10 <> 0.
Proof.
  induction fuel as [|f IH]; intros s q Hs.
  - cbn in *. rewrite Z.mod_small; lia.
  - cbn [strip]. destruct ((0 <? s) && (s mod 10 =? 0)) eqn:E.
    + apply andb_prop in E as [_ E]. apply Z.eqb_eq in E.
      pose proof (Z.div_mod s 10 ltac:(lia)) as Hdm.
      apply IH. split; [apply Z.div_str_pos; lia|].
      apply Z.div_lt_upper_bound; [lia|].
      rewrite Nat2Z.inj_succ, Z.pow_succ_r in Hs by lia. lia.
    + cbn. apply andb_false_iff in E as [E | E].
      * apply Z.ltb_ge in E. lia.
      * now apply Z.eqb_neq in E.
Qed.

Lemma normal_decimal_spec (s q : Z) :
  0 < s ->
  canonical (fst (normal_decimal s q))
  /\ q <= snd (normal_decimal s q)
  /\ s = fst (normal_decimal s q) * 10 ^ (snd (normal_decimal s q) - q).
Proof.
  intros Hs. unfold normal_decimal, canonical.
  destruct (strip_spec (Z.to_nat (Z.log2 s)) s q Hs) as (Hpos & Hle & Hval).
  repeat split; try assumption.
  apply strip_done. split; [assumption|].
  rewrite Z2Nat.id by apply Z.log2_nonneg.
  pose proof (Z.log2_spec s Hs) as [_ Hup].
  rewrite Z.pow_succ_r in Hup by apply Z.log2_nonneg. lia.
Qed.

Lemma strip_canonical (fuel : nat) (s q : Z) :
  canonical s -> strip fuel s q = (s, q).
Proof.
  intros [Hpos Hmod]. destruct fuel as [|f]; [reflexivity|].
  cbn [strip]. apply Z.eqb_neq in Hmod. rewrite Hmod.
  now rewrite andb_false_r.
Qed.

Lemma normal_canonical (s q : Z) : canonical s -> normal_decimal s q = (s, q).
Proof. apply strip_canonical. Qed.

Lemma strip_zeros (j : nat) :
  forall fuel s q, (j <= fuel)%nat -> canonical s ->
    strip fuel (s * 10 ^ Z.of_nat j) q = (s, q + Z.of_nat j).
Proof.
  induction j as [|j IH]; intros fuel s q Hj Hs.
  - cbn [Z.of_nat]. rewrite Z.pow_0_r, Z.mul_1_r, Z.add_0_r.
    now apply strip_canonical.
  - destruct fuel as [|f]; [lia|].
    assert (Hpow : 0 < 10 ^ Z.of_nat j) by (apply Z.pow_pos_nonneg; lia).
    rewrite Nat2Z.inj_succ, Z.pow_succ_r by lia.
    replace (s * (10 * 10 ^ Z.of_nat j)) with ((s * 10 ^ Z.of_nat j) * 10)
      by ring.
    cbn [strip]. rewrite Z.mod_mul by lia. rewrite Z.div_mul by lia.
    destruct Hs as [Hpos Hmod].
    assert (Hp : (0 <? s * 10 ^ Z.of_nat j * 10) = true) by (apply Z.ltb_lt; nia).
    rewrite Hp. cbn [andb Z.eqb].
    rewrite IH; [f_equal; lia | lia | now split].
Qed.

Lemma normal_zeros (s : Z) (j : nat) (q : Z) :
  canonical s ->
  normal_decimal (s * 10 ^ Z.of_nat j) q = (s, q + Z.of_nat j).
Proof.
  intros Hs. unfold normal_decimal. apply strip_zeros; [|assumption].
  destruct Hs as [Hpos _].
  assert (H2 : 2 ^ Z.of_nat j <= s * 10 ^ Z.of_nat j).
  { pose proof (pow2_le_pow10 (Z.of_nat j) ltac:(lia)).
    assert (0 < 2 ^ Z.of_nat j) by (apply Z.pow_pos_nonneg; lia). nia. }
  assert (Hlog : Z.of_nat j <= Z.log2 (s * 10 ^ Z.of_nat j)).
  { apply Z.log2_le_pow2; [|assumption].
    assert (0 < 2 ^ Z.of_nat j) by (apply Z.pow_pos_nonneg; lia). lia. }
  lia.
Qed.

Lemma of_decimal_sign (negative : bool) (s q : Z) :
  of_decimal negative s q = with_sign negative (of_decimal false s q).
Proof.
  unfold of_decimal. destruct (s <=? 0); [reflexivity|].
  destruct (0 <=? q);
    match goal with
    | |- context [round_units ?P ?d] => destruct (round_units P d) as [[m e]|]
    end; reflexivity.
Qed.

(** *** The text of a decimal, read *)

Ltac by_character c :=
  destruct c as [[] [] [] [] [] [] [] []]; try reflexivity; try discriminate.

Lemma read_int_run (c : ascii) (r : string) :
  digit_value c <> Some 0 ->
  read_int (String c r)
  = match read_digits (String c r) 0 with
    | (_, O, _) => None
    | (v, _, rest) => Some (v, rest)
    end.
Proof. intros H. by_character c. now contradiction H. Qed.

Lemma read_fraction_none (rest : string) (int : Z) :
  JsonTools.ends_number rest -> read_fraction rest int = Some (int, O, rest).
Proof.
  destruct rest as [|c r]; [reflexivity|]. cbn [JsonTools.ends_number].
  intros H. by_character c.
Qed.

Lemma read_exponent_none (rest : string) :
  JsonTools.ends_number rest -> read_exponent rest = Some (0, rest).
Proof.
  destruct rest as [|c r]; [reflexivity|]. cbn [JsonTools.ends_number].
  intros H. by_character c.
Qed.

Lemma read_fraction_exponent (rest : string) (int : Z) :
  read_fraction (String "e" rest) int = Some (int, O, String "e" rest).
Proof. reflexivity. Qed.

Lemma read_unsigned_not_minus (c : ascii) (r : string) :
  is_digit c -> read_number (String c r) = read_unsigned false (String c r).
Proof. intros [v H]. by_character c. Qed.

Lemma read_power_digits (x : Z) (rest : string) (negative : bool) :
  0 <= x -> no_digit_ahead rest ->
  read_power (digits x ++ rest) negative
  = Some (if negative then - x else x, rest).
Proof.
  intros Hx Hrest. unfold read_power.
  destruct (digits_spec x Hx) as (Hall & Hlen & Hval & _).
  rewrite (read_digits_run _ _ 0 Hall Hrest), Hval.
  destruct (String.length (digits x)); [lia | reflexivity].
Qed.

Lemma read_exponent_text (x : Z) (rest : string) :
  no_digit_ahead rest ->
  read_exponent (String "e" (exponent_text x ++ rest)) = Some (x, rest).
Proof.
  intros Hrest. unfold exponent_text.
  destruct (x <? 0) eqn:E; cbn [append read_exponent].
  - apply Z.ltb_lt in E. rewrite read_power_digits by (lia || assumption).
    f_equal. f_equal. lia.
  - apply Z.ltb_ge in E. rewrite read_power_digits by (lia || assumption).
    f_equal. f_equal. lia.
Qed.

Section Printed.

Variable negative : bool.
Variables s q : Z.
Hypothesis Hs : canonical s.
Variable rest : string.
Hypothesis Hrest : JsonTools.ends_number rest.

Local Abbreviation ds := (digits s).
Local Abbreviation k := (Z.of_nat (String.length (digits s))).

Lemma read_plain_digits :
  k <= q + k ->
  read_unsigned negative ((ds ++ zeros (Z.to_nat (q + k - k))) ++ rest)
  = Some (of_decimal negative s q, rest).
Proof.
  intros Hq. destruct Hs as [Hpos Hmod].
  destruct (digits_spec s ltac:(lia)) as (Hall & Hlen & Hval & Hhead).
  destruct (Hhead Hpos) as (c & r & Hds & Hc).
  destruct (zeros_spec (Z.to_nat (q + k - k)) s) as (Hzall & Hzlen & Hzval).
  assert (Hrun : read_digits ((ds ++ zeros (Z.to_nat (q + k - k))) ++ rest) 0
                 = (s * 10 ^ Z.of_nat (Z.to_nat (q + k - k)),
                    String.length (ds ++ zeros (Z.to_nat (q + k - k))), rest)).
  { rewrite read_digits_run;
      [| now apply all_digits_app | now apply ends_no_digit].
    now rewrite value_from_app, Hval, Hzval. }
  unfold read_unsigned.
  assert (Hint : read_int ((ds ++ zeros (Z.to_nat (q + k - k))) ++ rest)
                 = Some (s * 10 ^ Z.of_nat (Z.to_nat (q + k - k)), rest)).
  { revert Hrun. rewrite Hds. cbn [append]. intros Hrun.
    rewrite (read_int_run c _ Hc), Hrun. reflexivity. }
  rewrite Hint, read_fraction_none, read_exponent_none by assumption.
  unfold of_literal. rewrite normal_zeros by (now split).
  cbn [Z.of_nat]. do 2 f_equal. f_equal. lia.
Qed.

Lemma read_fraction_form (n : nat) :
  (0 < n < String.length ds)%nat -> q + k = Z.of_nat n ->
  read_unsigned negative
    ((first_chars n ds ++ String "." (rest_chars n ds)) ++ rest)
  = Some (of_decimal negative s q, rest).
Proof.
  intros Hn Hq. destruct Hs as [Hpos Hmod].
  destruct (digits_spec s ltac:(lia)) as (Hall & Hlen & Hval & Hhead).
  destruct (Hhead Hpos) as (c & r & Hds & Hc).
  destruct (all_digits_split n _ Hall) as [Hfirst Hlast].
  pose proof (chars_split n ds) as Hsplit.
  pose proof (first_chars_length n ds ltac:(lia)) as Hflen.
  assert (Hllen : String.length (rest_chars n ds)
                  = (String.length ds - n)%nat).
  { rewrite <- Hsplit at 2. rewrite length_app, Hflen. lia. }
  rewrite app_assoc. cbn [append].
  unfold read_unsigned.
  assert (Hint : read_int (first_chars n ds
                           ++ String "." (rest_chars n ds ++ rest))
                 = Some (value_from 0 (first_chars n ds),
                         String "." (rest_chars n ds ++ rest))).
  { pose proof (read_digits_run (first_chars n ds)
                                (String "." (rest_chars n ds ++ rest)) 0
                                Hfirst eq_refl) as Hrun.
    revert Hrun Hflen. rewrite Hds.
    destruct n as [|n]; [lia|]. cbn [first_chars append]. intros Hrun Hflen.
    rewrite (read_int_run c _ Hc), Hrun. reflexivity. }
  rewrite Hint. cbn [read_fraction].
  rewrite (read_digits_run _ _ _ Hlast (ends_no_digit _ Hrest)).
  rewrite <- value_from_app, Hsplit, Hval, Hllen.
  destruct (String.length ds - n)%nat eqn:E; [lia|]. rewrite <- E.
  rewrite read_exponent_none by assumption.
  unfold of_literal. rewrite normal_canonical by (now split).
  do 2 f_equal. f_equal. lia.
Qed.

Lemma read_small_form :
  q + k <= 0 ->
  read_unsigned negative
    (String "0" (String "." (zeros (Z.to_nat (- (q + k))) ++ ds)) ++ rest)
  = Some (of_decimal negative s q, rest).
Proof.
  intros Hq. destruct Hs as [Hpos Hmod].
  destruct (digits_spec s ltac:(lia)) as (Hall & Hlen & Hval & _).
  destruct (zeros_spec (Z.to_nat (- (q + k))) 0) as (Hzall & Hzlen & Hzval).
  cbn [append]. unfold read_unsigned. cbn [read_int read_fraction].
  rewrite (read_digits_run _ _ _ (all_digits_app _ _ Hzall Hall)
                           (ends_no_digit _ Hrest)).
  rewrite value_from_app, Hzval, length_app, Hzlen.
  rewrite Z.mul_0_l, Hval.
  destruct (Z.to_nat (- (q + k)) + String.length ds)%nat eqn:E; [lia|].
  rewrite <- E. rewrite read_exponent_none by assumption.
  unfold of_literal. rewrite normal_canonical by (now split).
  do 2 f_equal. f_equal. lia.
Qed.

Lemma read_exponent_form :
  read_unsigned negative
    (match ds with
     | String c EmptyString =>
         String c (String "e" (exponent_text (q + k - 1)))
     | String c r =>
         String c (String "." (r ++ String "e" (exponent_text (q + k - 1))))
     | EmptyString => EmptyString
     end ++ rest)
  = Some (of_decimal negative s q, rest).
Proof.
  destruct Hs as [Hpos Hmod].
  destruct (digits_spec s ltac:(lia)) as (Hall & Hlen & Hval & Hhead).
  destruct (Hhead Hpos) as (c & r & Hds & Hc). clear Hhead.
  rewrite Hds in *. destruct Hall as [Hcd Hall].
  set (x := q + Z.of_nat (String.length (String c r)) - 1).
  assert (Hx : x = q + Z.of_nat (String.length (String c r)) - 1)
    by reflexivity.
  clearbody x. unfold read_unsigned. destruct r as [|c' r].
  - cbn [append]. rewrite (read_int_run c _ Hc).
    assert (Hrun : read_digits
                     (String c (String "e" (exponent_text x ++ rest))) 0
                   = (s, 1%nat, String "e" (exponent_text x ++ rest))).
    { pose proof (read_digits_run
                    (String c EmptyString)
                    (String "e" (exponent_text x ++ rest)) 0
                    (conj Hcd I) eq_refl) as H.
      cbn [append String.length] in H. now rewrite Hval in H. }
    rewrite Hrun, read_fraction_exponent.
    rewrite read_exponent_text by (now apply ends_no_digit).
    unfold of_literal. rewrite normal_canonical by (now split).
    do 2 f_equal. f_equal. cbn [String.length] in Hx. lia.
  - cbn [append]. rewrite app_assoc. cbn [append].
    rewrite (read_int_run c _ Hc).
    assert (Hrun : read_digits
                     (String c (String "." (String c' r
                        ++ String "e" (exponent_text x ++ rest)))) 0
                   = (value_from 0 (String c EmptyString), 1%nat,
                      String "." (String c' r
                        ++ String "e" (exponent_text x ++ rest)))).
    { exact (read_digits_run
               (String c EmptyString)
               (String "." (String c' r
                   ++ String "e" (exponent_text x ++ rest))) 0
               (conj Hcd I) eq_refl). }
    cbn [append] in Hrun. rewrite Hrun. cbn [read_fraction].
    pose proof (read_digits_run
                  (String c' r) (String "e" (exponent_text x ++ rest))
                  (value_from 0 (String c EmptyString)) Hall eq_refl) as Hfrac.
    cbn [append] in Hfrac. rewrite Hfrac.
    change (value_from (value_from 0 (String c EmptyString)) (String c' r))
      with (value_from 0 (String c (String c' r))).
    rewrite Hval. cbn [String.length].
    rewrite read_exponent_text by (now apply ends_no_digit).
    unfold of_literal. rewrite normal_canonical by (now split).
    do 2 f_equal. f_equal. cbn [String.length] in Hx. lia.
Qed.

(** The text of a decimal denotes the decimal. *)
Lemma read_print_decimal :
  read_unsigned negative (print_decimal s q ++ rest)
  = Some (of_decimal negative s q, rest).
Proof.
  unfold print_decimal.
  destruct ((k <=? q + k) && (q + k <=? 21)) eqn:E1.
  { apply andb_prop in E1 as [E1 _]. apply Z.leb_le in E1.
    now apply read_plain_digits. }
  destruct ((0 <? q + k) && (q + k <=? 21)) eqn:E2.
  { apply andb_prop in E2 as [E2 E2']. apply Z.ltb_lt in E2.
    apply Z.leb_le in E2'.
    apply andb_false_iff in E1 as [E1 | E1];
      [apply Z.leb_gt in E1 | apply Z.leb_gt in E1; lia].
    apply read_fraction_form; lia. }
  destruct ((-6 <? q + k) && (q + k <=? 0)) eqn:E3.
  { apply andb_prop in E3 as [_ E3]. apply Z.leb_le in E3.
    now apply read_small_form. }
  apply read_exponent_form.
Qed.

End Printed.

(** *** The decimal of a number *)

Lemma same_eq (x y : number) : same x y = true -> x = y.
Proof.
  destruct x as [|a|a m e], y as [|b|b m' e']; cbn; try discriminate;
    try reflexivity.
  - intros H. apply Bool.eqb_prop in H. now subst.
  - intros H. apply andb_prop in H as [H He]. apply andb_prop in H as [Ha Hm].
    apply Bool.eqb_prop in Ha. apply Z.eqb_eq in Hm, He. now subst.
Qed.

Section Decimal.

Variables m e : Z.
Hypothesis Hm : 0 < m.

Lemma reads_as_denotes (c q : Z) (found : Z * Z) :
  reads_as m e c q = Some found -> denotes m e found.
Proof.
  unfold reads_as.
  destruct (normal_decimal c q) as [s q'] eqn:E.
  destruct (same (of_decimal false s q') (Finite false m e)) eqn:Esame;
    [|discriminate].
  intros [= <-]. apply same_eq in Esame. split; [|exact Esame].
  cbn [fst]. destruct (Z.ltb_spec 0 c) as [Hc | Hc].
  - pose proof (normal_decimal_spec c q Hc) as [H _]. now rewrite E in H.
  - exfalso. unfold normal_decimal in E.
    assert (Hs : s = c).
    { destruct (Z.to_nat (Z.log2 c)); cbn [strip] in E.
      - now injection E.
      - apply Z.ltb_ge in Hc. rewrite Hc in E. now injection E. }
    subst s. unfold of_decimal in Esame.
    apply Z.leb_le in Hc. rewrite Hc in Esame. injection Esame as Hz. lia.
Qed.

Lemma candidate_denotes (N D n k : Z) (found : Z * Z) :
  candidate m e N D n k = Some found -> denotes m e found.
Proof.
  unfold candidate.
  destruct (0 <=? n - k);
    match goal with
    | |- context [reads_as m e (?num / ?den) ?q] =>
        destruct (reads_as m e (num / den) q) as [below|] eqn:Eb;
        destruct (reads_as m e (num / den + 1) q) as [above|] eqn:Ea
    end;
    try discriminate;
    try (apply reads_as_denotes in Eb); try (apply reads_as_denotes in Ea);
    intros [= <-]; try assumption;
    match goal with
    | |- context [?a ?= ?b] => destruct (a ?= b)
    end; try assumption;
    match goal with
    | |- context [Z.even ?a] => destruct (Z.even a)
    end; assumption.
Qed.

Lemma shortest_denotes (tries : nat) :
  forall (N D n k : Z) (found : Z * Z),
    shortest m e tries N D n k = Some found -> denotes m e found.
Proof.
  induction tries as [|t IH]; intros N D n k found; [discriminate|].
  cbn [shortest]. destruct (candidate m e N D n k) as [c|] eqn:E.
  - intros [= <-]. exact (candidate_denotes _ _ _ _ _ E).
  - apply IH.
Qed.

Lemma exact_canonical : canonical (fst (exact_decimal m e)).
Proof.
  unfold exact_decimal. destruct (0 <=? e) eqn:E.
  - apply normal_decimal_spec.
    apply Z.leb_le in E.
    assert (0 < 2 ^ e) by (apply Z.pow_pos_nonneg; lia). nia.
  - apply normal_decimal_spec.
    apply Z.leb_gt in E.
    assert (0 < 5 ^ (- e)) by (apply Z.pow_pos_nonneg; lia). nia.
Qed.

Lemma to_decimal_canonical : canonical (fst (to_decimal m e)).
Proof.
  unfold to_decimal.
  match goal with
  | |- context [shortest m e ?t ?N ?D ?n ?k] =>
      destruct (shortest m e t N D n k) as [found|] eqn:E
  end.
  - exact (proj1 (shortest_denotes _ _ _ _ _ _ E)).
  - apply exact_canonical.
Qed.

End Decimal.

(** *** Rounding a value that is a number gives that number *)

Lemma half_even_exact (m den : Z) : 0 < den -> half_even (m * den) den = m.
Proof.
  intros H. unfold half_even.
  rewrite Z.mod_mul, Z.div_mul by lia.
  destruct (Z.compare_spec (2 * 0) den); lia.
Qed.

Lemma pow2_pos (n : Z) : 0 <= n -> 0 < 2 ^ n.
Proof. intros H. apply Z.pow_pos_nonneg; lia. Qed.

Lemma ilog2_exact (P d m T E : Z) :
  0 < d -> 0 <= E -> T = 52 + E ->
  2 ^ 52 <= m < 2 ^ 53 -> P = m * 2 ^ E * d ->
  ilog2 P d = T.
Proof.
  intros Hd HE HT Hm HP.
  assert (H2E : 0 < 2 ^ E) by now apply pow2_pos.
  assert (HPpos : 0 < P) by (subst P; nia).
  pose proof (Z.log2_spec P HPpos) as [Ha1 Ha2].
  pose proof (Z.log2_spec d Hd) as [Hb1 Hb2].
  pose proof (Z.log2_nonneg P) as Ha0. pose proof (Z.log2_nonneg d) as Hb0.
  assert (Hlow : 2 ^ T * d <= P).
  { subst T P. rewrite Z.pow_add_r by lia. nia. }
  assert (Hup : P < 2 ^ (T + 1) * d).
  { subst T P. replace (52 + E + 1) with (53 + E) by lia.
    rewrite Z.pow_add_r by lia. nia. }
  assert (Hg1 : T <= Z.log2 P - Z.log2 d).
  { assert (2 ^ (T + Z.log2 d) < 2 ^ Z.succ (Z.log2 P)).
    { rewrite Z.pow_add_r by lia.
      assert (0 < 2 ^ T) by (apply pow2_pos; lia). nia. }
    apply Z.pow_lt_mono_r_iff in H; lia. }
  assert (Hg2 : Z.log2 P - Z.log2 d <= T + 1).
  { assert (2 ^ Z.log2 P < 2 ^ (T + 1 + Z.succ (Z.log2 d))).
    { rewrite Z.pow_add_r by lia.
      assert (0 < 2 ^ (T + 1)) by (apply pow2_pos; lia). nia. }
    apply Z.pow_lt_mono_r_iff in H; lia. }
  unfold ilog2.
  assert (Hcase : Z.log2 P - Z.log2 d = T \/ Z.log2 P - Z.log2 d = T + 1)
    by lia.
  destruct Hcase as [-> | ->].
  - assert (Ht : (d * 2 ^ T <=? P) = true) by (apply Z.leb_le; lia).
    now rewrite Ht.
  - assert (Ht : (d * 2 ^ (T + 1) <=? P) = false) by (apply Z.leb_gt; lia).
    rewrite Ht. lia.
Qed.

Lemma ilog2_small (P d m : Z) :
  0 < d -> 0 < m < 2 ^ 52 -> P = m * d -> ilog2 P d <= 52.
Proof.
  intros Hd Hm HP.
  assert (HPpos : 0 < P) by (subst P; nia).
  pose proof (Z.log2_spec P HPpos) as [Ha1 Ha2].
  pose proof (Z.log2_spec d Hd) as [Hb1 Hb2].
  pose proof (Z.log2_nonneg P) as Ha0. pose proof (Z.log2_nonneg d) as Hb0.
  assert (Hg : Z.log2 P - Z.log2 d <= 52).
  { assert (2 ^ Z.log2 P < 2 ^ (52 + Z.succ (Z.log2 d))).
    { rewrite Z.pow_add_r by lia. nia. }
    apply Z.pow_lt_mono_r_iff in H; lia. }
  unfold ilog2. destruct (_ <=? P); lia.
Qed.

Lemma round_units_exact (P d m e : Z) :
  0 < d -> magnitude_ok m e -> P = m * 2 ^ (e + 1074) * d ->
  round_units P d = Some (m, e).
Proof.
  intros Hd (Hm & He & Hnorm) HP.
  assert (H2E : 0 < 2 ^ (e + 1074)) by (apply pow2_pos; lia).
  assert (Hshift : Z.max (ilog2 P d - 52) 0 = e + 1074).
  { destruct (Z.le_gt_cases (2 ^ 52) m) as [Hn | Hsub].
    - rewrite (ilog2_exact P d m (52 + (e + 1074)) (e + 1074));
        try lia; try assumption.
    - assert (e = -1074) by lia. subst e.
      change (-1074 + 1074) with 0 in *. rewrite Z.pow_0_r, Z.mul_1_r in HP.
      pose proof (ilog2_small P d m Hd ltac:(lia) HP). lia. }
  unfold round_units. rewrite Hshift.
  replace P with (m * (d * 2 ^ (e + 1074))) by (subst P; ring).
  rewrite half_even_exact by nia.
  assert (Hne : (m =? 2 ^ 53) = false) by (apply Z.eqb_neq; lia).
  rewrite Hne.
  assert (Hin : (2045 <? e + 1074) = false) by (apply Z.ltb_ge; lia).
  rewrite Hin. do 2 f_equal. lia.
Qed.

Lemma exact_decimal_denotes (m e : Z) :
  magnitude_ok m e ->
  of_decimal false (fst (exact_decimal m e)) (snd (exact_decimal m e))
  = Finite false m e.
Proof.
  intros Hok. pose proof Hok as (Hm & He & _).
  unfold exact_decimal. destruct (0 <=? e) eqn:E.
  - apply Z.leb_le in E.
    assert (Hpos : 0 < m * 2 ^ e) by (pose proof (pow2_pos e E); nia).
    destruct (normal_decimal_spec (m * 2 ^ e) 0 Hpos) as ([Hs _] & Hq & Hval).
    destruct (normal_decimal (m * 2 ^ e) 0) as [s q]. cbn [fst snd] in *.
    rewrite Z.sub_0_r in Hval.
    unfold of_decimal.
    assert (Hs' : (s <=? 0) = false) by (apply Z.leb_gt; lia). rewrite Hs'.
    apply Z.leb_le in Hq. rewrite Hq.
    rewrite (round_units_exact _ 1 m e); [reflexivity | lia | assumption |].
    rewrite <- Hval, Z.pow_add_r by lia. ring.
  - apply Z.leb_gt in E.
    assert (H5 : 0 < 5 ^ (- e)) by (apply Z.pow_pos_nonneg; lia).
    assert (Hpos : 0 < m * 5 ^ (- e)) by nia.
    destruct (normal_decimal_spec (m * 5 ^ (- e)) e Hpos)
      as ([Hs _] & Hq & Hval).
    destruct (normal_decimal (m * 5 ^ (- e)) e) as [s q]. cbn [fst snd] in *.
    assert (H10 : forall n, 0 <= n -> 10 ^ n = 2 ^ n * 5 ^ n).
    { intros n Hn. rewrite <- Z.pow_mul_l. reflexivity. }
    assert (H2 : 0 < 2 ^ (- e)) by (apply pow2_pos; lia).
    unfold of_decimal.
    assert (Hs' : (s <=? 0) = false) by (apply Z.leb_gt; lia). rewrite Hs'.
    destruct (0 <=? q) eqn:Eq.
    + apply Z.leb_le in Eq.
      rewrite (round_units_exact _ 1 m e); [reflexivity | lia | assumption |].
      (* s * 10^q * 2^(-e) = m *)
      assert (Hkey : s * 10 ^ q * 2 ^ (- e) = m).
      { replace (q - e) with (q + - e) in Hval by lia.
        rewrite Z.pow_add_r, (H10 (- e)) in Hval by lia.
        apply (Z.mul_reg_r _ _ (5 ^ (- e))); [lia|].
        rewrite Hval. ring. }
      replace (2 ^ 1074) with (2 ^ (- e) * 2 ^ (e + 1074)).
      * rewrite <- Hkey. ring.
      * rewrite <- Z.pow_add_r by lia. f_equal. lia.
    + apply Z.leb_gt in Eq.
      assert (Hd : 0 < 10 ^ (- q)) by (apply Z.pow_pos_nonneg; lia).
      rewrite (round_units_exact _ (10 ^ (- q)) m e);
        [reflexivity | lia | assumption |].
      (* s * 2^(-e) = m * 10^(-q) *)
      assert (Hkey : s * 2 ^ (- e) = m * 10 ^ (- q)).
      { apply (Z.mul_reg_r _ _ (5 ^ (- e))); [lia|].
        replace (m * 10 ^ (- q) * 5 ^ (- e))
          with (m * 5 ^ (- e) * 10 ^ (- q)) by ring.
        rewrite Hval.
        assert (Hsplit : 10 ^ (q - e) * 10 ^ (- q) = 10 ^ (- e))
          by (rewrite <- Z.pow_add_r by lia; f_equal; lia).
        replace (s * 10 ^ (q - e) * 10 ^ (- q))
          with (s * (10 ^ (q - e) * 10 ^ (- q))) by ring.
        rewrite Hsplit, (H10 (- e)) by lia. ring. }
      replace (2 ^ 1074) with (2 ^ (- e) * 2 ^ (e + 1074)).
      * replace (s * (2 ^ (- e) * 2 ^ (e + 1074)))
          with (s * 2 ^ (- e) * 2 ^ (e + 1074)) by ring.
        rewrite Hkey. ring.
      * rewrite <- Z.pow_add_r by lia. f_equal. lia.
Qed.

(** The decimal of a binary64 magnitude denotes it: the literal that
    [String] writes reads back as the number. *)
Theorem to_decimal_denotes (m e : Z) :
  magnitude_ok m e ->
  of_decimal false (fst (to_decimal m e)) (snd (to_decimal m e))
  = Finite false m e.
Proof.
  intros Hok. unfold to_decimal.
  match goal with
  | |- context [shortest m e ?t ?N ?D ?n ?k] =>
      destruct (shortest m e t N D n k) as [found|] eqn:E
  end.
  - exact (proj2 (shortest_denotes m e (proj1 (proj1 Hok)) _ _ _ _ _ _ E)).
  - now apply exact_decimal_denotes.
Qed.

(** *** The text of a number, read by [JSON.parse] *)

Lemma print_decimal_head (s q : Z) :
  canonical s ->
  exists c r, print_decimal s q = String c r /\ is_digit c.
Proof.
  intros [Hpos Hmod].
  destruct (digits_spec s ltac:(lia)) as (Hall & Hlen & _).
  revert Hall Hlen.
  unfold print_decimal.
  destruct (digits s) as [|c r] eqn:Hds; [cbn; lia|].
  intros [Hc Hr] _.
  set (n := q + Z.of_nat (String.length (String c r))).
  destruct (_ && (n <=? 21)).
  { cbn [append]. now exists c, (r ++ zeros (Z.to_nat (n - Z.of_nat (String.length (String c r))))). }
  destruct ((0 <? n) && (n <=? 21)) eqn:E.
  { apply andb_prop in E as [E _]. apply Z.ltb_lt in E.
    destruct (Z.to_nat n) as [|k] eqn:En; [lia|].
    cbn [first_chars append]. eexists _, _. split; [reflexivity | exact Hc]. }
  destruct (_ && (n <=? 0)).
  { eexists _, _. split; [reflexivity | now exists 0]. }
  destruct r; eexists _, _; (split; [reflexivity | exact Hc]).
Qed.

Lemma read_number_text (negative : bool) (m e : Z) (rest : string) :
  JsonTools.ends_number rest ->
  exists x,
    JsonTools.reread_number (Finite negative m e) = JNumber x
    /\ read_number (to_string (Finite negative m e) ++ rest) = Some (x, rest).
Proof.
  intros Hrest. unfold JsonTools.reread_number, to_string.
  destruct (m <=? 0) eqn:E.
  - eexists. split; [reflexivity|].
    cbn [append]. unfold read_number, read_unsigned. cbn [read_int].
    rewrite read_fraction_none, read_exponent_none by assumption.
    reflexivity.
  - apply Z.leb_gt in E.
    pose proof (to_decimal_canonical m e E) as Hcan.
    destruct (to_decimal m e) as [s q]. cbn [fst] in Hcan.
    eexists. split; [reflexivity|].
    destruct negative.
    + cbn [append]. unfold read_number.
      now apply read_print_decimal.
    + destruct (print_decimal_head s q Hcan) as (c & r & Hp & Hc).
      pose proof (read_print_decimal false s q Hcan rest Hrest) as H.
      rewrite Hp in *. cbn [append] in *.
      now rewrite read_unsigned_not_minus.
Qed.

Lemma to_string_nonempty (negative : bool) (m e : Z) :
  (1 <= String.length (to_string (Finite negative m e)))%nat.
Proof.
  unfold to_string. destruct (m <=? 0) eqn:E; [cbn; lia|].
  apply Z.leb_gt in E.
  pose proof (to_decimal_canonical m e E) as Hcan.
  destruct (to_decimal m e) as [s q]. cbn [fst] in Hcan.
  destruct (print_decimal_head s q Hcan) as (c & r & -> & _).
  destruct negative; cbn; lia.
Qed.

(** A finite number other than the negative zero is written as a
    literal that denotes it. *)
Lemma reread_storable_number (x : number) :
  JsonTools.storable_number x = true -> JsonTools.reread_number x = JNumber x.
Proof.
  destruct x as [| |negative m e]; try discriminate.
  unfold JsonTools.storable_number, JsonTools.reread_number, is_double.
  intros H. apply andb_prop in H as [Hd Hz].
  apply andb_prop in Hd as [Hd Hn]. apply andb_prop in Hd as [Hd He2].
  apply andb_prop in Hd as [Hd He1]. apply andb_prop in Hd as [Hm0 Hm1].
  apply Z.leb_le in Hm0, He1, He2. apply Z.ltb_lt in Hm1.
  assert (Hnorm : 2 ^ 52 <= m \/ e = -1074).
  { apply orb_prop in Hn as [Hn | Hn];
      [apply Z.leb_le in Hn; now left | apply Z.eqb_eq in Hn; now right]. }
  clear Hn.
  destruct (m <=? 0) eqn:E.
  - apply Z.leb_le in E. assert (m = 0) by lia. subst m.
    destruct Hnorm as [Hnorm | ->]; [cbn in Hnorm; lia|].
    cbn in Hz. destruct negative; [discriminate | reflexivity].
  - apply Z.leb_gt in E.
    assert (Hok : magnitude_ok m e) by (repeat split; (lia || assumption)).
    pose proof (to_decimal_denotes m e Hok) as Hden.
    destruct (to_decimal m e) as [s q]. cbn [fst snd] in Hden.
    now rewrite of_decimal_sign, Hden.
Qed.

End DoubleFacts.

(* ================================================================= *)
(** ** The codec: what [JSON.parse] reads in what [JSON.stringify] wrote *)

Module JsonFacts.
Import Json JsonTools.

Lemma read_uint_print (u : Decimal.uint) (rest : string) :
  match rest with
  | EmptyString => True
  | String c _ => digit_of c = None
  end ->
  read_uint (NilEmpty.string_of_uint u ++ rest) = (u, rest).
Proof.
  intros Hrest.
  induction u; simpl; try (rewrite IHu; reflexivity).
  destruct rest as [|c r]; simpl in *; [reflexivity|].
  now rewrite Hrest.
Qed.

Lemma plain_unorm (u : Decimal.uint) : plain_uint (Decimal.unorm u) = true.
Proof.
  unfold Decimal.unorm.
  destruct (Decimal.nzhead u) eqn:E; try reflexivity.
  exfalso. exact (DecimalFacts.nzhead_nonzero _ _ E).
Qed.

Lemma plain_to_uint (p : positive) : plain_uint (Pos.to_uint p) = true.
Proof.
  assert (H : Pos.to_uint p = Decimal.unorm (Pos.to_uint p)).
  { rewrite <- DecimalPos.Unsigned.to_of.
    now rewrite DecimalPos.Unsigned.of_to. }
  rewrite H. apply plain_unorm.
Qed.

Lemma read_string_escape_char (c : ascii) (r : string) :
  read_string (escape_char c ++ r) = cons_char c (read_string r).
Proof.
  destruct c as [[] [] [] [] [] [] [] []]; reflexivity.
Qed.

Lemma append_assoc (a b c : string) : (a ++ b) ++ c = a ++ (b ++ c).
Proof.
  induction a as [|x a IH]; simpl; [reflexivity | now rewrite IH].
Qed.

Lemma read_string_escape (s rest : string) :
  read_string (escape s ++ String dquote rest) = Some (s, rest).
Proof.
  induction s as [|c s IH]; [reflexivity|].
  cbn [escape]. rewrite append_assoc, read_string_escape_char, IH.
  reflexivity.
Qed.

Lemma read_key_quote (k rest : string) :
  read_key (quote k ++ String ":" rest) = Some (k, rest).
Proof.
  unfold quote, read_key. cbn [append].
  change (Ascii.eqb dquote dquote) with true. cbv iota.
  rewrite append_assoc. cbn [append].
  now rewrite read_string_escape.
Qed.

Lemma stringify_arr (x : json) (r : list json) :
  stringify (JArr (x :: r)) = "[" ++ stringify x ++ items_tail r.
Proof. reflexivity. Qed.

Lemma stringify_obj (k : string) (x : json) (r : list (string * json)) :
  stringify (JObj ((k, x) :: r))
  = "{" ++ quote k ++ ":" ++ stringify x ++ members_tail r.
Proof. reflexivity. Qed.

Lemma jsize_arr (x : json) (r : list json) :
  jsize (JArr (x :: r)) = S (jsize x + items_size r).
Proof. reflexivity. Qed.

Lemma jsize_obj (k : string) (x : json) (r : list (string * json)) :
  jsize (JObj ((k, x) :: r)) = S (jsize x + members_size r).
Proof. reflexivity. Qed.

Lemma parse_value_closing (f : nat) (c : ascii) (rest : string) :
  c = "]"%char \/ c = "}"%char ->
  parse_value f (String c rest) = None.
Proof.
  intros [-> | ->]; destruct f; reflexivity.
Qed.

Lemma ends_number_items (l : list json) (rest : string) :
  ends_number (items_tail l ++ rest).
Proof. destruct l; reflexivity. Qed.

Lemma ends_number_members (l : list (string * json)) (rest : string) :
  ends_number (members_tail l ++ rest).
Proof. destruct l as [|[k y] l]; reflexivity. Qed.

Lemma parse_items_tail (l : list json) :
  Forall reads_back l ->
  forall (f : nat) (rest : string),
    items_size l <= f ->
    parse_items f (items_tail l ++ rest) = Some (map reread l, rest).
Proof.
  induction 1 as [|y l Hy _ IH]; intros f rest Hf.
  - destruct f; [inversion Hf | reflexivity].
  - cbn [items_size] in Hf.
    destruct f as [|f]; [inversion Hf|].
    cbn [items_tail]. rewrite !append_assoc. cbn [append parse_items].
    rewrite Hy; [| lia | apply ends_number_items].
    rewrite IH by lia. reflexivity.
Qed.

Lemma parse_members_tail (l : list (string * json)) :
  Forall (fun kv => reads_back (snd kv)) l ->
  forall (f : nat) (rest : string),
    members_size l <= f ->
    parse_members f (members_tail l ++ rest)
    = Some (map (fun kv => (fst kv, reread (snd kv))) l, rest).
Proof.
  induction 1 as [|[k y] l Hy _ IH]; intros f rest Hf.
  - destruct f; [inversion Hf | reflexivity].
  - cbn [members_size] in Hf. cbn [snd] in Hy.
    destruct f as [|f]; [inversion Hf|].
    cbn [members_tail]. rewrite !append_assoc. cbn [append parse_members].
    rewrite read_key_quote.
    rewrite Hy; [| lia | apply ends_number_members].
    rewrite IH by lia. reflexivity.
Qed.

Theorem parse_value_stringify (v : json) : reads_back v.
Proof.
  induction v as [| b | x | s | items IH | props IH] using json_nested_ind;
    intros f rest Hf Hrest.
  - destruct f; [inversion Hf | reflexivity].
  - destruct f; [inversion Hf | destruct b; reflexivity].
  - destruct f; [inversion Hf|].
    destruct x as [| negative | negative m e];
      [reflexivity | reflexivity |].
    cbn [stringify reread].
    destruct (DoubleFacts.read_number_text negative m e rest Hrest)
      as (x & -> & Hread).
    cbn [parse_value]. now rewrite Hread.
  - destruct f; [inversion Hf|].
    cbn [stringify]. unfold quote. cbn [append].
    rewrite append_assoc. cbn [append].
    change (parse_value (S f) (String dquote ?t))
      with (match read_string t with
            | Some (str, r) => Some (JStr str, r)
            | None => None
            end).
    now rewrite read_string_escape.
  - destruct items as [|x r].
    + destruct f; [inversion Hf|].
      cbn [stringify append parse_value].
      change (read_number (String "[" (String "]" rest)))
        with (@None (Double.number * string)).
      cbv iota.
      rewrite parse_value_closing by (left; reflexivity). reflexivity.
    + rewrite jsize_arr in Hf. rewrite stringify_arr.
      destruct f as [|f]; [inversion Hf|].
      inversion IH as [|? ? Hx Hr]; subst.
      rewrite !append_assoc. cbn [append].
      change (parse_value (S f) (String "[" ?t))
        with (match parse_value f t with
              | Some (x, r1) =>
                  match parse_items f r1 with
                  | Some (xs, r2) => Some (JArr (x :: xs), r2)
                  | None => None
                  end
              | None =>
                  match t with
                  | String "]" r' => Some (JArr [], r')
                  | _ => None
                  end
              end).
      rewrite Hx; [| lia | apply ends_number_items].
      rewrite parse_items_tail by (assumption || lia). reflexivity.
  - destruct props as [|[k x] r].
    + destruct f; [inversion Hf|].
      cbn [stringify append parse_value].
      change (read_number (String "{" (String "}" rest)))
        with (@None (Double.number * string)).
      cbv iota. reflexivity.
    + rewrite jsize_obj in Hf. rewrite stringify_obj.
      destruct f as [|f]; [inversion Hf|].
      inversion IH as [|? ? Hx Hr]; subst. cbn [snd] in Hx.
      rewrite !append_assoc. cbn [append].
      change (parse_value (S f) (String "{" ?t))
        with (match read_key t with
              | Some (k, r0) =>
                  match parse_value f r0 with
                  | Some (x, r1) =>
                      match parse_members f r1 with
                      | Some (ms, r2) => Some (JObj ((k, x) :: ms), r2)
                      | None => None
                      end
                  | None => None
                  end
              | None =>
                  match t with
                  | String "}" r' => Some (JObj [], r')
                  | _ => None
                  end
              end).
      rewrite read_key_quote.
      rewrite Hx; [| lia | apply ends_number_members].
      rewrite parse_members_tail by (assumption || lia). reflexivity.
Qed.


Lemma length_append (a b : string) :
  String.length (a ++ b) = String.length a + String.length b.
Proof.
  induction a as [|x a IH]; simpl; [reflexivity | now rewrite IH].
Qed.

Lemma append_empty (a : string) : a ++ EmptyString = a.
Proof.
  induction a as [|x a IH]; simpl; [reflexivity | now rewrite IH].
Qed.

Lemma items_fit (l : list json) :
  Forall fits l -> items_size l <= String.length (items_tail l).
Proof.
  induction 1 as [|y l Hy _ IH]; [simpl; lia|].
  cbn [items_size items_tail]. rewrite !length_append.
  unfold fits in Hy. simpl. lia.
Qed.

Lemma members_fit (l : list (string * json)) :
  Forall (fun kv => fits (snd kv)) l ->
  members_size l <= String.length (members_tail l).
Proof.
  induction 1 as [|[k y] l Hy _ IH]; [simpl; lia|].
  cbn [members_size members_tail]. rewrite !length_append.
  unfold fits in Hy. simpl in *. lia.
Qed.

Lemma jsize_le_length (v : json) : fits v.
Proof.
  induction v as [| b | n | s | items IH | props IH] using json_nested_ind;
    unfold fits.
  - simpl; lia.
  - destruct b; simpl; lia.
  - destruct n as [| negative | negative m e]; try (simpl; lia).
    cbn [jsize stringify]. apply DoubleFacts.to_string_nonempty.
  - simpl; lia.
  - destruct items as [|x r]; [simpl; lia|].
    rewrite jsize_arr, stringify_arr, !length_append.
    inversion IH as [|? ? Hx Hr]; subst.
    pose proof (items_fit r Hr). unfold fits in Hx. simpl. lia.
  - destruct props as [|[k x] r]; [simpl; lia|].
    rewrite jsize_obj, stringify_obj, !length_append.
    inversion IH as [|? ? Hx Hr]; subst.
    pose proof (members_fit r Hr). unfold fits in Hx. simpl in *. lia.
Qed.

(** [JSON.parse(JSON.stringify(v))] is [v] with each number replaced
    by the number its text denotes, and by [null] when it is not
    finite.  In particular the text [JSON.stringify] writes is always
    one that [JSON.parse] accepts. *)
Theorem parse_stringify (v : json) : parse (stringify v) = Some (reread v).
Proof.
  unfold parse.
  pose proof (parse_value_stringify v (String.length (stringify v)) EmptyString
                (jsize_le_length v) I) as H.
  rewrite append_empty in H. now rewrite H.
Qed.

Lemma map_same {A : Type} (f : A -> A) (l : list A) :
  Forall (fun x => f x = x) l -> map f l = l.
Proof.
  induction 1 as [|x l Hx _ IH]; [reflexivity|]. cbn. now rewrite Hx, IH.
Qed.

(** A value whose numbers are finite, none of them the negative zero,
    is read as it was written. *)
Lemma reread_storable (v : json) : storable v = true -> reread v = v.
Proof.
  induction v as [| b | x | s | items IH | props IH] using json_nested_ind;
    intros H; try reflexivity.
  - now apply DoubleFacts.reread_storable_number.
  - cbn [reread storable] in *. f_equal. apply map_same.
    rewrite forallb_forall in H. rewrite Forall_forall in *.
    intros x Hx. apply IH; [assumption | now apply H].
  - cbn [reread storable] in *. f_equal. apply map_same.
    rewrite forallb_forall in H. rewrite Forall_forall in *.
    intros [k x] Hx. cbn [fst snd]. f_equal.
    apply (IH (k, x) Hx). exact (H (k, x) Hx).
Qed.

Theorem parse_stringify_storable (v : json) :
  storable v = true -> parse (stringify v) = Some v.
Proof. intros H. now rewrite parse_stringify, reread_storable. Qed.

End JsonFacts.

(* ================================================================= *)
(** ** Strings and paths *)

Lemma prefix_split (p s : string) :
  has_prefix p s = true -> exists r, s = p ++ r.
Proof.
  revert s. induction p as [|c p IH]; intros s H.
  - now exists s.
  - destruct s as [|c' s]; [discriminate|].
    simpl in H. apply andb_prop in H as [Hc Hs].
    apply Ascii.eqb_eq in Hc. subst c'.
    destruct (IH s Hs) as [r ->]. now exists r.
Qed.

Lemma split_no_sep (c : ascii) (s : string) :
  no_char c s = true -> split c s = [s].
Proof.
  induction s as [|x s IH]; [reflexivity|].
  simpl. intros H. apply andb_prop in H as [Hx Hs].
  apply negb_true_iff in Hx. rewrite Hx, (IH Hs). reflexivity.
Qed.

Lemma truthy_nonempty (s : string) : s <> EmptyString -> truthy s = true.
Proof. destruct s; [congruence | reflexivity]. Qed.

(** [/reports/{id}] and [/lists/{id}] have two segments, the second of
    which is the identifier. *)
Lemma segments_report_id (id : string) :
  id <> EmptyString -> no_char "/" id = true ->
  segments ("/reports/" ++ id) = ["reports"; id].
Proof.
  intros Hne Hid. unfold segments. cbn [append split Ascii.eqb Bool.eqb].
  rewrite (split_no_sep _ _ Hid). cbn.
  now rewrite (truthy_nonempty _ Hne).
Qed.

Lemma segments_list_id (id : string) :
  id <> EmptyString -> no_char "/" id = true ->
  segments ("/lists/" ++ id) = ["lists"; id].
Proof.
  intros Hne Hid. unfold segments. cbn [append split Ascii.eqb Bool.eqb].
  rewrite (split_no_sep _ _ Hid). cbn.
  now rewrite (truthy_nonempty _ Hne).
Qed.

Lemma session_token (request : request) (d : db) (u : user) :
  session request d = Some u ->
  exists token,
    extractToken request = Some token /\ truthy token = true
    /\ findUserByToken token d = Some u.
Proof.
  unfold session. destruct (extractToken request) as [token|]; [|discriminate].
  destruct (truthy token) eqn:E; [|discriminate].
  intros H. now exists token.
Qed.

(* ================================================================= *)
(** ** C4: no bearer token, no service *)

(** C4. A request that is not a preflight and whose path is not under
    /auth/ is answered 401 when its Authorization header is missing or
    does not use the Bearer scheme, whatever its path, method and body;
    the store is left as it was.  Both Pages functions do so. *)
Theorem unauthenticated_is_401 (uuid : string) (request : request) (d : db) :
  method request <> "OPTIONS" ->
  startsWith (path_of request) "/auth/" = false ->
  (authorization request = None
   \/ exists h, authorization request = Some h
                /\ startsWith h "Bearer " = false) ->
  Pages.onRequest uuid request d
  = (errorResponse "Authentication required" 401, d)
  /\ Fixed.onRequest uuid request d
     = (errorResponse "Authentication required" 401, d)
  /\ status (fst (Pages.onRequest uuid request d)) = 401.
Proof.
  intros Hm Hp Hauth.
  assert (Htok : extractToken request = None).
  { unfold extractToken.
    destruct Hauth as [-> | (h & -> & Hh)]; [reflexivity|].
    rewrite Hh. now rewrite orb_true_r. }
  apply String.eqb_neq in Hm.
  unfold Pages.onRequest, Fixed.onRequest.
  rewrite Hm, Hp, Htok. repeat split.
Qed.

Lemma unauthenticated_is_401_witness :
  status (fst (Pages.onRequest "u-0" anonymous_put D1.empty)) = 401.
Proof.
  apply (unauthenticated_is_401 "u-0" anonymous_put D1.empty).
  - discriminate.
  - reflexivity.
  - right. exists "Basic dXNlcjpwYXNz". split; reflexivity.
Defined.

(* ================================================================= *)
(** ** [parseInt] on the text of a number *)

Module NumberFacts.
Import Json JsonTools JsonFacts.

Lemma read_uint_whole (u : Decimal.uint) :
  read_uint (NilEmpty.string_of_uint u) = (u, EmptyString).
Proof.
  rewrite <- (append_empty (NilEmpty.string_of_uint u)) at 1.
  now apply read_uint_print.
Qed.

Lemma parseInt_unsigned (u : Decimal.uint) :
  plain_uint u = true ->
  parseInt (NilEmpty.string_of_uint u) = Some (Z.of_uint u)
  /\ parseInt (String "-" (NilEmpty.string_of_uint u))
     = Some (- Z.of_uint u)%Z.
Proof.
  intros Hu.
  pose proof (read_uint_whole u) as H.
  destruct u as [|u|u|u|u|u|u|u|u|u|u]; try discriminate Hu;
    try (destruct u; try discriminate Hu; split; reflexivity);
    cbn [NilEmpty.string_of_uint] in *;
    remember (NilEmpty.string_of_uint u) as digits;
    unfold parseInt;
    repeat match goal with
           | |- context [skip_spaces (String ?c ?t)] =>
               change (skip_spaces (String c t)) with (String c t)
           end;
    cbv beta iota; unfold read_magnitude; cbv beta iota;
    rewrite H; split; reflexivity.
Qed.

Lemma parseInt_string_of_Z (n : Z) : parseInt (string_of_Z n) = Some n.
Proof.
  destruct n as [|p|p]; [reflexivity| |];
    unfold string_of_Z; cbn [Z.to_int NilZero.string_of_int];
    pose proof (plain_to_uint p) as Hp;
    replace (NilZero.string_of_uint (Pos.to_uint p))
      with (NilEmpty.string_of_uint (Pos.to_uint p))
      by (destruct (Pos.to_uint p); try reflexivity; discriminate Hp);
    destruct (parseInt_unsigned _ Hp) as [Hpos Hneg].
  - rewrite Hpos. f_equal. exact (DecimalZ.of_to (Z.pos p)).
  - rewrite Hneg. f_equal. exact (DecimalZ.of_to (Z.neg p)).
Qed.

Lemma parseInt_number_id (n : Z) : parseInt_number n = Some n.
Proof. apply parseInt_string_of_Z. Qed.

End NumberFacts.

(* ================================================================= *)
(** ** Routing in the corrected Pages function *)

Ltac route_eval :=
  cbv beta iota delta
      [startsWith has_prefix String.eqb Ascii.eqb Bool.eqb append negb
       andb orb fst snd].

Lemma Fixed_delete_list_route
      (uuid : string) (request : request) (d : db) (u : user)
      (first listId : string) (more : list string) :
  session request d = Some u ->
  method request = "DELETE" ->
  startsWith (path_of request) "/lists/" = true ->
  segments (path_of request) = first :: listId :: more ->
  Fixed.onRequest uuid request d
  = Fixed.deleteList request d (user_id u) listId.
Proof.
  intros Hs Hm Hp Hseg.
  destruct (session_token _ _ _ Hs) as (token & Ht & Htr & Hu).
  destruct (prefix_split _ _ Hp) as [r Hr].
  unfold Fixed.onRequest.
  rewrite Hm, Ht, Htr, Hu, Hseg, Hr.
  route_eval. reflexivity.
Qed.

(* ================================================================= *)
(** ** C10 and C5: deleting a list in the corrected Pages function *)

(** C10. In the variant that checks ownership, an authenticated
    DELETE /lists/{id} whose identifier segment does not parse as an
    integer is answered 400 with the message "Invalid ID format", and
    the store is left as it was. *)
Theorem delete_list_invalid_id
        (uuid : string) (request : request) (d : db) (u : user)
        (first listId : string) :
  session request d = Some u ->
  method request = "DELETE" ->
  startsWith (path_of request) "/lists/" = true ->
  segments (path_of request) = [first; listId] ->
  parseInt listId = None ->
  Fixed.onRequest uuid request d = (errorResponse "Invalid ID format" 400, d).
Proof.
  intros Hs Hm Hp Hseg Hid.
  rewrite (Fixed_delete_list_route uuid _ _ _ _ _ _ Hs Hm Hp Hseg).
  unfold Fixed.deleteList. now rewrite Hid.
Qed.

Lemma delete_list_invalid_id_witness :
  Fixed.onRequest "x" (bodiless "DELETE" "/api/lists/abc" as_alice) store
  = (errorResponse "Invalid ID format" 400, store).
Proof.
  apply (delete_list_invalid_id "x" (bodiless "DELETE" "/api/lists/abc" as_alice)
                                store alice "lists" "abc");
    reflexivity.
Defined.



Lemma find_filter_out {A : Type} (f : A -> bool) (l : list A) :
  find f (filter (fun x => negb (f x)) l) = None.
Proof.
  induction l as [|x l IH]; [reflexivity|].
  simpl. destruct (f x) eqn:E; simpl; [assumption|].
  now rewrite E.
Qed.

Lemma filter_hit_length {A : Type} (f : A -> bool) (l : list A) (x : A) :
  In x l -> f x = true -> List.length (filter f l) <> 0.
Proof.
  intros Hin Hf Hlen.
  assert (H : In x (filter f l)) by (apply filter_In; now split).
  destruct (filter f l); [contradiction | discriminate].
Qed.



(* ================================================================= *)
(** ** C3 and C9: what the routers do with a path and a method *)

Lemma Pages_search_shadowed
      (uuid : string) (request : request) (d : db) (u : user) :
  session request d = Some u ->
  method request = "POST" ->
  path_of request = "/reports/search" ->
  Pages.onRequest uuid request d = (errorResponse "Not Found" 404, d).
Proof.
  intros Hs Hm Hp.
  destruct (session_token _ _ _ Hs) as (token & Ht & Htr & Hu).
  unfold Pages.onRequest. rewrite Hm, Ht, Htr, Hu, Hp. reflexivity.
Qed.


Lemma Worker_search_shadowed (userId : Z) :
  Worker.route "POST" "/reports/search" userId
  = Worker.Answer (errorResponse "Not Found" 404).
Proof. reflexivity. Qed.

(** C3. In functions/api/[[route]].js and in the Worker the prefix test
    for /reports/ comes before the test for /reports/search: an
    authenticated POST /reports/search is taken for the report "search",
    whose route has no POST, and is answered 404; the search handler is
    never reached.  Only the corrected Pages function reaches it. *)
Theorem search_request_not_found :
  session search_request store = Some alice
  /\ path_of search_request = "/reports/search"
  /\ Pages.onRequest "x" search_request store
     = (errorResponse "Not Found" 404, store)
  /\ Worker.route (method search_request) (path_of search_request)
                  (user_id alice)
     = Worker.Answer (errorResponse "Not Found" 404)
  /\ Fixed.onRequest "x" search_request store
     = searchReports search_request store (user_id alice)
  /\ status (fst (searchReports search_request store (user_id alice))) = 200.
Proof. repeat split. Qed.

Lemma Pages_report_id_route
      (uuid : string) (request : request) (d : db) (u : user)
      (first reportId : string) :
  session request d = Some u ->
  method request <> "OPTIONS" ->
  startsWith (path_of request) "/reports/" = true ->
  segments (path_of request) = [first; reportId] ->
  Pages.onRequest uuid request d
  = if String.eqb (method request) "GET"
    then getReport request d (user_id u) reportId
    else if String.eqb (method request) "PUT"
    then updateReport request d (user_id u) reportId
    else if String.eqb (method request) "DELETE"
    then deleteReport request d (user_id u) reportId
    else (errorResponse "Not Found" 404, d).
Proof.
  intros Hs Hm Hp Hseg.
  destruct (session_token _ _ _ Hs) as (token & Ht & Htr & Hu).
  destruct (prefix_split _ _ Hp) as [r Hr].
  apply String.eqb_neq in Hm.
  unfold Pages.onRequest.
  rewrite Hm, Ht, Htr, Hu, Hseg, Hr.
  route_eval. reflexivity.
Qed.

(** An unsupported verb on /reports/{id} falls through to the 404 that
    also answers an unknown path. *)
Lemma Pages_report_id_other_verb
      (uuid : string) (request : request) (d : db) (u : user)
      (first reportId : string) :
  session request d = Some u ->
  startsWith (path_of request) "/reports/" = true ->
  segments (path_of request) = [first; reportId] ->
  method request <> "OPTIONS" -> method request <> "GET" ->
  method request <> "PUT" -> method request <> "DELETE" ->
  Pages.onRequest uuid request d = (errorResponse "Not Found" 404, d).
Proof.
  intros Hs Hp Hseg Ho Hg Hu Hd.
  rewrite (Pages_report_id_route uuid _ _ _ _ _ Hs Ho Hp Hseg).
  apply String.eqb_neq in Hg, Hu, Hd. now rewrite Hg, Hu, Hd.
Qed.

(** C9. A POST to /reports/{id}, a route that exists with the verbs GET,
    PUT and DELETE, is answered 404 "Not Found" by both Pages functions,
    the very answer an unknown path gets; a PATCH to /reports is
    answered 405. *)
Theorem unsupported_verb_on_report_is_404 :
  session (post "/api/reports/r1" as_alice (Done (named "x"))) store
  = Some alice
  /\ Pages.onRequest "x" (post "/api/reports/r1" as_alice (Done (named "x")))
                     store
     = (errorResponse "Not Found" 404, store)
  /\ Fixed.onRequest "x" (post "/api/reports/r1" as_alice (Done (named "x")))
                     store
     = (errorResponse "Not Found" 404, store)
  /\ Pages.onRequest "x" (post "/api/no/such/route" as_alice (Done (named "x")))
                     store
     = (errorResponse "Not Found" 404, store)
  /\ Pages.onRequest "x" (bodiless "PATCH" "/api/reports" as_alice) store
     = (errorResponse "Method Not Allowed" 405, store)
  /\ Fixed.onRequest "x" (bodiless "PATCH" "/api/reports" as_alice) store
     = (errorResponse "Method Not Allowed" 405, store).
Proof. repeat split. Qed.

(* ================================================================= *)
(** ** C2: the identifier in the answer of [createReport] *)

(** What [createReport] answers when the insertion succeeds: the [id]
    of the body, which is absent from the answer when it is absent from
    the body, while the row is stored under the generated identifier. *)
Lemma createReport_created
      (uuid : string) (request : request) (d d' : db) (userId : Z)
      (b : body) (answer : response) :
  req_json request = Done b ->
  createReport uuid request d userId = (answer, d') ->
  status answer = 201 ->
  answer = jsonResponse (object_of [("id", option_map JStr (b_id b))]) 201
  /\ reports d'
     = (reports d
        ++ [bound_row (if missing (b_id b) then uuid else text_of (b_id b))
                      userId b])%list.
Proof.
  intros Hb. unfold createReport. rewrite Hb.
  unfold insert_report.
  destruct (existsb _ (reports d)); [intros [= <- <-]; discriminate|].
  destruct (negb _); [intros [= <- <-]; discriminate|].
  intros [= <- <-] _. split; reflexivity.
Qed.

(** C2. A create-report request without [id] succeeds with 201, the
    report is stored under the generated identifier, and the body of
    the answer is the empty object: it does not carry that identifier. *)
Theorem created_without_id_answers_no_id :
  session create_without_id store = Some alice
  /\ b_id (report_body None None) = None
  /\ status (fst (Pages.onRequest "gen-9" create_without_id store)) = 201
  /\ content (fst (Pages.onRequest "gen-9" create_without_id store))
     = Some (JObj [])
  /\ map r_id (reports (snd (Pages.onRequest "gen-9" create_without_id store)))
     = ["r1"; "gen-9"]
  /\ Fixed.onRequest "gen-9" create_without_id store
     = Pages.onRequest "gen-9" create_without_id store.
Proof. repeat split. Qed.

(* ================================================================= *)
(** ** C1: a report is read, changed and removed by its owner only *)

Section Isolation.

Variable userId : Z.
Variable id : string.

Lemma others_never_hit (rows : list report_row) :
  owned_by_others userId id rows ->
  forall r, In r rows -> is_report id userId r = false.
Proof.
  intros H r Hin. unfold is_report, owned_by.
  destruct (String.eqb (r_id r) id) eqn:E; [|reflexivity].
  apply String.eqb_eq in E. apply (H r Hin) in E.
  apply Z.eqb_neq in E. now rewrite E.
Qed.

Lemma hit_is_owned (r : report_row) :
  is_report id userId r = true -> foreign userId r = false.
Proof.
  unfold is_report, foreign. intros H.
  apply andb_prop in H as [_ ->]. reflexivity.
Qed.

Lemma filter_none {A : Type} (f : A -> bool) (l : list A) :
  (forall x, In x l -> f x = false) -> filter f l = [].
Proof.
  induction l as [|x l IH]; intros H; [reflexivity|].
  simpl. rewrite (H x (or_introl eq_refl)).
  apply IH. intros y Hy. apply H. now right.
Qed.

Lemma filter_all {A : Type} (f : A -> bool) (l : list A) :
  (forall x, In x l -> f x = false) -> filter (fun x => negb (f x)) l = l.
Proof.
  induction l as [|x l IH]; intros H; [reflexivity|].
  simpl. rewrite (H x (or_introl eq_refl)). simpl. f_equal.
  apply IH. intros y Hy. apply H. now right.
Qed.

Lemma map_unhit {A : Type} (f : A -> bool) (new : A) (l : list A) :
  (forall x, In x l -> f x = false) ->
  map (fun x => if f x then new else x) l = l.
Proof.
  induction l as [|x l IH]; intros H; [reflexivity|].
  simpl. rewrite (H x (or_introl eq_refl)). f_equal.
  apply IH. intros y Hy. apply H. now right.
Qed.

Lemma set_reports_same (d : db) : set_reports (reports d) d = d.
Proof. now destruct d. Qed.

(** Replacing the rows that are hit leaves the rows of the others. *)
Lemma foreign_after_update (row : report_row) (rows : list report_row) :
  r_user_id row = userId ->
  filter (foreign userId)
         (map (fun r => if is_report id userId r then row else r) rows)
  = filter (foreign userId) rows.
Proof.
  intros Hrow. induction rows as [|r rows IH]; [reflexivity|].
  simpl. destruct (is_report id userId r) eqn:E.
  - rewrite (hit_is_owned r E).
    assert (Hown : foreign userId row = false)
      by (unfold foreign, owned_by; rewrite Hrow, Z.eqb_refl; reflexivity).
    now rewrite Hown.
  - destruct (foreign userId r); [f_equal|]; exact IH.
Qed.

Lemma foreign_after_delete (rows : list report_row) :
  filter (foreign userId) (filter (fun r => negb (is_report id userId r)) rows)
  = filter (foreign userId) rows.
Proof.
  induction rows as [|r rows IH]; [reflexivity|].
  simpl. destruct (is_report id userId r) eqn:E; simpl.
  - now rewrite (hit_is_owned r E).
  - destruct (foreign userId r); [f_equal|]; exact IH.
Qed.

Lemma getReport_own (request : request) (d : db) :
  snd (getReport request d userId id) = d
  /\ forall v, fst (getReport request d userId id) = jsonResponse v 200 ->
       exists r, In r (reports d) /\ r_id r = id /\ r_user_id r = userId
                 /\ parsedReport r = Done v.
Proof.
  unfold getReport, report_by_id.
  destruct (find (is_report id userId) (reports d)) as [r|] eqn:E.
  - apply find_some in E as [Hin Hhit].
    apply andb_prop in Hhit as [Hid Hown].
    apply String.eqb_eq in Hid. apply Z.eqb_eq in Hown.
    destruct (parsedReport r) as [v|m] eqn:Ev.
    + split; [reflexivity|]. intros v' [= <-]. now exists r.
    + split; [reflexivity|]. intros v' [=].
  - split; [reflexivity|]. intros v' [=].
Qed.

Lemma getReport_foreign (request : request) (d : db) :
  owned_by_others userId id (reports d) ->
  getReport request d userId id = (errorResponse "Report not found" 404, d).
Proof.
  intros H. unfold getReport, report_by_id.
  destruct (find (is_report id userId) (reports d)) as [r|] eqn:E;
    [|reflexivity].
  apply find_some in E as [Hin Hhit].
  now rewrite (others_never_hit _ H r Hin) in Hhit.
Qed.

Lemma updateReport_isolated (request : request) (d : db) :
  filter (foreign userId) (reports (snd (updateReport request d userId id)))
  = filter (foreign userId) (reports d).
Proof.
  unfold updateReport.
  destruct (req_json request) as [b|m]; [|reflexivity].
  unfold update_report. cbn [r_id r_user_id bound_row].
  destruct (negb _ && negb _); [reflexivity|].
  cbn [rows_affected is_zero snd set_reports reports].
  now apply foreign_after_update.
Qed.

(** A PUT on a report of another user changes nothing, and is answered
    200 all the same when its body decodes: the count the handler
    compares with 0 is [undefined]. *)
Lemma updateReport_foreign (request : request) (d : db) :
  owned_by_others userId id (reports d) ->
  match req_json request with
  | Done _ =>
      updateReport request d userId id
      = (jsonResponse (JObj [("message", JStr "Report updated")]) 200, d)
  | Failed m => updateReport request d userId id = (errorResponse m 500, d)
  end.
Proof.
  intros H. unfold updateReport.
  destruct (req_json request) as [b|m]; [|reflexivity].
  unfold update_report. cbn [r_id r_user_id bound_row].
  rewrite (filter_none _ _ (others_never_hit _ H)).
  rewrite (map_unhit _ _ _ (others_never_hit _ H)).
  cbn. now rewrite set_reports_same.
Qed.

Lemma deleteReport_isolated (request : request) (d : db) :
  filter (foreign userId) (reports (snd (deleteReport request d userId id)))
  = filter (foreign userId) (reports d).
Proof.
  unfold deleteReport, delete_report.
  cbn [rows_affected is_zero snd set_reports reports].
  apply foreign_after_delete.
Qed.

(** So is a DELETE. *)
Lemma deleteReport_foreign (request : request) (d : db) :
  owned_by_others userId id (reports d) ->
  deleteReport request d userId id
  = (jsonResponse (JObj [("message", JStr "Report deleted")]) 200, d).
Proof.
  intros H. unfold deleteReport, delete_report.
  rewrite (filter_all _ _ (others_never_hit _ H)).
  cbn. now rewrite set_reports_same.
Qed.

End Isolation.

(** C1. The rows of a report are returned, changed and removed for
    their owner only, but the answer to a PUT or a DELETE does not tell:
    Bob's DELETE and Bob's PUT on Alice's report "r1" leave the store
    as it was and are answered 200, where the claim has 404.  The two
    handlers compare [result.meta.rows_affected] with 0, and that
    reading is [undefined] on D1.  Bob's GET is answered 404. *)
Theorem foreign_write_answers_200 :
  session (bodiless "DELETE" "/api/reports/r1" as_bob) store = Some bob
  /\ map (fun r => (r_id r, r_user_id r)) (reports store) = [("r1", 1%Z)]
  /\ Pages.onRequest "x" (bodiless "DELETE" "/api/reports/r1" as_bob) store
     = (jsonResponse (JObj [("message", JStr "Report deleted")]) 200, store)
  /\ Pages.onRequest
       "x" (put "/api/reports/r1" as_bob (report_body None None)) store
     = (jsonResponse (JObj [("message", JStr "Report updated")]) 200, store)
  /\ Pages.onRequest "x" (bodiless "GET" "/api/reports/r1" as_bob) store
     = (errorResponse "Report not found" 404, store).
Proof. repeat split. Qed.

(* ================================================================= *)
(** ** C6: the sub-documents of a report survive the store *)

Module RoundTrip.
Import Json JsonTools JsonFacts.

Lemma jsize_positive (v : json) : 1 <= jsize v.
Proof.
  destruct v as [| | | | [|x r] | [|[k x] r]]; simpl; lia.
Qed.

Lemma stringify_truthy (v : json) : truthy (stringify v) = true.
Proof.
  pose proof (jsize_positive v) as H1. pose proof (jsize_le_length v) as H2.
  unfold fits in H2.
  destruct (stringify v); [simpl in H2; lia | reflexivity].
Qed.

(** What [createReport] stored is what the reading handlers decode. *)
Lemma decode_stringify (v : json) (fallback : string) :
  decode_column (Some (stringify v)) fallback = Done (reread v).
Proof.
  unfold decode_column. now rewrite stringify_truthy, parse_stringify.
Qed.

Lemma decode_null (fallback : string) (v : json) :
  parse fallback = Some v -> decode_column None fallback = Done v.
Proof. unfold decode_column. now intros ->. Qed.

Lemma find_last {A : Type} (f : A -> bool) (l : list A) (x : A) :
  existsb f l = false -> f x = true -> find f (l ++ [x])%list = Some x.
Proof.
  intros Hl Hx. induction l as [|y l IH]; simpl in *.
  - now rewrite Hx.
  - apply orb_false_elim in Hl as [Hy Hl]. rewrite Hy. now apply IH.
Qed.

Lemma existsb_weaken {A : Type} (f g : A -> bool) (l : list A) :
  (forall x, g x = true -> f x = true) ->
  existsb f l = false -> existsb g l = false.
Proof.
  intros Himp. induction l as [|y l IH]; [reflexivity|].
  simpl. intros H. apply orb_false_elim in H as [Hy Hl].
  rewrite (IH Hl), orb_false_r.
  destruct (g y) eqn:E; [|reflexivity].
  now rewrite (Himp y E) in Hy.
Qed.

Lemma read_back_or_else (supplied : jsval) (empty : json) :
  reread empty = empty ->
  read_back supplied empty (Some (reread (or_else supplied empty))).
Proof.
  intros Hempty. destruct supplied as [v|]; cbn [read_back or_else].
  - destruct (json_truthy v); [|now rewrite Hempty].
    split; [reflexivity|]. intros Hv. now rewrite reread_storable.
  - now rewrite Hempty.
Qed.

End RoundTrip.

Lemma Pages_create_route
      (uuid : string) (request : request) (d : db) (u : user) :
  session request d = Some u ->
  method request = "POST" -> path_of request = "/reports" ->
  Pages.onRequest uuid request d = createReport uuid request d (user_id u).
Proof.
  intros Hs Hm Hp.
  destruct (session_token _ _ _ Hs) as (token & Ht & Htr & Hu).
  unfold Pages.onRequest. rewrite Hm, Ht, Htr, Hu, Hp. reflexivity.
Qed.

(** The two handlers, one after the other: what [createReport] stored
    under the identifier it bound is what [getReport] decodes. *)
Lemma createReport_getReport
        (uuid : string) (request request' : request) (d d' : db)
        (userId : Z) (b : body) (answer : response) :
  req_json request = Done b ->
  createReport uuid request d userId = (answer, d') ->
  status answer = 201 ->
  exists props,
    getReport request' d' userId
              (if missing (b_id b) then uuid else text_of (b_id b))
    = (jsonResponse (JObj props) 200, d')
    /\ read_back (b_infoGeneral b) (JObj []) (get_prop "infoGeneral" props)
    /\ read_back (b_configuracion b) (JObj [])
                 (get_prop "configuracion" props)
    /\ read_back (b_nivelesDesempeno b) (JArr [])
                 (get_prop "nivelesDesempeno" props)
    /\ read_back (b_criterios b) (JArr []) (get_prop "criterios" props)
    /\ read_back (b_feedback b) (JObj []) (get_prop "feedback" props)
    /\ read_back (b_resultados b) (JObj []) (get_prop "resultados" props).
Proof.
  intros Hb Hcreate Hstatus.
  set (id := if missing (b_id b) then uuid else text_of (b_id b)).
  assert (Hrows : reports d' = (reports d ++ [bound_row id userId b])%list
                  /\ existsb (fun r => String.eqb (r_id r) id) (reports d)
                     = false).
  { revert Hcreate. unfold createReport. rewrite Hb. fold id.
    unfold insert_report. cbn [r_id bound_row].
    destruct (existsb _ (reports d));
      [intros [= <- <-]; discriminate Hstatus|].
    destruct (negb _); [intros [= <- <-]; discriminate Hstatus|].
    intros [= <- <-]. split; reflexivity. }
  destruct Hrows as [Hrows Hfresh].
  unfold getReport, report_by_id. rewrite Hrows.
  rewrite RoundTrip.find_last; cycle 1.
  - apply (RoundTrip.existsb_weaken _ _ _ (fun r H => proj1 (andb_prop _ _ H))).
    exact Hfresh.
  - unfold is_report, owned_by. cbn [r_id r_user_id bound_row].
    now rewrite String.eqb_refl, Z.eqb_refl.
  - unfold parsedReport. cbn [bound_row r_info_general r_configuracion
      r_niveles_desempeno r_criterios r_feedback r_resultados].
    rewrite !RoundTrip.decode_stringify.
    eexists. split; [reflexivity|].
    repeat split; now apply RoundTrip.read_back_or_else.
Qed.

(** C6, as stated, fails on a supplied sub-document that holds a number
    [JSON.stringify] does not write as it is.  The body text
    [{"nota":1e999}] decodes to an object whose number is Infinity; the
    report is created (201) and stored with [{"nota":null}], and its
    owner reads back [{nota: null}], which is not the object supplied.
    Likewise [{"nota":-0}] decodes to the negative zero and is read back
    as [{nota: 0}]. *)
Lemma unwritable_number_not_read_back :
  Json.parse ("{" ++ Json.quote "nota" ++ ":1e999}") = Some overflowing
  /\ configuration_read_back overflowing = Some (JObj [("nota", JNull)])
  /\ JObj [("nota", JNull)] <> overflowing
  /\ Json.parse ("{" ++ Json.quote "nota" ++ ":-0}") = Some negative_zero
  /\ configuration_read_back negative_zero = Some (JObj [("nota", JNum 0)])
  /\ JObj [("nota", JNum 0)] <> negative_zero.
Proof.
  split; [vm_compute; reflexivity|].
  split; [vm_compute; reflexivity|].
  split; [discriminate|].
  split; [vm_compute; reflexivity|].
  split; [vm_compute; reflexivity|].
  vm_compute. discriminate.
Qed.

(** C6, amended.  When an authenticated POST /reports succeeds, a GET by
    the same user on /reports/{id}, with the identifier the row was
    stored under, answers 200 with an object in which each of the six
    sub-documents is: when it was supplied, as an object or array or any
    truthy value, the value supplied with [null] for each number that is
    not finite and 0 for the negative zero, hence the value supplied
    itself when all its numbers are finite and none is the negative
    zero; and when it was omitted, the empty object (infoGeneral,
    configuracion, feedback, resultados) or the empty array
    (nivelesDesempeno, criterios). *)
Theorem report_round_trip
        (uuid uuid' : string) (create fetch : request) (d d' : db)
        (u : user) (b : body) (answer : response) (first : string) :
  session create d = Some u ->
  method create = "POST" -> path_of create = "/reports" ->
  req_json create = Done b ->
  Pages.onRequest uuid create d = (answer, d') ->
  status answer = 201 ->
  session fetch d' = Some u ->
  method fetch = "GET" ->
  startsWith (path_of fetch) "/reports/" = true ->
  segments (path_of fetch)
  = [first; if missing (b_id b) then uuid else text_of (b_id b)] ->
  exists props,
    Pages.onRequest uuid' fetch d' = (jsonResponse (JObj props) 200, d')
    /\ read_back (b_infoGeneral b) (JObj []) (get_prop "infoGeneral" props)
    /\ read_back (b_configuracion b) (JObj [])
                 (get_prop "configuracion" props)
    /\ read_back (b_nivelesDesempeno b) (JArr [])
                 (get_prop "nivelesDesempeno" props)
    /\ read_back (b_criterios b) (JArr []) (get_prop "criterios" props)
    /\ read_back (b_feedback b) (JObj []) (get_prop "feedback" props)
    /\ read_back (b_resultados b) (JObj []) (get_prop "resultados" props).
Proof.
  intros Hs Hm Hp Hb Hcreate Hstatus Hs' Hm' Hp' Hseg.
  rewrite (Pages_create_route uuid _ _ _ Hs Hm Hp) in Hcreate.
  assert (Ho : method fetch <> "OPTIONS") by (rewrite Hm'; discriminate).
  rewrite (Pages_report_id_route uuid' _ _ _ _ _ Hs' Ho Hp' Hseg), Hm'.
  cbn [String.eqb Ascii.eqb Bool.eqb].
  exact (createReport_getReport uuid create fetch d d' (user_id u) b answer
                                Hb Hcreate Hstatus).
Qed.

Lemma report_round_trip_witness :
  exists props,
    Pages.onRequest
      "x" (bodiless "GET" "/api/reports/r2" as_alice)
      (snd (Pages.onRequest
              "unused"
              (post "/api/reports" as_alice
                    (Done (report_body (Some "r2") None)))
              store))
    = (jsonResponse (JObj props) 200,
       snd (Pages.onRequest
              "unused"
              (post "/api/reports" as_alice
                    (Done (report_body (Some "r2") None)))
              store))
    /\ get_prop "configuracion" props = Some (JObj [("scale", JNum 7)])
    /\ get_prop "criterios" props = Some (JArr [JStr "rigor"; JStr "claridad"])
    /\ get_prop "feedback" props = Some (JObj [])
    /\ get_prop "nivelesDesempeno" props = Some (JArr []).
Proof.
  destruct (report_round_trip
              "unused" "x"
              (post "/api/reports" as_alice (Done (report_body (Some "r2") None)))
              (bodiless "GET" "/api/reports/r2" as_alice)
              store
              (snd (Pages.onRequest
                      "unused"
                      (post "/api/reports" as_alice
                            (Done (report_body (Some "r2") None)))
                      store))
              alice (report_body (Some "r2") None)
              (fst (Pages.onRequest
                      "unused"
                      (post "/api/reports" as_alice
                            (Done (report_body (Some "r2") None)))
                      store))
              "reports"
              eq_refl eq_refl eq_refl eq_refl eq_refl eq_refl eq_refl
              eq_refl eq_refl eq_refl)
    as (props & Hget & _ & Hconf & Hniv & Hcrit & Hfeed & _).
  exists props.
  split; [exact Hget|].
  split; [apply (proj2 Hconf); vm_compute; reflexivity|].
  split; [apply (proj2 Hcrit); vm_compute; reflexivity|].
  split; [exact Hfeed | exact Hniv].
Defined.

(* ================================================================= *)
(** ** How requests change the [users] table *)

(** Case analysis on the innermost scrutinee of the goal. *)
Ltac innermost_case :=
  match goal with
  | |- context [match ?x with _ => _ end] =>
      lazymatch x with
      | context [match _ with _ => _ end] => fail
      | _ => destruct x
      end
  end.

Ltac users_untouched := repeat innermost_case; now apply users_kept.

Lemma registerUser_users (uuid : string) (request : request) (d : db) :
  users_change uuid d (snd (registerUser uuid request d)).
Proof.
  unfold registerUser.
  destruct (req_json request) as [b|m]; [|now apply users_kept].
  destruct (_ || _); [now apply users_kept|].
  destruct (user_by_email _ d); [now apply users_kept|].
  unfold insert_user.
  destruct (existsb _ (users d)); [now apply users_kept|].
  destruct (existsb (has_token uuid) (users d)) eqn:E; [now apply users_kept|].
  eapply users_registered; cbn; try reflexivity. exact E.
Qed.

Lemma loginUser_users (uuid : string) (request : request) (d : db) :
  users_change uuid d (snd (loginUser uuid request d)).
Proof.
  unfold loginUser.
  destruct (req_json request) as [b|m]; [|now apply users_kept].
  destruct (_ || _); [now apply users_kept|].
  destruct (user_by_credentials _ _ d) as [row|] eqn:Erow;
    [|now apply users_kept].
  unfold update_user_token.
  destruct (existsb (fun u => Z.eqb (u_id u) (u_id row)) (users d)) eqn:Eid.
  - destruct (existsb (fun u => has_token uuid u && negb (Z.eqb (u_id u) (u_id row)))
                      (users d)) eqn:E; cbn [andb];
      [now apply users_kept|].
    eapply users_logged_in; cbn; try reflexivity. exact E.
  - exfalso. apply find_some in Erow as [Hin _].
    assert (H : existsb (fun u => Z.eqb (u_id u) (u_id row)) (users d) = true).
    { apply existsb_exists. exists row. split; [assumption|apply Z.eqb_refl]. }
    congruence.
Qed.

Lemma handleAuth_users (uuid : string) (request : request) (path : string)
      (d : db) :
  users_change uuid d (snd (handleAuth uuid request path d)).
Proof.
  unfold handleAuth.
  repeat innermost_case;
    first [ apply registerUser_users | apply loginUser_users
          | now apply users_kept ].
Qed.


Lemma getReports_users uuid request d userId :
  users_change uuid d (snd (getReports request d userId)).
Proof. unfold getReports. users_untouched. Qed.

Lemma getReport_users uuid request d userId id :
  users_change uuid d (snd (getReport request d userId id)).
Proof. unfold getReport. users_untouched. Qed.

Lemma createReport_users uuid request d userId :
  users_change uuid d (snd (createReport uuid request d userId)).
Proof. unfold createReport, insert_report. users_untouched. Qed.

Lemma updateReport_users uuid request d userId id :
  users_change uuid d (snd (updateReport request d userId id)).
Proof. unfold updateReport, update_report. users_untouched. Qed.

Lemma deleteReport_users uuid request d userId id :
  users_change uuid d (snd (deleteReport request d userId id)).
Proof. unfold deleteReport, delete_report. users_untouched. Qed.

Lemma searchReports_users uuid request d userId :
  users_change uuid d (snd (searchReports request d userId)).
Proof. unfold searchReports. users_untouched. Qed.

Lemma getLists_users uuid request d userId :
  users_change uuid d (snd (getLists request d userId)).
Proof. now apply users_kept. Qed.

Lemma createList_users uuid request d userId :
  users_change uuid d (snd (createList request d userId)).
Proof. unfold createList, insert_list. users_untouched. Qed.

(** Every request changes the [users] table in one of three ways. *)
Lemma onRequest_users (uuid : string) (request : request) (d : db) :
  users_change uuid d (snd (Pages.onRequest uuid request d)).
Proof.
  unfold Pages.onRequest.
  repeat innermost_case;
    first [ apply handleAuth_users | apply getReports_users
          | apply getReport_users | apply createReport_users
          | apply updateReport_users | apply deleteReport_users
          | apply searchReports_users | apply getLists_users
          | apply createList_users | now apply users_kept ].
Qed.

(* ================================================================= *)
(** ** Invariants of the [users] table *)

Section UsersFacts.

Lemma has_token_in (t : string) (u : user_row) (l : list user_row) :
  In u l -> has_token t u = true -> In t (token_list l).
Proof.
  intros Hin Ht. apply in_flat_map. exists u. split; [assumption|].
  unfold has_token in Ht. destruct (u_token u) as [t'|]; [|discriminate].
  apply String.eqb_eq in Ht. subst. now left.
Qed.

Lemma in_token_list (t : string) (l : list user_row) :
  In t (token_list l) -> exists u, In u l /\ has_token t u = true.
Proof.
  intros H. apply in_flat_map in H as (u & Hin & Ht).
  exists u. split; [assumption|]. unfold has_token.
  destruct (u_token u) as [t'|]; [|contradiction].
  destruct Ht as [-> | []]. apply String.eqb_refl.
Qed.

Lemma existsb_false_forall {A : Type} (f : A -> bool) (l : list A) :
  existsb f l = false <-> forall x, In x l -> f x = false.
Proof.
  split.
  - intros H x Hin. destruct (f x) eqn:E; [|reflexivity].
    assert (existsb f l = true) by (apply existsb_exists; now exists x).
    congruence.
  - intros H. destruct (existsb f l) eqn:E; [|reflexivity].
    apply existsb_exists in E as (x & Hin & Hx). now rewrite (H x Hin) in Hx.
Qed.

Lemma find_none_existsb {A : Type} (f : A -> bool) (l : list A) :
  existsb f l = false -> find f l = None.
Proof.
  intros H. destruct (find f l) as [x|] eqn:E; [|reflexivity].
  apply find_some in E as [Hin Hx].
  now rewrite (proj1 (existsb_false_forall f l) H x Hin) in Hx.
Qed.

Lemma find_some_existsb {A : Type} (f : A -> bool) (l : list A) :
  existsb f l = true -> exists x, find f l = Some x.
Proof.
  intros H. destruct (find f l) as [x|] eqn:E; [now exists x|].
  apply existsb_exists in H as (x & Hin & Hx).
  now rewrite (find_none _ _ E x Hin) in Hx.
Qed.

(** Two rows that hold the same token are the same row, and so have
    the same key. *)
Lemma token_owner_unique (t : string) (l : list user_row) :
  NoDup (token_list l) ->
  forall u u', In u l -> In u' l ->
               has_token t u = true -> has_token t u' = true ->
               u_id u = u_id u'.
Proof.
  induction l as [|a l IH]; intros Hnd u u' Hu Hu' Ht Ht'; [contradiction|].
  change (token_list (a :: l))
    with ((match u_token a with Some t0 => [t0] | None => [] end)
            ++ token_list l)%list in Hnd.
  assert (Htail : NoDup (token_list l)) by (eapply NoDup_app_remove_l; eauto).
  assert (Hclash : forall v, In v l -> has_token t a = true ->
                             has_token t v = true -> False).
  { intros v Hv Ha Hvt.
    pose proof (has_token_in t v l Hv Hvt) as Hin.
    unfold has_token in Ha. destruct (u_token a) as [t0|]; [|discriminate].
    apply String.eqb_eq in Ha. subst t0.
    inversion Hnd as [|? ? Hnot _]; subst. now apply Hnot. }
  destruct Hu as [<- | Hu], Hu' as [<- | Hu'].
  - reflexivity.
  - exfalso. eapply Hclash; eauto.
  - exfalso. eapply Hclash; eauto.
  - now apply IH.
Qed.

Variable uuid : string.
Variable id : Z.

Local Abbreviation relogin := (set_token_of id uuid).

Lemma relogin_ids (l : list user_row) : map u_id (map relogin l) = map u_id l.
Proof.
  induction l as [|a l IH]; [reflexivity|].
  simpl. rewrite IH. unfold set_token_of. now destruct (Z.eqb (u_id a) id).
Qed.

Lemma relogin_other (l : list user_row) :
  ~ In id (map u_id l) -> map relogin l = l.
Proof.
  induction l as [|a l IH]; intros H; [reflexivity|].
  simpl in *. rewrite IH by tauto. unfold set_token_of.
  destruct (Z.eqb (u_id a) id) eqn:E; [|reflexivity].
  apply Z.eqb_eq in E. tauto.
Qed.

Lemma relogin_tokens (t : string) (l : list user_row) :
  In t (token_list (map relogin l)) -> In t (token_list l) \/ t = uuid.
Proof.
  intros H. apply in_token_list in H as (u & Hin & Ht).
  apply in_map_iff in Hin as (v & <- & Hv).
  unfold set_token_of in Ht. destruct (Z.eqb (u_id v) id).
  - right. unfold has_token in Ht. cbn in Ht.
    apply String.eqb_eq in Ht. now subst.
  - left. eapply has_token_in; eauto.
Qed.

Lemma relogin_unique (l : list user_row) :
  NoDup (map u_id l) -> NoDup (token_list l) ->
  (forall u, In u l -> has_token uuid u = true -> u_id u = id) ->
  NoDup (token_list (map relogin l)).
Proof.
  induction l as [|a l IH]; intros Hids Htok Huuid; [constructor|].
  inversion Hids as [|? ? Hnotin Hids']; subst.
  change (token_list (a :: l))
    with ((match u_token a with Some t0 => [t0] | None => [] end)
            ++ token_list l)%list in Htok.
  assert (Htail : NoDup (token_list l)) by (eapply NoDup_app_remove_l; eauto).
  change (token_list (map relogin (a :: l)))
    with ((match u_token (relogin a) with Some t0 => [t0] | None => [] end)
            ++ token_list (map relogin l))%list.
  unfold set_token_of at 1. destruct (Z.eqb (u_id a) id) eqn:E.
  - apply Z.eqb_eq in E. rewrite E in Hnotin.
    rewrite relogin_other by assumption. cbn.
    constructor; [|assumption].
    intros Hin. apply in_token_list in Hin as (v & Hv & Hvt).
    apply Hnotin. rewrite <- (Huuid v (or_intror Hv) Hvt).
    now apply in_map.
  - assert (IH' : NoDup (token_list (map relogin l))).
    { apply IH; try assumption. intros u Hu. apply Huuid. now right. }
    destruct (u_token a) as [t0|] eqn:Ea; [|exact IH'].
    cbn. constructor; [|exact IH'].
    intros Hin. apply relogin_tokens in Hin as [Hin | ->].
    + inversion Htok as [|? ? Hnot _]; subst. now apply Hnot.
    + apply Z.eqb_neq in E. apply E. apply (Huuid a (or_introl eq_refl)).
      unfold has_token. rewrite Ea. apply String.eqb_refl.
Qed.

End UsersFacts.

(** The constraints of the [users] table hold of every store the
    service can be in. *)
Lemma users_ok_step (uuid : string) (d d' : db) :
  users_ok d -> users_change uuid d d' -> users_ok d'.
Proof.
  intros [Hids Hseq Htok] [Hu Hs | row Hu Hid Hs Hrow Hfresh | id Hu Hs Hfresh].
  - unfold tokens in *. constructor; unfold tokens; rewrite ?Hu, ?Hs; assumption.
  - constructor; unfold tokens in *; rewrite Hu, ?Hs.
    + rewrite map_app. cbn. apply NoDup_app; [assumption | repeat constructor; intros [] |].
      intros i Hi [<- | []]. apply in_map_iff in Hi as (v & Hv & Hin).
      rewrite Forall_forall in Hseq. specialize (Hseq v Hin). lia.
    + apply Forall_app. split.
      * eapply Forall_impl; [|exact Hseq]. cbn. intros; lia.
      * constructor; [lia | constructor].
    + unfold token_list. rewrite flat_map_app. cbn. rewrite Hrow, List.app_nil_r.
      apply NoDup_app; [assumption | repeat constructor; intros [] |].
      intros t Ht [<- | []].
      apply in_token_list in Ht as (v & Hv & Hvt).
      now rewrite (proj1 (existsb_false_forall _ _) Hfresh v Hv) in Hvt.
  - constructor; unfold tokens in *; rewrite Hu, ?Hs.
    + now rewrite relogin_ids.
    + rewrite Forall_forall in *. intros v Hv.
      apply in_map_iff in Hv as (w & <- & Hw). specialize (Hseq w Hw).
      unfold set_token_of. now destruct (Z.eqb (u_id w) id).
    + apply relogin_unique; try assumption.
      intros v Hv Hvt.
      pose proof (proj1 (existsb_false_forall _ _) Hfresh v Hv) as H.
      cbn in H. rewrite Hvt in H. cbn in H.
      apply negb_false_iff in H. now apply Z.eqb_eq.
Qed.

Lemma reachable_users_ok (d : db) : reachable d -> users_ok d.
Proof.
  induction 1 as [|uuid request d _ IH].
  - repeat constructor.
  - eapply users_ok_step; [exact IH | apply onRequest_users].
Qed.

(** A registered email stays registered. *)
Lemma email_kept (uuid email : string) (d d' : db) :
  users_change uuid d d' ->
  existsb (fun u => String.eqb (u_email u) email) (users d) = true ->
  existsb (fun u => String.eqb (u_email u) email) (users d') = true.
Proof.
  intros [Hu _ | row Hu _ _ _ _ | id Hu _ _] H; rewrite Hu.
  - assumption.
  - rewrite existsb_app, H. reflexivity.
  - apply existsb_exists in H as (v & Hv & He).
    apply existsb_exists. exists (set_token_of id uuid v).
    split; [now apply in_map|].
    unfold set_token_of. now destruct (Z.eqb (u_id v) id).
Qed.

Lemma email_kept_run (email : string) (h : history) (d : db) :
  existsb (fun u => String.eqb (u_email u) email) (users d) = true ->
  existsb (fun u => String.eqb (u_email u) email) (users (run h d)) = true.
Proof.
  revert d. induction h as [|[uuid request] h IH]; intros d H; [assumption|].
  cbn [run]. apply IH. eapply email_kept; [apply onRequest_users | exact H].
Qed.

(** A token that no row holds is held by no row after a request that
    generates another value. *)
Lemma token_absent_step (uuid t : string) (d d' : db) :
  users_change uuid d d' -> uuid <> t ->
  existsb (has_token t) (users d) = false ->
  existsb (has_token t) (users d') = false.
Proof.
  intros [Hu _ | row Hu _ _ Hrow _ | id Hu _ _] Hne H; rewrite Hu.
  - assumption.
  - rewrite existsb_app, H. cbn. unfold has_token. rewrite Hrow.
    apply String.eqb_neq in Hne. now rewrite Hne.
  - apply existsb_false_forall. intros v Hv.
    apply in_map_iff in Hv as (w & <- & Hw).
    pose proof (proj1 (existsb_false_forall _ _) H w Hw) as Hwt.
    unfold set_token_of. destruct (Z.eqb (u_id w) id); [|assumption].
    unfold has_token. cbn. now apply String.eqb_neq.
Qed.

Lemma token_absent_run (t : string) (h : history) (d : db) :
  Forall (fun s => fst s <> t) h ->
  existsb (has_token t) (users d) = false ->
  existsb (has_token t) (users (run h d)) = false.
Proof.
  revert d. induction h as [|[uuid request] h IH]; intros d Hh H; [assumption|].
  inversion Hh as [|? ? Hne Hh']; subst. cbn [run]. apply IH; [assumption|].
  eapply token_absent_step; [apply onRequest_users | exact Hne | exact H].
Qed.

(* ================================================================= *)
(** ** C7: one account per email *)

Lemma Pages_register_route (uuid : string) (request : request) (d : db) :
  method request = "POST" -> path_of request = "/auth/register" ->
  Pages.onRequest uuid request d = registerUser uuid request d.
Proof.
  intros Hm Hp. unfold Pages.onRequest, handleAuth. rewrite Hm, Hp. reflexivity.
Qed.

Lemma registerUser_created
      (uuid : string) (request : request) (d : db) (b : body) :
  req_json request = Done b ->
  status (fst (registerUser uuid request d)) = 201 ->
  missing (b_email b) = false
  /\ existsb (fun u => String.eqb (u_email u) (text_of (b_email b)))
             (users (snd (registerUser uuid request d))) = true.
Proof.
  intros Hb. unfold registerUser. rewrite Hb.
  destruct (missing (b_name b)); [intros [=]|].
  destruct (missing (b_email b)); [intros [=]|].
  destruct (_ || _); [intros [=]|].
  destruct (user_by_email _ d); [intros [=]|].
  unfold insert_user.
  destruct (existsb _ (users d)); [intros [=]|].
  destruct (existsb _ (users d)); [intros [=]|].
  intros _. split; [reflexivity|].
  cbn. rewrite existsb_app. cbn. now rewrite String.eqb_refl, !orb_true_r.
Qed.

(** C7, as the specification has it, fails when the second request
    leaves a required field out: it is answered 400, not 409. *)
Lemma second_registration_may_answer_400 :
  status (fst (Pages.onRequest "tok-alice" register_alice D1.empty)) = 201
  /\ snd (Pages.onRequest "tok-alice" register_alice D1.empty) = only_alice
  /\ status (fst (Pages.onRequest
                    "tok-2"
                    (post "/api/auth/register" None
                          (Done (credentials (Some "Alicia") (Some "a@x.com")
                                             (Some "UCh") None)))
                    only_alice)) = 400
  /\ status (fst (Pages.onRequest
                    "tok-2"
                    (post "/api/auth/register" None
                          (Done (credentials (Some "Alicia") (Some "a@x.com")
                                             (Some "UCh") None)))
                    only_alice)) <> 409.
Proof.
  repeat split. vm_compute. discriminate.
Qed.

(** C7, amended.  Once a register request with an email has succeeded,
    a later register request whose body carries the same email is
    refused, whatever was served in between and whatever its other
    fields hold: with 409 when its name, university and password are
    all present and non-empty, and with 400 when one of them is
    missing.  The store is left as it was. *)
Theorem second_registration_refused
        (d0 : db) (uuid1 uuid2 : string) (first second : request)
        (b1 b2 : body) (between : history) (email : string) :
  method first = "POST" -> path_of first = "/auth/register" ->
  req_json first = Done b1 -> b_email b1 = Some email ->
  status (fst (Pages.onRequest uuid1 first d0)) = 201 ->
  method second = "POST" -> path_of second = "/auth/register" ->
  req_json second = Done b2 -> b_email b2 = Some email ->
  let d := run between (snd (Pages.onRequest uuid1 first d0)) in
  Pages.onRequest uuid2 second d
  = (if missing (b_name b2) || missing (b_university b2)
        || missing (b_password b2)
     then errorResponse
            "Name, email, university, and password are required." 400
     else errorResponse "Email already registered." 409,
     d).
Proof.
  intros Hm1 Hp1 Hb1 He1 Hok Hm2 Hp2 Hb2 He2 d.
  rewrite (Pages_register_route _ _ _ Hm1 Hp1) in Hok.
  destruct (registerUser_created _ _ _ _ Hb1 Hok) as [Hpresent Hthere].
  assert (Hd : existsb (fun u => String.eqb (u_email u) email) (users d) = true).
  { subst d. apply email_kept_run.
    rewrite (Pages_register_route _ _ _ Hm1 Hp1).
    now rewrite He1 in Hthere. }
  rewrite (Pages_register_route _ _ _ Hm2 Hp2).
  unfold registerUser. rewrite Hb2.
  rewrite He1 in Hpresent. rewrite He2, Hpresent.
  destruct (missing (b_name b2)); [reflexivity|].
  destruct (missing (b_university b2)); [reflexivity|].
  destruct (missing (b_password b2)); [reflexivity|].
  cbn [orb text_of]. unfold user_by_email.
  destruct (find_some_existsb _ _ Hd) as [row ->]. reflexivity.
Qed.

Lemma second_registration_refused_witness :
  Pages.onRequest
    "tok-2"
    (post "/api/auth/register" None
          (Done (credentials (Some "Alicia") (Some "a@x.com") (Some "PUC")
                             (Some "other"))))
    store
  = (errorResponse "Email already registered." 409, store).
Proof.
  apply (second_registration_refused
           D1.empty "tok-alice" "tok-2" register_alice
           (post "/api/auth/register" None
                 (Done (credentials (Some "Alicia") (Some "a@x.com")
                                    (Some "PUC") (Some "other"))))
           (credentials (Some "Alice") (Some "a@x.com") (Some "UCh")
                        (Some "secret"))
           (credentials (Some "Alicia") (Some "a@x.com") (Some "PUC")
                        (Some "other"))
           (tl two_users) "a@x.com");
    reflexivity.
Defined.

(* ================================================================= *)
(** ** Tokens and the rows that hold them *)

Lemma row_of_id (l : list user_row) (a b : user_row) :
  NoDup (map u_id l) -> In a l -> In b l -> u_id a = u_id b -> a = b.
Proof.
  induction l as [|x l IH]; intros Hnd Ha Hb Hid; [contradiction|].
  inversion Hnd as [|? ? Hnot Hnd']; subst.
  destruct Ha as [<- | Ha], Hb as [<- | Hb].
  - reflexivity.
  - exfalso. apply Hnot. rewrite Hid. now apply in_map.
  - exfalso. apply Hnot. rewrite <- Hid. now apply in_map.
  - now apply IH.
Qed.

Lemma findUserByToken_row (t : string) (d : db) (u : user) :
  findUserByToken t d = Some u ->
  exists row, In row (users d) /\ has_token t row = true
              /\ u = {| user_id := u_id row; user_name := u_name row;
                        user_email := u_email row;
                        user_university := u_university row |}.
Proof.
  unfold findUserByToken, user_by_token.
  destruct (find (has_token t) (users d)) as [row|] eqn:E; [|discriminate].
  apply find_some in E as [Hin Ht]. intros [= <-]. now exists row.
Qed.

Lemma findUserByToken_none (t : string) (d : db) :
  existsb (has_token t) (users d) = false -> findUserByToken t d = None.
Proof.
  intros H. unfold findUserByToken, user_by_token.
  now rewrite (find_none_existsb _ _ H).
Qed.

Lemma has_token_eq (t t' : string) (row : user_row) :
  has_token t row = true -> has_token t' row = true -> t = t'.
Proof.
  unfold has_token. destruct (u_token row) as [s|]; [|discriminate].
  intros H H'. apply String.eqb_eq in H, H'. congruence.
Qed.

Lemma extractToken_bearer (request : request) (t : string) :
  authorization request = Some ("Bearer " ++ t) ->
  extractToken request = Some t.
Proof. unfold extractToken. now intros ->. Qed.

(** A token no row holds opens no session. *)
Lemma dead_token_is_401
      (uuid : string) (request : request) (d : db) (t : string) :
  existsb (has_token t) (users d) = false ->
  method request <> "OPTIONS" ->
  (startsWith (path_of request) "/auth/" = false
   \/ (path_of request = "/auth/me" /\ method request = "GET")) ->
  authorization request = Some ("Bearer " ++ t) ->
  status (fst (Pages.onRequest uuid request d)) = 401.
Proof.
  intros Hdead Hm Hpath Hauth.
  apply String.eqb_neq in Hm.
  pose proof (extractToken_bearer _ _ Hauth) as Ht.
  pose proof (findUserByToken_none _ _ Hdead) as Hnone.
  unfold Pages.onRequest. rewrite Hm.
  destruct Hpath as [Hp | [Hp Hget]].
  - rewrite Hp, Ht, Hnone. now destruct (truthy t).
  - rewrite Hp. cbn [startsWith has_prefix Ascii.eqb Bool.eqb andb].
    unfold handleAuth. rewrite Hget, Ht, Hnone.
    cbn [String.eqb Ascii.eqb Bool.eqb negb]. now destruct (truthy t).
Qed.

Lemma Pages_login_route (uuid : string) (request : request) (d : db) :
  method request = "POST" -> path_of request = "/auth/login" ->
  Pages.onRequest uuid request d = loginUser uuid request d.
Proof.
  intros Hm Hp. unfold Pages.onRequest, handleAuth. rewrite Hm, Hp. reflexivity.
Qed.

(** What a successful login did to the store. *)
Lemma loginUser_logged_in
      (uuid : string) (request : request) (d d' : db) (u : user) :
  loginUser uuid request d
  = (jsonResponse (JObj [("user", user_json u); ("token", JStr uuid)]) 200, d') ->
  exists row,
    In row (users d)
    /\ user_email u = u_email row
    /\ users d' = map (set_token_of (u_id row) uuid) (users d)
    /\ existsb (fun v => has_token uuid v && negb (Z.eqb (u_id v) (u_id row)))
               (users d) = false.
Proof.
  unfold loginUser.
  destruct (req_json request) as [b|m]; [|intros [=]].
  destruct (_ || _); [intros [=]|].
  destruct (user_by_credentials _ _ d) as [row|] eqn:Erow; [|intros [=]].
  apply find_some in Erow as [Hin _].
  unfold update_user_token.
  assert (Hid : existsb (fun v => Z.eqb (u_id v) (u_id row)) (users d) = true).
  { apply existsb_exists. exists row. split; [assumption | apply Z.eqb_refl]. }
  rewrite Hid. cbn [andb]. clear Hid.
  destruct (existsb (fun v => has_token uuid v
                              && negb (Z.eqb (u_id v) (u_id row)))
                    (users d)) eqn:E; [intros [=]|].
  intros H. injection H as _ _ He _ Hd. subst d'.
  exists row. repeat split; try assumption. now symmetry.
Qed.

Lemma unique_email (l : list user_row) (a b : user_row) :
  NoDup (map u_email l) -> In a l -> In b l -> u_email a = u_email b -> a = b.
Proof.
  induction l as [|x l IH]; intros Hnd Ha Hb He; [contradiction|].
  inversion Hnd as [|? ? Hnot Hnd']; subst.
  destruct Ha as [<- | Ha], Hb as [<- | Hb].
  - reflexivity.
  - exfalso. apply Hnot. rewrite He. now apply in_map.
  - exfalso. apply Hnot. rewrite <- He. now apply in_map.
  - now apply IH.
Qed.


(* ================================================================= *)
(** ** The scenarios of the specification, run on the model *)

Example split_reports_search :
  split "/" "/reports/search" = [EmptyString; "reports"; "search"].
Proof. reflexivity. Qed.

Example segments_trailing_slash : segments "/lists/7/" = ["lists"; "7"].
Proof. reflexivity. Qed.

Example api_prefix_removed_once :
  remove_first "/api" "/api/reports/api" = "/reports/api".
Proof. reflexivity. Qed.

Example parseInt_samples :
  (parseInt "12abc", parseInt "abc", parseInt " -7", parseInt "0x1f")
  = (Some 12%Z, None, Some (-7)%Z, Some 31%Z).
Proof. reflexivity. Qed.

(** Alice reads the [configuracion] she stored; Bob gets 404. *)
Example owner_reads_scale :
  (exists props,
      content (fst (Pages.onRequest
                      "x" (bodiless "GET" "/api/reports/r1" as_alice) store))
      = Some (JObj props)
      /\ get_prop "configuracion" props = Some (JObj [("scale", JNum 7)]))
  /\ fst (Pages.onRequest "x" (bodiless "GET" "/api/reports/r1" as_bob) store)
     = errorResponse "Report not found" 404.
Proof.
  split; [|vm_compute; reflexivity].
  eexists. split; vm_compute; reflexivity.
Qed.

(** Deleting the list "Section 1" leaves the report "r1" in place with
    no list. *)
Example list_deletion_sets_null :
  map (fun r => (r_id r, r_list_id r)) (reports store) = [("r1", Some 1%Z)]
  /\ map (fun r => (r_id r, r_list_id r))
         (reports (snd (Fixed.onRequest
                          "x" (bodiless "DELETE" "/api/lists/1" as_alice)
                          store)))
     = [("r1", None)].
Proof. split; vm_compute; reflexivity. Qed.

(** A login hands out a token different from the one of the
    registration, and the registration token stops working. *)
Example login_reissues_token :
  content (fst (Pages.onRequest
                  "tok-alice-2"
                  (post "/api/auth/login" None
                        (Done (credentials None (Some "a@x.com") None
                                           (Some "secret"))))
                  store))
  = Some (JObj [("user", user_json alice); ("token", JStr "tok-alice-2")]).
Proof. vm_compute. reflexivity. Qed.

(* ================================================================= *)
(** * What a request can write *)

(** ** The writing statements, one at a time *)

Lemma length_zero_none {A : Type} (f : A -> bool) (l : list A) :
  List.length (filter f l) = 0 -> forall x, In x l -> f x = false.
Proof.
  intros H x Hin. destruct (f x) eqn:E; [|reflexivity].
  exfalso. exact (filter_hit_length f l x Hin E H).
Qed.

Lemma update_report_nothing (row : report_row) (d d' : db) :
  update_report row d = Done (0, d') -> d' = d.
Proof.
  unfold update_report.
  destruct (negb _ && negb _); [discriminate|].
  intros H. injection H as Hn Hd. subst d'.
  rewrite (map_unhit _ _ _ (length_zero_none _ _ Hn)).
  apply set_reports_same.
Qed.

Lemma delete_report_nothing (id : string) (userId : Z) (d d' : db) :
  delete_report id userId d = (0, d') -> d' = d.
Proof.
  unfold delete_report. intros H. injection H as Hn Hd. subst d'.
  rewrite (filter_all _ _ (length_zero_none _ _ Hn)).
  apply set_reports_same.
Qed.

Lemma clear_nothing (r : report_row) : clear_list [] r = r.
Proof. unfold clear_list. now destruct (r_list_id r). Qed.

Lemma delete_list_nothing (id userId : Z) (d d' : db) :
  delete_list id userId d = (0, d') -> d' = d.
Proof.
  unfold delete_list. intros H. injection H as Hn Hd. subst d'.
  pose proof (length_zero_none _ _ Hn) as Hnone.
  rewrite (filter_all _ _ Hnone), (filter_none _ _ Hnone). cbn [map].
  rewrite (map_ext _ (fun r => r) clear_nothing), map_id.
  now destruct d.
Qed.

Lemma update_list_nothing (name : string) (id userId : Z) (d d' : db) :
  update_list_name name id userId d = (0, d') -> d' = d.
Proof.
  unfold update_list_name. intros H. injection H as Hn Hd. subst d'.
  pose proof (length_zero_none _ _ Hn) as Hnone.
  replace (map _ (lists d)) with (lists d); [now destruct d|].
  symmetry. rewrite <- (map_id (lists d)) at 2.
  apply map_ext_in. intros l Hl. now rewrite (Hnone l Hl).
Qed.

(** ** What each handler does to the store *)

Section Effects.

Variable uuid : string.
Variable request : request.
Variable d : db.

Lemma registerUser_effect :
  method request = "POST" ->
  effect uuid request d (registerUser uuid request d).
Proof.
  intros Hm. unfold registerUser.
  destruct (req_json request) as [b|m] eqn:Hb; [|apply effect_none].
  destruct (_ || _); [apply effect_none|].
  destruct (user_by_email _ d) eqn:He; [apply effect_none|].
  destruct (insert_user _ _ _ _ uuid d) as [[id d']|m] eqn:E;
    [|apply effect_none].
  now apply (effect_registered uuid request d b _ id d').
Qed.

Lemma loginUser_effect :
  method request = "POST" ->
  effect uuid request d (loginUser uuid request d).
Proof.
  intros Hm. unfold loginUser.
  destruct (req_json request) as [b|m]; [|apply effect_none].
  destruct (_ || _); [apply effect_none|].
  destruct (user_by_credentials _ _ d) as [row|] eqn:Erow;
    [|apply effect_none].
  apply find_some in Erow as [Hin _].
  destruct (update_user_token uuid (u_id row) d) as [d'|m] eqn:E;
    [|apply effect_none].
  now apply (effect_logged_in uuid request d row _ d').
Qed.

Lemma handleAuth_effect (path : string) :
  effect uuid request d (handleAuth uuid request path d).
Proof.
  unfold handleAuth.
  destruct (String.eqb path "/auth/register").
  { destruct (String.eqb (method request) "POST") eqn:Hm; cbn [negb];
      [|apply effect_none].
    apply registerUser_effect. now apply String.eqb_eq. }
  destruct (String.eqb path "/auth/login").
  { destruct (String.eqb (method request) "POST") eqn:Hm; cbn [negb];
      [|apply effect_none].
    apply loginUser_effect. now apply String.eqb_eq. }
  repeat innermost_case; apply effect_none.
Qed.

Variable u : user.
Hypothesis Hsession : session request d = Some u.

Lemma getReports_effect :
  effect uuid request d (getReports request d (user_id u)).
Proof. unfold getReports. repeat innermost_case; apply effect_none. Qed.

Lemma getReport_effect (id : string) :
  effect uuid request d (getReport request d (user_id u) id).
Proof. unfold getReport. repeat innermost_case; apply effect_none. Qed.

Lemma searchReports_effect :
  effect uuid request d (searchReports request d (user_id u)).
Proof. unfold searchReports. repeat innermost_case; apply effect_none. Qed.

Lemma getLists_effect :
  effect uuid request d (getLists request d (user_id u)).
Proof. apply effect_none. Qed.

Lemma createReport_effect :
  method request = "POST" ->
  effect uuid request d (createReport uuid request d (user_id u)).
Proof.
  intros Hm. unfold createReport.
  destruct (req_json request) as [b|m] eqn:Hb; [|apply effect_none].
  cbv zeta.
  destruct (insert_report _ d) as [d'|m] eqn:E; [|apply effect_none].
  now apply (effect_report_created uuid request d u b _ d').
Qed.

Lemma updateReport_effect (id : string) :
  method request = "PUT" ->
  effect uuid request d (updateReport request d (user_id u) id).
Proof.
  intros Hm. unfold updateReport.
  destruct (req_json request) as [b|m] eqn:Hb; [|apply effect_none].
  destruct (update_report _ d) as [[n d']|m] eqn:E; [|apply effect_none].
  cbn [rows_affected is_zero]. destruct n as [|n].
  - rewrite (update_report_nothing _ _ _ E). apply effect_none.
  - now apply (effect_report_updated uuid request d u id b _ (S n) d').
Qed.

Lemma deleteReport_effect (id : string) :
  method request = "DELETE" ->
  effect uuid request d (deleteReport request d (user_id u) id).
Proof.
  intros Hm. unfold deleteReport.
  destruct (delete_report id (user_id u) d) as [n d'] eqn:E.
  cbn [rows_affected is_zero]. destruct n as [|n].
  - rewrite (delete_report_nothing _ _ _ _ E). apply effect_none.
  - now apply (effect_report_deleted uuid request d u id _ (S n) d').
Qed.

Lemma createList_effect :
  method request = "POST" ->
  effect uuid request d (createList request d (user_id u)).
Proof.
  intros Hm. unfold createList.
  destruct (req_json request) as [b|m] eqn:Hb; [|apply effect_none].
  destruct (missing (b_name b)); [apply effect_none|].
  destruct (insert_list _ _ _ d) as [[id d']|m] eqn:E; [|apply effect_none].
  now apply (effect_list_created uuid request d u b _ id d').
Qed.

Lemma deleteList_effect (id : string) :
  method request = "DELETE" ->
  fixed_effect uuid request d (Fixed.deleteList request d (user_id u) id).
Proof.
  intros Hm. unfold Fixed.deleteList.
  destruct (parseInt id) as [listIdNum|];
    [|apply fixed_common, effect_none].
  rewrite NumberFacts.parseInt_number_id.
  destruct (list_by_id listIdNum d); [|apply fixed_common, effect_none].
  destruct (negb _); [apply fixed_common, effect_none|].
  destruct (delete_list listIdNum (user_id u) d) as [n d'] eqn:E.
  cbn [rows_affected is_zero]. destruct n as [|n].
  - rewrite (delete_list_nothing _ _ _ _ E). apply fixed_common, effect_none.
  - now apply (fixed_list_deleted uuid request d u listIdNum _ (S n) d').
Qed.

Lemma getList_effect (id : string) :
  fixed_effect uuid request d (Fixed.getList request d (user_id u) id).
Proof.
  unfold Fixed.getList. repeat innermost_case; apply fixed_common, effect_none.
Qed.

Lemma updateList_effect (id : string) :
  method request = "PUT" ->
  fixed_effect uuid request d (Fixed.updateList request d (user_id u) id).
Proof.
  intros Hm. unfold Fixed.updateList.
  destruct (req_json request) as [b|m] eqn:Hb;
    [|apply fixed_common, effect_none].
  destruct (missing (b_name b)); [apply fixed_common, effect_none|].
  destruct (parseInt id) as [listIdNum|];
    [|apply fixed_common, effect_none].
  rewrite NumberFacts.parseInt_number_id.
  destruct (update_list_name _ listIdNum (user_id u) d) as [n d'] eqn:E.
  cbn [rows_affected is_zero]. destruct n as [|n].
  - rewrite (update_list_nothing _ _ _ _ _ E). apply fixed_common, effect_none.
  - now apply (fixed_list_renamed uuid request d u listIdNum b _ (S n) d').
Qed.

End Effects.

(** ** What a request does to the store *)

Ltac by_method H :=
  match type of H with
  | String.eqb _ _ = true => apply String.eqb_eq in H
  end.

Lemma Pages_effect (uuid : string) (request : request) (d : db) :
  effect uuid request d (Pages.onRequest uuid request d).
Proof.
  unfold Pages.onRequest.
  destruct (String.eqb (method request) "OPTIONS"); [apply effect_none|].
  destruct (startsWith (path_of request) "/auth/"); [apply handleAuth_effect|].
  destruct (extractToken request) as [token|] eqn:Ht; [|apply effect_none].
  destruct (truthy token) eqn:Htr; cbn [negb]; [|apply effect_none].
  destruct (findUserByToken token d) as [u|] eqn:Hu; [|apply effect_none].
  assert (Hs : session request d = Some u)
    by (unfold session; now rewrite Ht, Htr).
  cbv zeta.
  destruct (String.eqb (path_of request) "/reports").
  { destruct (String.eqb (method request) "GET");
      [now apply getReports_effect|].
    destruct (String.eqb (method request) "POST") eqn:Hm;
      [|apply effect_none].
    by_method Hm. now apply createReport_effect. }
  destruct (startsWith (path_of request) "/reports/").
  { destruct (segments (path_of request)) as [|first [|reportId more]];
      try apply effect_none.
    destruct more as [|third more].
    - destruct (String.eqb (method request) "GET");
        [now apply getReport_effect|].
      destruct (String.eqb (method request) "PUT") eqn:Hput;
        [by_method Hput; now apply updateReport_effect|].
      destruct (String.eqb (method request) "DELETE") eqn:Hdel;
        [by_method Hdel; now apply deleteReport_effect|].
      apply effect_none.
    - destruct more; [|apply effect_none].
      destruct (_ && _); [now apply searchReports_effect | apply effect_none]. }
  destruct (String.eqb (path_of request) "/reports/search").
  { destruct (String.eqb (method request) "POST");
      [now apply searchReports_effect | apply effect_none]. }
  destruct (String.eqb (path_of request) "/lists"); [|apply effect_none].
  destruct (String.eqb (method request) "GET"); [now apply getLists_effect|].
  destruct (String.eqb (method request) "POST") eqn:Hm; [|apply effect_none].
  by_method Hm. now apply createList_effect.
Qed.

Lemma Fixed_effect (uuid : string) (request : request) (d : db) :
  fixed_effect uuid request d (Fixed.onRequest uuid request d).
Proof.
  unfold Fixed.onRequest.
  destruct (String.eqb (method request) "OPTIONS");
    [apply fixed_common, effect_none|].
  destruct (startsWith (path_of request) "/auth/");
    [apply fixed_common, handleAuth_effect|].
  destruct (extractToken request) as [token|] eqn:Ht;
    [|apply fixed_common, effect_none].
  destruct (truthy token) eqn:Htr; cbn [negb];
    [|apply fixed_common, effect_none].
  destruct (findUserByToken token d) as [u|] eqn:Hu;
    [|apply fixed_common, effect_none].
  assert (Hs : session request d = Some u)
    by (unfold session; now rewrite Ht, Htr).
  cbv zeta.
  destruct (String.eqb (path_of request) "/reports").
  { apply fixed_common.
    destruct (String.eqb (method request) "GET");
      [now apply getReports_effect|].
    destruct (String.eqb (method request) "POST") eqn:Hm;
      [|apply effect_none].
    by_method Hm. now apply createReport_effect. }
  destruct (String.eqb (path_of request) "/reports/search").
  { apply fixed_common.
    destruct (String.eqb (method request) "POST");
      [now apply searchReports_effect | apply effect_none]. }
  destruct (startsWith (path_of request) "/reports/").
  { apply fixed_common.
    destruct (segments (path_of request)) as [|first [|reportId more]];
      try apply effect_none.
    destruct (String.eqb (method request) "GET");
      [now apply getReport_effect|].
    destruct (String.eqb (method request) "PUT") eqn:Hput;
      [by_method Hput; now apply updateReport_effect|].
    destruct (String.eqb (method request) "DELETE") eqn:Hdel;
      [by_method Hdel; now apply deleteReport_effect|].
    apply effect_none. }
  destruct (String.eqb (path_of request) "/lists").
  { apply fixed_common.
    destruct (String.eqb (method request) "GET"); [now apply getLists_effect|].
    destruct (String.eqb (method request) "POST") eqn:Hm;
      [|apply effect_none].
    by_method Hm. now apply createList_effect. }
  destruct (startsWith (path_of request) "/lists/");
    [|apply fixed_common, effect_none].
  destruct (segments (path_of request)) as [|first [|listId more]];
    try apply fixed_common, effect_none.
  destruct (String.eqb (method request) "DELETE") eqn:Hdel;
    [by_method Hdel; now apply deleteList_effect|].
  destruct (String.eqb (method request) "GET"); [now apply getList_effect|].
  destruct (String.eqb (method request) "PUT") eqn:Hput;
    [by_method Hput; now apply updateList_effect|].
  apply fixed_common, effect_none.
Qed.

(** ** The statements of the store, inverted *)

Lemma insert_user_done (name email university password token : string)
      (d d' : db) (id : Z) :
  insert_user name email university password token d = Done (id, d') ->
  id = (users_seq d + 1)%Z
  /\ users d' = (users d ++ [ {| u_id := id; u_name := name; u_email := email;
                                 u_university := university;
                                 u_password := password;
                                 u_token := Some token |} ])%list
  /\ lists d' = lists d /\ reports d' = reports d
  /\ lists_seq d' = lists_seq d
  /\ existsb (fun u => String.eqb (u_email u) email) (users d) = false
  /\ existsb (has_token token) (users d) = false.
Proof.
  unfold insert_user.
  destruct (existsb _ (users d)) eqn:E1; [discriminate|].
  destruct (existsb (has_token token) (users d)) eqn:E2; [discriminate|].
  intros [= <- <-]. repeat split; assumption.
Qed.

Lemma update_user_token_done (token : string) (id : Z) (d d' : db) :
  update_user_token token id d = Done d' ->
  users d' = map (set_token_of id token) (users d)
  /\ lists d' = lists d /\ reports d' = reports d
  /\ users_seq d' = users_seq d /\ lists_seq d' = lists_seq d.
Proof.
  unfold update_user_token. destruct (_ && _); [discriminate|].
  intros [= <-]. repeat split.
Qed.

Lemma insert_report_done (row : report_row) (d d' : db) :
  insert_report row d = Done d' ->
  d' = set_reports (reports d ++ [row])%list d
  /\ existsb (fun r => String.eqb (r_id r) (r_id row)) (reports d) = false
  /\ list_exists (r_list_id row) d = true.
Proof.
  unfold insert_report.
  destruct (existsb _ (reports d)) eqn:E1; [discriminate|].
  destruct (user_exists _ d); cbn [andb negb]; [|discriminate].
  destruct (list_exists _ d) eqn:E2; cbn [negb]; [|discriminate].
  intros [= <-]. repeat split.
Qed.

Lemma update_report_done (row : report_row) (d d' : db) (n : nat) :
  update_report row d = Done (n, d') ->
  d' = set_reports
         (map (fun r => if is_report (r_id row) (r_user_id row) r
                        then row else r) (reports d)) d
  /\ n = List.length (filter (is_report (r_id row) (r_user_id row))
                             (reports d)).
Proof.
  unfold update_report. destruct (_ && _); [discriminate|].
  intros [= <- <-]. split; reflexivity.
Qed.

Lemma insert_list_done (name : string) (userId : Z) (timestamp : string)
      (d d' : db) (id : Z) :
  insert_list name userId timestamp d = Done (id, d') ->
  id = (lists_seq d + 1)%Z
  /\ lists d' = (lists d ++ [ {| l_id := id; l_name := name;
                                 l_user_id := userId;
                                 l_created_at := timestamp |} ])%list
  /\ users d' = users d /\ reports d' = reports d
  /\ users_seq d' = users_seq d /\ lists_seq d' = id.
Proof.
  unfold insert_list. destruct (negb _); [discriminate|].
  intros [= <- <-]. repeat split.
Qed.

(* ================================================================= *)
(** ** Answers and writes *)

(** X1. A request that functions/api/[[route]].js or its corrected copy
    answers with a status other than 200 and 201 has written nothing:
    the store is the one it found. *)
Theorem failure_writes_nothing (uuid : string) (request : request) (d : db) :
  (status (fst (Pages.onRequest uuid request d)) <> 200 ->
   status (fst (Pages.onRequest uuid request d)) <> 201 ->
   snd (Pages.onRequest uuid request d) = d)
  /\ (status (fst (Fixed.onRequest uuid request d)) <> 200 ->
      status (fst (Fixed.onRequest uuid request d)) <> 201 ->
      snd (Fixed.onRequest uuid request d) = d).
Proof.
  split.
  - pose proof (Pages_effect uuid request d) as H.
    destruct (Pages.onRequest uuid request d) as [answer d'].
    cbn [fst snd]. intros H200 H201.
    inversion H; subst; try reflexivity; contradiction.
  - pose proof (Fixed_effect uuid request d) as H.
    destruct (Fixed.onRequest uuid request d) as [answer d'].
    cbn [fst snd]. intros H200 H201.
    inversion H as [o He | |]; subst; try contradiction.
    inversion He; subst; try reflexivity; contradiction.
Qed.

(** X2. Only POST, PUT and DELETE requests write: a request with any
    other method, GET and OPTIONS among them, leaves the store as it
    was, in both Pages functions. *)
Theorem reading_writes_nothing (uuid : string) (request : request) (d : db) :
  method request <> "POST" -> method request <> "PUT" ->
  method request <> "DELETE" ->
  snd (Pages.onRequest uuid request d) = d
  /\ snd (Fixed.onRequest uuid request d) = d.
Proof.
  intros Hpost Hput Hdel. split.
  - pose proof (Pages_effect uuid request d) as H.
    destruct (Pages.onRequest uuid request d) as [answer d'].
    inversion H; subst; try reflexivity; contradiction.
  - pose proof (Fixed_effect uuid request d) as H.
    destruct (Fixed.onRequest uuid request d) as [answer d'].
    inversion H as [o He | |]; subst; try contradiction.
    inversion He; subst; try reflexivity; contradiction.
Qed.

Lemma reading_writes_nothing_witness :
  snd (Pages.onRequest "x" (bodiless "GET" "/api/reports" as_alice) store)
  = store
  /\ snd (Fixed.onRequest "x" (bodiless "GET" "/api/reports" as_alice) store)
     = store.
Proof.
  apply (reading_writes_nothing "x" (bodiless "GET" "/api/reports" as_alice)
                                store); discriminate.
Defined.

Lemma failure_writes_nothing_witness :
  snd (Pages.onRequest
         "x" (post "/api/reports" as_bob (Done (report_body (Some "r1") None)))
         store)
  = store.
Proof.
  destruct (failure_writes_nothing
              "x" (post "/api/reports" as_bob
                        (Done (report_body (Some "r1") None))) store)
    as [H _].
  apply H; vm_compute; discriminate.
Defined.

(* ================================================================= *)
(** ** Tenancy of every route *)

Lemma filter_app_miss {A : Type} (f : A -> bool) (l : list A) (x : A) :
  f x = false -> filter f (l ++ [x])%list = filter f l.
Proof.
  intros H. rewrite filter_app. cbn. rewrite H. apply List.app_nil_r.
Qed.

Lemma owned_after_update (owner userId : Z) (id : string) (row : report_row)
      (rows : list report_row) :
  userId <> owner -> r_user_id row = userId ->
  filter (owned_by owner)
         (map (fun r => if is_report id userId r then row else r) rows)
  = filter (owned_by owner) rows.
Proof.
  intros Hne Hrow. induction rows as [|r rows IH]; [reflexivity|].
  assert (Hnew : owned_by owner row = false)
    by (unfold owned_by; rewrite Hrow; now apply Z.eqb_neq).
  cbn [map filter]. destruct (is_report id userId r) eqn:E.
  - rewrite Hnew.
    assert (Hold : owned_by owner r = false).
    { unfold is_report, owned_by in *. apply andb_prop in E as [_ E].
      apply Z.eqb_eq in E. rewrite E. now apply Z.eqb_neq. }
    now rewrite Hold.
  - destruct (owned_by owner r); [f_equal|]; exact IH.
Qed.

Lemma owned_after_delete (owner userId : Z) (id : string)
      (rows : list report_row) :
  userId <> owner ->
  filter (owned_by owner)
         (filter (fun r => negb (is_report id userId r)) rows)
  = filter (owned_by owner) rows.
Proof.
  intros Hne. induction rows as [|r rows IH]; [reflexivity|].
  cbn [filter]. destruct (is_report id userId r) eqn:E; cbn [negb filter].
  - assert (Hold : owned_by owner r = false).
    { unfold is_report, owned_by in *. apply andb_prop in E as [_ E].
      apply Z.eqb_eq in E. rewrite E. now apply Z.eqb_neq. }
    now rewrite Hold.
  - destruct (owned_by owner r); [f_equal|]; exact IH.
Qed.

(** X3. In functions/api/[[route]].js the reports and the lists of a
    user change only through requests made in that user's session: a
    request that is unauthenticated, or authenticated as someone else,
    leaves what GET /reports and GET /lists select for the user as it
    was, whatever its route, method and body. *)
Theorem rows_change_in_own_session
        (uuid : string) (request : request) (d : db) (owner : Z) :
  (forall u, session request d = Some u -> user_id u <> owner) ->
  reports_of owner (snd (Pages.onRequest uuid request d)) = reports_of owner d
  /\ lists_of owner (snd (Pages.onRequest uuid request d)) = lists_of owner d.
Proof.
  intros Hother.
  pose proof (Pages_effect uuid request d) as H.
  destruct (Pages.onRequest uuid request d) as [answer d'].
  unfold reports_of, lists_of. cbn [snd].
  inversion H as
      [ a
      | b a id d1 Hm Hb Hst He Hins
      | row a d1 Hm Hst Hin Hupd
      | u b a d1 Hm Hs Hb Hst Hins
      | u id b a n d1 Hm Hs Hb Hst Hupd Hn
      | u id a n d1 Hm Hs Hst Hdel Hn
      | u b a id d1 Hm Hs Hb Hst Hins ]; subst.
  - split; reflexivity.
  - apply insert_user_done in Hins as (_ & _ & -> & -> & _). split; reflexivity.
  - apply update_user_token_done in Hupd as (_ & -> & -> & _).
    split; reflexivity.
  - apply insert_report_done in Hins as (-> & _). cbn [set_reports reports lists].
    split; [|reflexivity]. apply filter_app_miss.
    unfold owned_by. cbn [r_user_id bound_row]. apply Z.eqb_neq.
    exact (Hother u Hs).
  - apply update_report_done in Hupd as (-> & _).
    cbn [set_reports reports lists r_id r_user_id bound_row].
    split; [|reflexivity].
    apply owned_after_update; [exact (Hother u Hs) | reflexivity].
  - unfold delete_report in Hdel. injection Hdel as _ <-.
    cbn [set_reports reports lists]. split; [|reflexivity].
    apply owned_after_delete. exact (Hother u Hs).
  - apply insert_list_done in Hins as (_ & -> & _ & -> & _).
    split; [reflexivity|]. apply filter_app_miss.
    cbn [l_user_id]. apply Z.eqb_neq. exact (Hother u Hs).
Qed.

Lemma rows_change_in_own_session_witness :
  reports_of 1%Z (snd (Pages.onRequest
                         "x" (bodiless "DELETE" "/api/reports/r1" as_bob) store))
  = reports_of 1%Z store.
Proof.
  apply (rows_change_in_own_session
           "x" (bodiless "DELETE" "/api/reports/r1" as_bob) store 1%Z).
  intros u [= <-]. discriminate.
Defined.

(** ** Accounts *)

Lemma same_account_refl (a : user_row) : same_account a a.
Proof. repeat split. Qed.

Lemma same_account_trans (a b c : user_row) :
  same_account a b -> same_account b c -> same_account a c.
Proof.
  unfold same_account. intros (?&?&?&?&?) (?&?&?&?&?).
  repeat split; congruence.
Qed.

Lemma same_account_relogin (id : Z) (token : string) (a : user_row) :
  same_account a (set_token_of id token a).
Proof.
  unfold set_token_of. destruct (Z.eqb (u_id a) id); repeat split.
Qed.

Lemma effect_keeps_account
      (uuid : string) (request : request) (d : db) (row : user_row)
      (outcome : response * db) :
  In row (users d) -> effect uuid request d outcome ->
  exists row', In row' (users (snd outcome)) /\ same_account row row'.
Proof.
  intros Hin H.
  inversion H as
      [ a
      | b a id d1 Hm Hb Hst He Hins
      | r a d1 Hm Hst Hr Hupd
      | u b a d1 Hm Hs Hb Hst Hins
      | u id b a n d1 Hm Hs Hb Hst Hupd Hn
      | u id a n d1 Hm Hs Hst Hdel Hn
      | u b a id d1 Hm Hs Hb Hst Hins ]; subst; cbn [snd].
  - exists row. split; [assumption | apply same_account_refl].
  - apply insert_user_done in Hins as (_ & -> & _).
    exists row. split; [apply in_or_app; now left | apply same_account_refl].
  - apply update_user_token_done in Hupd as (-> & _).
    exists (set_token_of (u_id r) uuid row).
    split; [now apply in_map | apply same_account_relogin].
  - apply insert_report_done in Hins as (-> & _).
    exists row. split; [assumption | apply same_account_refl].
  - apply update_report_done in Hupd as (-> & _).
    exists row. split; [assumption | apply same_account_refl].
  - unfold delete_report in Hdel. injection Hdel as _ <-.
    exists row. split; [assumption | apply same_account_refl].
  - apply insert_list_done in Hins as (_ & _ & -> & _).
    exists row. split; [assumption | apply same_account_refl].
Qed.

(** X4. No request removes an account or changes its key, name, email,
    university or password: every row of [users] is still there after
    the request, in both Pages functions, with at most another token. *)
Theorem accounts_are_kept
        (uuid : string) (request : request) (d : db) (row : user_row) :
  In row (users d) ->
  (exists row', In row' (users (snd (Pages.onRequest uuid request d)))
                /\ same_account row row')
  /\ (exists row', In row' (users (snd (Fixed.onRequest uuid request d)))
                   /\ same_account row row').
Proof.
  intros Hin.
  split; [exact (effect_keeps_account _ _ _ _ _ Hin (Pages_effect _ _ _))|].
  pose proof (Fixed_effect uuid request d) as H.
  inversion H as [o He Ho | u id a n d1 Hm Hs Hst Hdel Hn Ho
                  | u id b a n d1 Hm Hs Hb Hst Hupd Hn Ho].
  - exact (effect_keeps_account _ _ _ _ _ Hin He).
  - unfold delete_list in Hdel. injection Hdel as _ <-.
    exists row. split; [assumption | apply same_account_refl].
  - unfold update_list_name in Hupd. injection Hupd as _ <-.
    exists row. split; [assumption | apply same_account_refl].
Qed.

Lemma accounts_are_kept_witness :
  exists row',
    In row' (users (snd (Pages.onRequest
                           "tok-alice-2"
                           (post "/api/auth/login" None
                                 (Done (credentials None (Some "a@x.com") None
                                                    (Some "secret"))))
                           store)))
    /\ same_account {| u_id := 1; u_name := "Alice"; u_email := "a@x.com";
                       u_university := "UCh"; u_password := "secret";
                       u_token := Some "tok-alice" |} row'.
Proof.
  apply (accounts_are_kept
           "tok-alice-2"
           (post "/api/auth/login" None
                 (Done (credentials None (Some "a@x.com") None (Some "secret"))))
           store).
  left. reflexivity.
Defined.

(* ================================================================= *)
(** ** Constraints that hold of every store the service can be in *)

Lemma NoDup_map_filter {A B : Type} (f : A -> B) (g : A -> bool) (l : list A) :
  NoDup (map f l) -> NoDup (map f (filter g l)).
Proof.
  induction l as [|x l IH]; intros H; [constructor|].
  inversion H as [|? ? Hnot Hnd]; subst. cbn [filter].
  destruct (g x); [|now apply IH].
  cbn [map]. constructor; [|now apply IH].
  intros Hin. apply Hnot. apply in_map_iff in Hin as (y & Hy & Hyin).
  apply filter_In in Hyin as [Hyin _]. rewrite <- Hy. now apply in_map.
Qed.

Lemma bound_row_encoded (id : string) (userId : Z) (b : body) :
  let r := bound_row id userId b in
  encoded (r_info_general r) /\ encoded (r_configuracion r)
  /\ encoded (r_niveles_desempeno r) /\ encoded (r_criterios r)
  /\ encoded (r_feedback r) /\ encoded (r_resultados r).
Proof. cbn. repeat split; eexists; reflexivity. Qed.

Lemma update_keeps_ids (id : string) (userId : Z) (row : report_row)
      (rows : list report_row) :
  r_id row = id ->
  map r_id (map (fun r => if is_report id userId r then row else r) rows)
  = map r_id rows.
Proof.
  intros Hrow. induction rows as [|r rows IH]; [reflexivity|].
  cbn [map]. rewrite IH. f_equal.
  destruct (is_report id userId r) eqn:E; [|reflexivity].
  unfold is_report in E. apply andb_prop in E as [E _].
  apply String.eqb_eq in E. congruence.
Qed.

Lemma reports_ok_step (uuid : string) (request : request) (d : db)
      (outcome : response * db) :
  reports_ok d -> effect uuid request d outcome -> reports_ok (snd outcome).
Proof.
  intros [Hids Hcols] H.
  inversion H as
      [ a
      | b a id d1 Hm Hb Hst He Hins
      | r a d1 Hm Hst Hrow Hupd
      | u b a d1 Hm Hs Hb Hst Hins
      | u id b a n d1 Hm Hs Hb Hst Hupd Hn
      | u id a n d1 Hm Hs Hst Hdel Hn
      | u b a id d1 Hm Hs Hb Hst Hins ]; subst; cbn [snd].
  - now constructor.
  - apply insert_user_done in Hins as (_ & _ & _ & Hr & _).
    constructor; now rewrite Hr.
  - apply update_user_token_done in Hupd as (_ & _ & Hr & _).
    constructor; now rewrite Hr.
  - apply insert_report_done in Hins as (-> & Hfresh & _).
    constructor; cbn [set_reports reports].
    + rewrite map_app. cbn [map].
      apply NoDup_app; [assumption | repeat constructor; intros [] |].
      intros i Hi [<- | []]. apply in_map_iff in Hi as (r & Hr & Hin).
      pose proof (proj1 (existsb_false_forall _ _) Hfresh r Hin) as Hne.
      cbn in Hne. rewrite Hr, String.eqb_refl in Hne. discriminate.
    + apply Forall_app. split; [assumption|].
      constructor; [apply bound_row_encoded | constructor].
  - apply update_report_done in Hupd as (-> & _).
    constructor; cbn [set_reports reports r_id r_user_id bound_row].
    + now rewrite update_keeps_ids.
    + rewrite Forall_forall in *. intros r Hr.
      apply in_map_iff in Hr as (r0 & <- & Hr0).
      destruct (is_report id (user_id u) r0);
        [apply bound_row_encoded | now apply Hcols].
  - unfold delete_report in Hdel. injection Hdel as _ <-.
    constructor; cbn [set_reports reports].
    + now apply NoDup_map_filter.
    + rewrite Forall_forall in *. intros r Hr.
      apply filter_In in Hr as [Hr _]. now apply Hcols.
  - apply insert_list_done in Hins as (_ & _ & _ & Hr & _).
    constructor; now rewrite Hr.
Qed.

Lemma parsedReport_encoded (r : report_row) :
  encoded (r_info_general r) /\ encoded (r_configuracion r)
  /\ encoded (r_niveles_desempeno r) /\ encoded (r_criterios r)
  /\ encoded (r_feedback r) /\ encoded (r_resultados r) ->
  exists v, parsedReport r = Done v.
Proof.
  intros ((v1 & H1) & (v2 & H2) & (v3 & H3) & (v4 & H4) & (v5 & H5) & (v6 & H6)).
  unfold parsedReport. rewrite H1, H2, H3, H4, H5, H6.
  rewrite !RoundTrip.decode_stringify. eexists. reflexivity.
Qed.

Lemma reports_ok_reachable (d : db) : reachable d -> reports_ok d.
Proof.
  induction 1 as [|uuid request d _ IH].
  - repeat constructor.
  - eapply reports_ok_step; [exact IH | apply Pages_effect].
Qed.

Lemma find_by_key {A K : Type} (key : A -> K) (eqb : K -> K -> bool)
      (l : list A) (x : A) :
  (forall a b, eqb a b = true <-> a = b) ->
  NoDup (map key l) -> In x l ->
  find (fun y => eqb (key y) (key x)) l = Some x.
Proof.
  intros Hspec. induction l as [|y l IH]; intros Hnd Hin; [contradiction|].
  inversion Hnd as [|? ? Hnot Hnd']; subst. cbn [find].
  destruct Hin as [-> | Hin].
  - now rewrite (proj2 (Hspec _ _) eq_refl).
  - destruct (eqb (key y) (key x)) eqn:E; [|now apply IH].
    exfalso. apply Hnot. apply Hspec in E. rewrite E. now apply in_map.
Qed.

Lemma reached_store : reachable store.
Proof.
  unfold store, two_users. cbn [run]. repeat apply reachable_step.
  apply reachable_empty.
Qed.

Lemma report_by_id_found (d : db) (r : report_row) :
  NoDup (map r_id (reports d)) -> In r (reports d) ->
  report_by_id (r_id r) (r_user_id r) d = Some r.
Proof.
  intros Hids Hin. unfold report_by_id.
  pose proof (find_by_key r_id String.eqb (reports d) r String.eqb_eq
                          Hids Hin) as Hfind.
  destruct (find (is_report (r_id r) (r_user_id r)) (reports d))
    as [r'|] eqn:E.
  - apply find_some in E as [Hin' Hhit].
    unfold is_report in Hhit. apply andb_prop in Hhit as [Hid _].
    pose proof (find_by_key r_id String.eqb (reports d) r' String.eqb_eq
                            Hids Hin') as Hfind'.
    apply String.eqb_eq in Hid. rewrite Hid in Hfind'.
    congruence.
  - exfalso. pose proof (find_none _ _ E r Hin) as Hmiss.
    unfold is_report, owned_by in Hmiss.
    now rewrite String.eqb_refl, Z.eqb_refl in Hmiss.
Qed.

Lemma report_of_id (rows : list report_row) (a b : report_row) :
  NoDup (map r_id rows) -> In a rows -> In b rows -> r_id a = r_id b -> a = b.
Proof.
  induction rows as [|x rows IH]; intros Hnd Ha Hb Hid; [contradiction|].
  inversion Hnd as [|? ? Hnot Hnd']; subst.
  destruct Ha as [<- | Ha], Hb as [<- | Hb].
  - reflexivity.
  - exfalso. apply Hnot. rewrite Hid. now apply in_map.
  - exfalso. apply Hnot. rewrite <- Hid. now apply in_map.
  - now apply IH.
Qed.

(** X5. In every store functions/api/[[route]].js can reach, a report
    identifier names at most one report, whoever owns it: looking a
    report up by its identifier and owner finds that very row, and every
    stored row decodes. *)
Theorem reachable_reports_found (d : db) (r : report_row) :
  reachable d -> In r (reports d) ->
  NoDup (map r_id (reports d))
  /\ report_by_id (r_id r) (r_user_id r) d = Some r
  /\ exists v, parsedReport r = Done v.
Proof.
  intros Hreach Hin.
  destruct (reports_ok_reachable d Hreach) as [Hids Hcols].
  split; [assumption|]. split.
  - now apply report_by_id_found.
  - rewrite Forall_forall in Hcols. apply parsedReport_encoded, Hcols, Hin.
Qed.

Lemma reachable_reports_found_witness :
  report_by_id "r1" 1%Z store
  = Some (bound_row "r1" 1%Z (report_body (Some "r1") (Some 1%Z))).
Proof.
  destruct (reachable_reports_found
              store (bound_row "r1" 1%Z (report_body (Some "r1") (Some 1%Z)))
              reached_store (or_introl eq_refl)) as (_ & H & _).
  exact H.
Defined.

Lemma emails_step (uuid : string) (request : request) (d : db)
      (outcome : response * db) :
  NoDup (map u_email (users d)) -> effect uuid request d outcome ->
  NoDup (map u_email (users (snd outcome))).
Proof.
  intros Hnd H.
  inversion H as
      [ a
      | b a id d1 Hm Hb Hst He Hins
      | r a d1 Hm Hst Hrow Hupd
      | u b a d1 Hm Hs Hb Hst Hins
      | u id b a n d1 Hm Hs Hb Hst Hupd Hn
      | u id a n d1 Hm Hs Hst Hdel Hn
      | u b a id d1 Hm Hs Hb Hst Hins ]; subst; cbn [snd].
  - assumption.
  - apply insert_user_done in Hins as (_ & -> & _ & _ & _ & Hfresh & _).
    rewrite map_app. cbn [map u_email].
    apply NoDup_app; [assumption | repeat constructor; intros [] |].
    intros e Hin [<- | []]. apply in_map_iff in Hin as (r & Hr & Hin).
    pose proof (proj1 (existsb_false_forall _ _) Hfresh r Hin) as Hne.
    cbn in Hne. rewrite Hr, String.eqb_refl in Hne. discriminate.
  - apply update_user_token_done in Hupd as (-> & _).
    rewrite map_map.
    replace (map (fun x => u_email (set_token_of (u_id r) uuid x)) (users d))
      with (map u_email (users d)); [assumption|].
    apply map_ext. intros x. unfold set_token_of.
    now destruct (Z.eqb (u_id x) (u_id r)).
  - apply insert_report_done in Hins as (-> & _). assumption.
  - apply update_report_done in Hupd as (-> & _). assumption.
  - unfold delete_report in Hdel. injection Hdel as _ <-. assumption.
  - apply insert_list_done in Hins as (_ & _ & -> & _). assumption.
Qed.

Lemma emails_unique_reachable (d : db) :
  reachable d -> NoDup (map u_email (users d)).
Proof.
  induction 1 as [|uuid request d _ IH].
  - constructor.
  - eapply emails_step; [exact IH | apply Pages_effect].
Qed.

(** X6. In every store functions/api/[[route]].js can reach, no two
    accounts have the same email: the lookup by email that
    [registerUser] makes finds, for the email of an account, that
    account. *)
Theorem reachable_email_found (d : db) (row : user_row) :
  reachable d -> In row (users d) ->
  NoDup (map u_email (users d))
  /\ user_by_email (u_email row) d = Some row.
Proof.
  intros Hreach Hin.
  pose proof (emails_unique_reachable d Hreach) as Hnd.
  split; [assumption|].
  exact (find_by_key u_email String.eqb (users d) row String.eqb_eq Hnd Hin).
Qed.

Lemma reachable_email_found_witness :
  user_by_email "b@x.com" store
  = Some {| u_id := 2; u_name := "Bob"; u_email := "b@x.com";
            u_university := "PUC"; u_password := "hunter2";
            u_token := Some "tok-bob" |}.
Proof.
  apply (reachable_email_found
           store {| u_id := 2; u_name := "Bob"; u_email := "b@x.com";
                    u_university := "PUC"; u_password := "hunter2";
                    u_token := Some "tok-bob" |} reached_store).
  right. left. reflexivity.
Defined.

Lemma lists_ok_step (uuid : string) (request : request) (d : db)
      (outcome : response * db) :
  lists_ok d -> effect uuid request d outcome -> lists_ok (snd outcome).
Proof.
  intros [Hids Hseq] H.
  inversion H as
      [ a
      | b a id d1 Hm Hb Hst He Hins
      | r a d1 Hm Hst Hrow Hupd
      | u b a d1 Hm Hs Hb Hst Hins
      | u id b a n d1 Hm Hs Hb Hst Hupd Hn
      | u id a n d1 Hm Hs Hst Hdel Hn
      | u b a id d1 Hm Hs Hb Hst Hins ]; subst; cbn [snd].
  - now constructor.
  - apply insert_user_done in Hins as (_ & _ & Hl & _ & Hq & _).
    constructor; now rewrite Hl, ?Hq.
  - apply update_user_token_done in Hupd as (_ & Hl & _ & _ & Hq).
    constructor; now rewrite Hl, ?Hq.
  - apply insert_report_done in Hins as (-> & _). now constructor.
  - apply update_report_done in Hupd as (-> & _). now constructor.
  - unfold delete_report in Hdel. injection Hdel as _ <-. now constructor.
  - apply insert_list_done in Hins as (Hid & Hl & _ & _ & _ & Hq).
    constructor; rewrite Hl, ?Hq.
    + rewrite map_app. cbn [map l_id].
      apply NoDup_app; [assumption | repeat constructor; intros [] |].
      intros i Hi [<- | []]. apply in_map_iff in Hi as (l & Hl' & Hin).
      rewrite Forall_forall in Hseq. specialize (Hseq l Hin). lia.
    + apply Forall_app. split.
      * eapply Forall_impl; [|exact Hseq]. cbn. intros; lia.
      * constructor; [cbn; lia | constructor].
Qed.

Lemma lists_ok_reachable (d : db) : reachable d -> lists_ok d.
Proof.
  induction 1 as [|uuid request d _ IH].
  - repeat constructor.
  - eapply lists_ok_step; [exact IH | apply Pages_effect].
Qed.

(** X7. In every store functions/api/[[route]].js can reach, list keys
    are unique and none exceeds the AUTOINCREMENT counter: the lookup
    by key finds, for the key of a list, that list, and the key
    [createList] hands out next is new. *)
Theorem reachable_list_found (d : db) (l : list_row) :
  reachable d -> In l (lists d) ->
  list_by_id (l_id l) d = Some l
  /\ (l_id l < lists_seq d + 1)%Z.
Proof.
  intros Hreach Hin.
  destruct (lists_ok_reachable d Hreach) as [Hids Hseq]. split.
  - exact (find_by_key l_id Z.eqb (lists d) l Z.eqb_eq Hids Hin).
  - rewrite Forall_forall in Hseq. specialize (Hseq l Hin). lia.
Qed.

Lemma reachable_list_found_witness :
  list_by_id 1%Z store
  = Some {| l_id := 1; l_name := "Section 1"; l_user_id := 1;
              l_created_at := "2025-03-01 10:00:00" |}.
Proof.
  apply (reachable_list_found
           store {| l_id := 1; l_name := "Section 1"; l_user_id := 1;
              l_created_at := "2025-03-01 10:00:00" |}
           reached_store).
  left. reflexivity.
Defined.

(* ================================================================= *)
(** ** C8: one live token per user *)

(** C8, as stated, fails in two ways.  After Alice has logged in again
    and her first token resolves to nobody, a preflight request that
    bears it is answered 200, and so is a further login that bears it:
    neither looks at the token.  And the token a login writes is fresh
    only if the generator makes it so: when it yields, for Alice's new
    login, the token she already holds, that token is written over
    itself and keeps resolving, her next read being answered 200; and
    when it yields that token later, for a login of Bob, a read that
    bears it is answered 200 again. *)
Lemma old_token_not_always_401 :
  findUserByToken "tok-alice" store = Some alice
  /\ status (fst (Pages.onRequest "tok-alice-2" (login_again None) store)) = 200
  /\ findUserByToken "tok-alice" logged_in_again = None
  /\ status (fst (Pages.onRequest
                    "x" (bodiless "OPTIONS" "/api/reports" as_alice)
                    logged_in_again)) = 200
  /\ status (fst (Pages.onRequest
                    "tok-alice-3" (login_again as_alice) logged_in_again))
     = 200
  /\ status (fst (Pages.onRequest "tok-alice" (login_again None) store)) = 200
  /\ status (fst (Pages.onRequest
                    "x" (bodiless "GET" "/api/reports/r1" as_alice)
                    same_token_again)) = 200
  /\ status (fst (Pages.onRequest
                    "x" (bodiless "GET" "/api/reports" as_alice)
                    token_reissued)) = 200.
Proof.
  repeat (split; [vm_compute; reflexivity|]). vm_compute. reflexivity.
Qed.

(** C8, amended.  In every store the service can be in, two tokens that
    resolve to the same user are the same token.  A successful login
    writes the generated token over the user's stored one: that token
    now resolves to the user and, when it differs from the token the
    user held before, the old token resolves to nobody; from then on, as
    long as the generator does not yield the old value again, every
    request that needs a session (any request but a preflight outside
    /auth/, and GET /auth/me) and bears the old token is answered 401. *)
Theorem login_supersedes_token (d : db) :
  reachable d ->
  (forall t1 t2 u1 u2,
      findUserByToken t1 d = Some u1 -> findUserByToken t2 d = Some u2 ->
      user_id u1 = user_id u2 -> t1 = t2)
  /\ (forall uuid request old u d',
         method request = "POST" -> path_of request = "/auth/login" ->
         Pages.onRequest uuid request d
         = (jsonResponse (JObj [("user", user_json u);
                                ("token", JStr uuid)]) 200, d') ->
         findUserByToken old d = Some u ->
         uuid <> old ->
         users d' = map (set_token_of (user_id u) uuid) (users d)
         /\ findUserByToken uuid d' = Some u
         /\ findUserByToken old d' = None
         /\ forall later uuid' request',
             Forall (fun s => fst s <> old) later ->
             method request' <> "OPTIONS" ->
             (startsWith (path_of request') "/auth/" = false
              \/ (path_of request' = "/auth/me" /\ method request' = "GET")) ->
             authorization request' = Some ("Bearer " ++ old) ->
             status (fst (Pages.onRequest uuid' request' (run later d'))) = 401).
Proof.
  intros Hreach. destruct (reachable_users_ok d Hreach) as [Hids _ Htok].
  split.
  - intros t1 t2 u1 u2 H1 H2 Hsame.
    apply findUserByToken_row in H1 as (r1 & Hin1 & Ht1 & ->).
    apply findUserByToken_row in H2 as (r2 & Hin2 & Ht2 & ->).
    cbn in Hsame.
    rewrite (row_of_id _ _ _ Hids Hin1 Hin2 Hsame) in Ht1.
    exact (has_token_eq _ _ _ Ht1 Ht2).
  - intros uuid request old u d' Hm Hp Hlogin Hold Hfresh.
    rewrite (Pages_login_route _ _ _ Hm Hp) in Hlogin.
    apply loginUser_logged_in in Hlogin as (row & Hin & Hemail & Husers & Huniq).
    apply findUserByToken_row in Hold as (rold & Hinold & Htold & Hu).
    assert (Hsame : rold = row).
    { apply (unique_email _ _ _ (emails_unique_reachable d Hreach) Hinold Hin).
      rewrite <- Hemail, Hu. reflexivity. }
    subst rold.
    assert (Hid : user_id u = u_id row) by (rewrite Hu; reflexivity).
    assert (Hdead : existsb (has_token old) (users d') = false).
    { rewrite Husers. apply existsb_false_forall. intros v Hv.
      apply in_map_iff in Hv as (w & <- & Hw).
      unfold set_token_of. destruct (Z.eqb (u_id w) (u_id row)) eqn:E.
      - unfold has_token. cbn. now apply String.eqb_neq.
      - destruct (has_token old w) eqn:Ew; [|reflexivity].
        apply Z.eqb_neq in E. exfalso. apply E.
        exact (token_owner_unique old _ Htok w row Hw Hin Ew Htold). }
    rewrite Hid. split; [exact Husers|]. split; [|split].
    + unfold findUserByToken, user_by_token. rewrite Husers.
      assert (Hex : existsb (has_token uuid)
                            (map (set_token_of (u_id row) uuid) (users d)) = true).
      { apply existsb_exists. exists (set_token_of (u_id row) uuid row).
        split; [now apply in_map|].
        unfold set_token_of. rewrite Z.eqb_refl.
        unfold has_token. cbn. apply String.eqb_refl. }
      destruct (find_some_existsb _ _ Hex) as [found Hfound].
      rewrite Hfound. apply find_some in Hfound as [Hfin Hft].
      apply in_map_iff in Hfin as (w & <- & Hw).
      unfold set_token_of in *.
      destruct (Z.eqb (u_id w) (u_id row)) eqn:E.
      * apply Z.eqb_eq in E.
        rewrite (row_of_id _ _ _ Hids Hw Hin E). cbn. now rewrite Hu.
      * pose proof (proj1 (existsb_false_forall _ _) Huniq w Hw) as Hw'.
        cbn in Hw'. now rewrite Hft, E in Hw'.
    + now apply findUserByToken_none.
    + intros later uuid' request' Hlater Hm' Hp' Hauth.
      apply (dead_token_is_401 uuid' request' (run later d') old);
        try assumption.
      now apply token_absent_run.
Qed.

Lemma login_supersedes_token_witness :
  findUserByToken "tok-alice"
    (snd (Pages.onRequest
            "tok-alice-2"
            (post "/api/auth/login" None
                  (Done (credentials None (Some "a@x.com") None (Some "secret"))))
            store)) = None
  /\ status (fst (Pages.onRequest
                    "x" (bodiless "GET" "/api/reports/r1" as_alice)
                    (snd (Pages.onRequest
                            "tok-alice-2"
                            (post "/api/auth/login" None
                                  (Done (credentials None (Some "a@x.com") None
                                                     (Some "secret"))))
                            store)))) = 401.
Proof.
  assert (Hstore : reachable store).
  { unfold store, two_users. cbn [run]. repeat apply reachable_step.
    apply reachable_empty. }
  destruct (login_supersedes_token store Hstore) as [_ H].
  destruct (H "tok-alice-2"
              (post "/api/auth/login" None
                    (Done (credentials None (Some "a@x.com") None (Some "secret"))))
              "tok-alice" alice
              (snd (Pages.onRequest
                      "tok-alice-2"
                      (post "/api/auth/login" None
                            (Done (credentials None (Some "a@x.com") None
                                               (Some "secret"))))
                      store))
              eq_refl eq_refl eq_refl eq_refl ltac:(discriminate))
    as (_ & _ & Hnone & Hlater).
  split; [exact Hnone|].
  apply (Hlater [] "x" (bodiless "GET" "/api/reports/r1" as_alice));
    [constructor | discriminate | left; reflexivity | reflexivity].
Defined.

(* ================================================================= *)
(** ** Reading reports from a store the service can be in *)

Lemma parsedReports_encoded (rows : list report_row) :
  Forall (fun r => encoded (r_info_general r) /\ encoded (r_configuracion r)
                   /\ encoded (r_niveles_desempeno r) /\ encoded (r_criterios r)
                   /\ encoded (r_feedback r) /\ encoded (r_resultados r)) rows ->
  exists items, parsedReports rows = Done items
                /\ Forall2 (fun r v => parsedReport r = Done v) rows items.
Proof.
  induction 1 as [|r rows Hr _ (items & IH & Hall)].
  - exists []. split; [reflexivity | constructor].
  - destruct (parsedReport_encoded r Hr) as [v Hv].
    exists (v :: items). cbn [parsedReports]. rewrite Hv, IH.
    split; [reflexivity | now constructor].
Qed.

Lemma Forall_filter {A : Type} (P : A -> Prop) (f : A -> bool) (l : list A) :
  Forall P l -> Forall P (filter f l).
Proof.
  rewrite !Forall_forall. intros H x Hx.
  apply filter_In in Hx as [Hx _]. now apply H.
Qed.

Lemma Pages_reports_route
      (uuid : string) (request : request) (d : db) (u : user) :
  session request d = Some u ->
  method request = "GET" -> path_of request = "/reports" ->
  Pages.onRequest uuid request d = getReports request d (user_id u).
Proof.
  intros Hs Hm Hp.
  destruct (session_token _ _ _ Hs) as (token & Ht & Htr & Hu).
  unfold Pages.onRequest. rewrite Hm, Ht, Htr, Hu, Hp. reflexivity.
Qed.

(** X8. On a store functions/api/[[route]].js can reach, an
    authenticated GET /reports is answered 200, never 500, with one
    decoded object for each report of the caller, in order, and none
    for anybody else's. *)
Theorem reachable_reports_listed
        (uuid : string) (request : request) (d : db) (u : user) :
  reachable d ->
  session request d = Some u ->
  method request = "GET" -> path_of request = "/reports" ->
  exists items,
    Pages.onRequest uuid request d = (jsonResponse (JArr items) 200, d)
    /\ Forall2 (fun r v => parsedReport r = Done v)
               (filter (owned_by (user_id u)) (reports d)) items.
Proof.
  intros Hreach Hs Hm Hp.
  rewrite (Pages_reports_route uuid _ _ _ Hs Hm Hp).
  destruct (reports_ok_reachable d Hreach) as [_ Hcols].
  destruct (parsedReports_encoded
              (filter (owned_by (user_id u)) (reports d))
              (Forall_filter _ _ _ Hcols)) as (items & Hitems & Hall).
  exists items. unfold getReports, reports_of. rewrite Hitems.
  split; [reflexivity | exact Hall].
Qed.

Lemma reachable_reports_listed_witness :
  exists items,
    Pages.onRequest "x" (bodiless "GET" "/api/reports" as_alice) store
    = (jsonResponse (JArr items) 200, store)
    /\ Forall2 (fun r v => parsedReport r = Done v)
               (filter (owned_by 1%Z) (reports store)) items.
Proof.
  exact (reachable_reports_listed
           "x" (bodiless "GET" "/api/reports" as_alice) store alice
           reached_store eq_refl eq_refl eq_refl).
Defined.

(** X9. On a store functions/api/[[route]].js can reach, where the
    report [id] is one row, an authenticated GET /reports/{id} answers
    by that row's owner: 200 with the decoded row when the caller owns
    it, 404 when anybody else does. *)
Theorem reachable_report_read
        (uuid : string) (request : request) (d : db) (u : user)
        (first : string) (row : report_row) :
  reachable d ->
  session request d = Some u ->
  method request = "GET" ->
  startsWith (path_of request) "/reports/" = true ->
  segments (path_of request) = [first; r_id row] ->
  In row (reports d) ->
  (r_user_id row = user_id u ->
   exists v, Pages.onRequest uuid request d = (jsonResponse v 200, d)
             /\ parsedReport row = Done v)
  /\ (r_user_id row <> user_id u ->
      Pages.onRequest uuid request d
      = (errorResponse "Report not found" 404, d)).
Proof.
  intros Hreach Hs Hm Hp Hseg Hin.
  assert (Ho : method request <> "OPTIONS") by (rewrite Hm; discriminate).
  rewrite (Pages_report_id_route uuid _ _ _ _ _ Hs Ho Hp Hseg), Hm.
  cbn [String.eqb Ascii.eqb Bool.eqb].
  destruct (reports_ok_reachable d Hreach) as [Hids Hcols].
  split.
  - intros Hown. unfold getReport. rewrite <- Hown.
    rewrite (report_by_id_found d row Hids Hin).
    rewrite Forall_forall in Hcols.
    destruct (parsedReport_encoded row (Hcols row Hin)) as [v Hv].
    exists v. now rewrite Hv.
  - intros Hother. apply getReport_foreign.
    intros r Hr Hid. now rewrite (report_of_id _ r row Hids Hr Hin Hid).
Qed.

Lemma reachable_report_read_witness :
  Pages.onRequest "x" (bodiless "GET" "/api/reports/r1" as_bob) store
  = (errorResponse "Report not found" 404, store).
Proof.
  destruct (reachable_report_read
              "x" (bodiless "GET" "/api/reports/r1" as_bob) store bob
              "reports" (bound_row "r1" 1%Z (report_body (Some "r1") (Some 1%Z)))
              reached_store eq_refl eq_refl eq_refl eq_refl
              (or_introl eq_refl)) as [_ H].
  apply H. discriminate.
Defined.

(* ================================================================= *)
(** ** Writing reports *)

(** X10. A report identifier is never reused: an authenticated
    POST /reports whose body carries the identifier of a stored report,
    the caller's or anybody else's, is answered 500 and the store,
    that report included, is left as it was. *)
Theorem duplicate_report_refused
        (uuid : string) (request : request) (d : db) (u : user) (b : body)
        (row : report_row) :
  session request d = Some u ->
  method request = "POST" -> path_of request = "/reports" ->
  req_json request = Done b ->
  missing (b_id b) = false ->
  In row (reports d) -> r_id row = text_of (b_id b) ->
  status (fst (Pages.onRequest uuid request d)) = 500
  /\ snd (Pages.onRequest uuid request d) = d.
Proof.
  intros Hs Hm Hp Hb Hid Hin Hrow.
  rewrite (Pages_create_route uuid _ _ _ Hs Hm Hp).
  unfold createReport. rewrite Hb, Hid. cbv zeta. unfold insert_report.
  cbn [r_id bound_row].
  assert (Hex : existsb (fun r => String.eqb (r_id r) (text_of (b_id b)))
                        (reports d) = true).
  { apply existsb_exists. exists row. split; [assumption|].
    now apply String.eqb_eq. }
  rewrite Hex. split; reflexivity.
Qed.

Lemma duplicate_report_refused_witness :
  status (fst (Pages.onRequest
                 "x" (post "/api/reports" as_bob
                           (Done (report_body (Some "r1") None))) store)) = 500
  /\ snd (Pages.onRequest
            "x" (post "/api/reports" as_bob
                      (Done (report_body (Some "r1") None))) store) = store.
Proof.
  apply (duplicate_report_refused
           "x" (post "/api/reports" as_bob (Done (report_body (Some "r1") None)))
           store bob (report_body (Some "r1") None)
           (bound_row "r1" 1%Z (report_body (Some "r1") (Some 1%Z))));
    try reflexivity.
  left. reflexivity.
Defined.

Lemma parsedReport_bound_row (id : string) (userId : Z) (b : body) :
  exists props,
    parsedReport (bound_row id userId b) = Done (JObj props)
    /\ get_prop "id" props = Some (JStr id)
    /\ get_prop "user_id" props = Some (JNum userId)
    /\ get_prop "list_id" props = Some (json_of_int (list_or_null (b_listaId b)))
    /\ read_back (b_infoGeneral b) (JObj []) (get_prop "infoGeneral" props)
    /\ read_back (b_configuracion b) (JObj [])
                 (get_prop "configuracion" props)
    /\ read_back (b_nivelesDesempeno b) (JArr [])
                 (get_prop "nivelesDesempeno" props)
    /\ read_back (b_criterios b) (JArr []) (get_prop "criterios" props)
    /\ read_back (b_feedback b) (JObj []) (get_prop "feedback" props)
    /\ read_back (b_resultados b) (JObj []) (get_prop "resultados" props).
Proof.
  unfold parsedReport. cbn [bound_row r_info_general r_configuracion
    r_niveles_desempeno r_criterios r_feedback r_resultados].
  rewrite !RoundTrip.decode_stringify.
  eexists. split; [reflexivity|].
  repeat split; now apply RoundTrip.read_back_or_else.
Qed.

Lemma find_replaced {A : Type} (f : A -> bool) (new : A) (l : list A) :
  List.length (filter f l) <> 0 -> f new = true ->
  find f (map (fun x => if f x then new else x) l) = Some new.
Proof.
  intros Hhit Hnew. induction l as [|x l IH]; [now contradiction Hhit|].
  cbn [map find]. destruct (f x) eqn:E.
  - now rewrite Hnew.
  - rewrite E. apply IH. cbn [filter] in Hhit. now rewrite E in Hhit.
Qed.

Lemma Pages_put_route
      (uuid : string) (request : request) (d : db) (u : user)
      (first id : string) :
  session request d = Some u -> method request = "PUT" ->
  startsWith (path_of request) "/reports/" = true ->
  segments (path_of request) = [first; id] ->
  Pages.onRequest uuid request d = updateReport request d (user_id u) id.
Proof.
  intros Hs Hm Hp Hseg.
  assert (Ho : method request <> "OPTIONS") by (rewrite Hm; discriminate).
  now rewrite (Pages_report_id_route uuid _ _ _ _ _ Hs Ho Hp Hseg), Hm.
Qed.

Lemma Pages_get_route
      (uuid : string) (request : request) (d : db) (u : user)
      (first id : string) :
  session request d = Some u -> method request = "GET" ->
  startsWith (path_of request) "/reports/" = true ->
  segments (path_of request) = [first; id] ->
  Pages.onRequest uuid request d = getReport request d (user_id u) id.
Proof.
  intros Hs Hm Hp Hseg.
  assert (Ho : method request <> "OPTIONS") by (rewrite Hm; discriminate).
  now rewrite (Pages_report_id_route uuid _ _ _ _ _ Hs Ho Hp Hseg), Hm.
Qed.

Lemma Pages_delete_route
      (uuid : string) (request : request) (d : db) (u : user)
      (first id : string) :
  session request d = Some u -> method request = "DELETE" ->
  startsWith (path_of request) "/reports/" = true ->
  segments (path_of request) = [first; id] ->
  Pages.onRequest uuid request d = deleteReport request d (user_id u) id.
Proof.
  intros Hs Hm Hp Hseg.
  assert (Ho : method request <> "OPTIONS") by (rewrite Hm; discriminate).
  now rewrite (Pages_report_id_route uuid _ _ _ _ _ Hs Ho Hp Hseg), Hm.
Qed.

(** X11. When an authenticated PUT /reports/{id} on a report the
    caller owns is answered 200, a GET of the same report by the same
    user answers 200 with the report as the PUT's body described it:
    the list it named, and each of the six sub-documents as supplied,
    or empty when omitted.  The update replaces the whole report;
    nothing of the former sub-documents remains. *)
Theorem update_read_back
        (uuid uuid' : string) (put fetch : request) (d d' : db) (u : user)
        (b : body) (answer : response) (first first' id : string)
        (row : report_row) :
  session put d = Some u -> method put = "PUT" ->
  startsWith (path_of put) "/reports/" = true ->
  segments (path_of put) = [first; id] ->
  req_json put = Done b ->
  In row (reports d) -> r_id row = id -> r_user_id row = user_id u ->
  Pages.onRequest uuid put d = (answer, d') ->
  status answer = 200 ->
  session fetch d' = Some u -> method fetch = "GET" ->
  startsWith (path_of fetch) "/reports/" = true ->
  segments (path_of fetch) = [first'; id] ->
  exists props,
    Pages.onRequest uuid' fetch d' = (jsonResponse (JObj props) 200, d')
    /\ get_prop "list_id" props = Some (json_of_int (list_or_null (b_listaId b)))
    /\ read_back (b_infoGeneral b) (JObj []) (get_prop "infoGeneral" props)
    /\ read_back (b_configuracion b) (JObj [])
                 (get_prop "configuracion" props)
    /\ read_back (b_nivelesDesempeno b) (JArr [])
                 (get_prop "nivelesDesempeno" props)
    /\ read_back (b_criterios b) (JArr []) (get_prop "criterios" props)
    /\ read_back (b_feedback b) (JObj []) (get_prop "feedback" props)
    /\ read_back (b_resultados b) (JObj []) (get_prop "resultados" props).
Proof.
  intros Hs Hm Hp Hseg Hb Hin Hid Hown Hput Hst Hs' Hm' Hp' Hseg'.
  rewrite (Pages_put_route uuid _ _ _ _ _ Hs Hm Hp Hseg) in Hput.
  rewrite (Pages_get_route uuid' _ _ _ _ _ Hs' Hm' Hp' Hseg').
  unfold updateReport in Hput. rewrite Hb in Hput.
  destruct (update_report (bound_row id (user_id u) b) d) as [[n d1]|m] eqn:E;
    [|injection Hput as <- <-; discriminate Hst].
  cbn [rows_affected is_zero] in Hput. injection Hput as <- <-.
  apply update_report_done in E as (-> & Hn).
  cbn [r_id r_user_id bound_row] in *.
  unfold getReport, report_by_id. cbn [set_reports reports].
  rewrite find_replaced;
    [ | apply (filter_hit_length _ _ row Hin);
        unfold is_report, owned_by;
        now rewrite Hid, Hown, String.eqb_refl, Z.eqb_refl
      | unfold is_report, owned_by; cbn [r_id r_user_id bound_row];
        now rewrite String.eqb_refl, Z.eqb_refl ].
  destruct (parsedReport_bound_row id (user_id u) b)
    as (props & Hparsed & _ & _ & Hlist & Hrest).
  exists props. rewrite Hparsed. split; [reflexivity|]. split; assumption.
Qed.

Lemma update_read_back_witness :
  exists props,
    Pages.onRequest
      "x" (bodiless "GET" "/api/reports/r1" as_alice)
      (snd (Pages.onRequest
              "x" (put "/api/reports/r1" as_alice (report_body None None))
              store))
    = (jsonResponse (JObj props) 200,
       snd (Pages.onRequest
              "x" (put "/api/reports/r1" as_alice (report_body None None))
              store))
    /\ get_prop "list_id" props = Some JNull
    /\ get_prop "configuracion" props = Some (JObj [("scale", JNum 7)]).
Proof.
  destruct (update_read_back
              "x" "x"
              (put "/api/reports/r1" as_alice (report_body None None))
              (bodiless "GET" "/api/reports/r1" as_alice)
              store
              (snd (Pages.onRequest
                      "x" (put "/api/reports/r1" as_alice
                               (report_body None None))
                      store))
              alice (report_body None None)
              (fst (Pages.onRequest
                      "x" (put "/api/reports/r1" as_alice
                               (report_body None None))
                      store))
              "reports" "reports" "r1"
              (bound_row "r1" 1%Z (report_body (Some "r1") (Some 1%Z)))
              eq_refl eq_refl eq_refl eq_refl eq_refl
              (or_introl eq_refl) eq_refl eq_refl eq_refl eq_refl
              eq_refl eq_refl eq_refl eq_refl)
    as (props & Hget & Hlist & _ & Hconf & _).
  exists props.
  split; [exact Hget|]. split; [exact Hlist|].
  apply (proj2 Hconf). vm_compute. reflexivity.
Defined.

(** X12. Once a user has sent DELETE /reports/{id}, whatever the answer
    was, a GET of that report by the same user answers 404. *)
Theorem deleted_report_is_gone
        (uuid uuid' : string) (delete fetch : request) (d : db) (u : user)
        (first first' id : string) :
  session delete d = Some u -> method delete = "DELETE" ->
  startsWith (path_of delete) "/reports/" = true ->
  segments (path_of delete) = [first; id] ->
  let d' := snd (Pages.onRequest uuid delete d) in
  session fetch d' = Some u -> method fetch = "GET" ->
  startsWith (path_of fetch) "/reports/" = true ->
  segments (path_of fetch) = [first'; id] ->
  Pages.onRequest uuid' fetch d' = (errorResponse "Report not found" 404, d').
Proof.
  intros Hs Hm Hp Hseg d' Hs' Hm' Hp' Hseg'.
  rewrite (Pages_get_route uuid' _ _ _ _ _ Hs' Hm' Hp' Hseg').
  assert (Hrows : reports d'
                  = filter (fun r => negb (is_report id (user_id u) r))
                           (reports d)).
  { subst d'. rewrite (Pages_delete_route uuid _ _ _ _ _ Hs Hm Hp Hseg).
    unfold deleteReport, delete_report. reflexivity. }
  unfold getReport, report_by_id. rewrite Hrows.
  now rewrite find_filter_out.
Qed.

Lemma deleted_report_is_gone_witness :
  Pages.onRequest
    "x" (bodiless "GET" "/api/reports/r1" as_alice)
    (snd (Pages.onRequest "x" (bodiless "DELETE" "/api/reports/r1" as_alice)
                          store))
  = (errorResponse "Report not found" 404,
     snd (Pages.onRequest "x" (bodiless "DELETE" "/api/reports/r1" as_alice)
                          store)).
Proof.
  exact (deleted_report_is_gone
           "x" "x" (bodiless "DELETE" "/api/reports/r1" as_alice)
           (bodiless "GET" "/api/reports/r1" as_alice) store alice
           "reports" "reports" "r1"
           eq_refl eq_refl eq_refl eq_refl eq_refl eq_refl eq_refl eq_refl).
Defined.

(* ================================================================= *)
(** ** Accounts and sessions *)

(** X13. [extractToken] yields a token exactly for a header that reads
    "Bearer " followed by the token, and yields the text after that
    prefix, as it is. *)
Theorem extractToken_exact (request : request) (token : string) :
  extractToken request = Some token
  <-> authorization request = Some ("Bearer " ++ token).
Proof.
  split; [|apply extractToken_bearer].
  unfold extractToken.
  destruct (authorization request) as [h|]; [|discriminate].
  destruct (truthy h); cbn [negb orb]; [|discriminate].
  destruct (startsWith h "Bearer ") eqn:E; cbn [negb]; [|discriminate].
  destruct (prefix_split _ _ E) as [r ->].
  now intros [= <-].
Qed.

Lemma run_reachable (h : history) (d : db) :
  reachable d -> reachable (run h d).
Proof.
  revert d. induction h as [|[uuid request] h IH]; intros d H; [assumption|].
  cbn [run]. apply IH. now apply reachable_step.
Qed.

Lemma account_kept_run (h : history) (d : db) (row : user_row) :
  In row (users d) ->
  exists row', In row' (users (run h d)) /\ same_account row row'.
Proof.
  revert d row. induction h as [|[uuid request] h IH]; intros d row Hin.
  - exists row. split; [assumption | apply same_account_refl].
  - cbn [run].
    destruct (effect_keeps_account uuid request d row _ Hin
                                   (Pages_effect uuid request d))
      as (row1 & Hin1 & Hsame1).
    destruct (IH _ row1 Hin1) as (row2 & Hin2 & Hsame2).
    exists row2. split; [assumption|].
    exact (same_account_trans _ _ _ Hsame1 Hsame2).
Qed.

Lemma session_bearer (request : request) (d : db) (token : string) :
  authorization request = Some ("Bearer " ++ token) -> token <> EmptyString ->
  session request d = findUserByToken token d.
Proof.
  intros Hauth Hne. unfold session.
  rewrite (extractToken_bearer _ _ Hauth).
  now rewrite (truthy_nonempty _ Hne).
Qed.

Lemma registerUser_done
      (uuid : string) (request : request) (d d' : db) (b : body)
      (answer : response) :
  req_json request = Done b ->
  registerUser uuid request d = (answer, d') ->
  status answer = 201 ->
  missing (b_name b) = false /\ missing (b_email b) = false
  /\ missing (b_university b) = false /\ missing (b_password b) = false
  /\ answer = jsonResponse
                (JObj [("user",
                        user_json {| user_id := users_seq d + 1;
                                     user_name := text_of (b_name b);
                                     user_email := text_of (b_email b);
                                     user_university :=
                                       text_of (b_university b) |});
                       ("token", JStr uuid)]) 201
  /\ insert_user (text_of (b_name b)) (text_of (b_email b))
                 (text_of (b_university b)) (text_of (b_password b)) uuid d
     = Done ((users_seq d + 1)%Z, d').
Proof.
  intros Hb. unfold registerUser. rewrite Hb.
  destruct (missing (b_name b)); [intros [= <- <-]; discriminate|].
  destruct (missing (b_email b)); [intros [= <- <-]; discriminate|].
  destruct (missing (b_university b)); [intros [= <- <-]; discriminate|].
  destruct (missing (b_password b)); [intros [= <- <-]; discriminate|].
  cbn [orb].
  destruct (user_by_email _ d); [intros [= <- <-]; discriminate|].
  destruct (insert_user _ _ _ _ uuid d) as [[id d1]|m] eqn:E;
    [|intros [= <- <-]; discriminate].
  intros [= <- <-] _.
  pose proof (insert_user_done _ _ _ _ _ _ _ _ E) as (-> & _).
  repeat split.
Qed.

(** X14. A successful registration answers 201 with the new account,
    whose key is the next AUTOINCREMENT value, and with a token that
    from then on resolves to that account: a request that bears it runs
    in the account's session, and GET /auth/me answers 200 with the
    account's public fields. *)
Theorem registered_token_authenticates
        (uuid : string) (request : request) (d d' : db) (b : body)
        (answer : response) :
  method request = "POST" -> path_of request = "/auth/register" ->
  req_json request = Done b ->
  Pages.onRequest uuid request d = (answer, d') ->
  status answer = 201 ->
  uuid <> EmptyString ->
  let u := {| user_id := users_seq d + 1; user_name := text_of (b_name b);
              user_email := text_of (b_email b);
              user_university := text_of (b_university b) |} in
  answer = jsonResponse (JObj [("user", user_json u); ("token", JStr uuid)]) 201
  /\ (forall request',
         authorization request' = Some ("Bearer " ++ uuid) ->
         session request' d' = Some u)
  /\ (forall uuid' me,
         method me = "GET" -> path_of me = "/auth/me" ->
         authorization me = Some ("Bearer " ++ uuid) ->
         Pages.onRequest uuid' me d' = (jsonResponse (user_json u) 200, d')).
Proof.
  intros Hm Hp Hb Hreg Hst Hne u.
  rewrite (Pages_register_route _ _ _ Hm Hp) in Hreg.
  destruct (registerUser_done _ _ _ _ _ _ Hb Hreg Hst)
    as (_ & _ & _ & _ & Hanswer & Hins).
  apply insert_user_done in Hins as (_ & Husers & _ & _ & _ & _ & Hfresh).
  assert (Hfind : findUserByToken uuid d' = Some u).
  { unfold findUserByToken, user_by_token. rewrite Husers.
    rewrite RoundTrip.find_last;
      [reflexivity | exact Hfresh
       | unfold has_token; cbn; apply String.eqb_refl]. }
  split; [exact Hanswer|]. split.
  - intros request' Hauth. now rewrite (session_bearer _ _ _ Hauth Hne).
  - intros uuid' me Hme Hpath Hauth.
    unfold Pages.onRequest. rewrite Hme, Hpath.
    cbn [String.eqb Ascii.eqb Bool.eqb startsWith has_prefix andb].
    unfold handleAuth. rewrite Hme, (extractToken_bearer _ _ Hauth).
    cbn [String.eqb Ascii.eqb Bool.eqb negb].
    now rewrite (truthy_nonempty _ Hne), Hfind.
Qed.

Lemma registered_token_authenticates_witness :
  Pages.onRequest "x" (bodiless "GET" "/api/auth/me" as_alice) only_alice
  = (jsonResponse (user_json alice) 200, only_alice).
Proof.
  destruct (registered_token_authenticates
              "tok-alice" register_alice D1.empty only_alice
              (credentials (Some "Alice") (Some "a@x.com") (Some "UCh")
                           (Some "secret"))
              (fst (Pages.onRequest "tok-alice" register_alice D1.empty))
              eq_refl eq_refl eq_refl eq_refl eq_refl ltac:(discriminate))
    as (_ & _ & H).
  exact (H "x" (bodiless "GET" "/api/auth/me" as_alice)
           eq_refl eq_refl eq_refl).
Defined.

(** X15. An account that was registered can log in ever after: whatever
    was served in between, a login with the email and the password of
    the registration is answered 200 with the account the registration
    answered with and with the token generated for the login, provided
    no account holds that token already. *)
Theorem registered_account_logs_in
        (d0 : db) (uuid1 uuid2 : string) (register login : request)
        (b1 b2 : body) (between : history) :
  reachable d0 ->
  method register = "POST" -> path_of register = "/auth/register" ->
  req_json register = Done b1 ->
  status (fst (Pages.onRequest uuid1 register d0)) = 201 ->
  method login = "POST" -> path_of login = "/auth/login" ->
  req_json login = Done b2 ->
  b_email b2 = b_email b1 -> b_password b2 = b_password b1 ->
  let d := run between (snd (Pages.onRequest uuid1 register d0)) in
  existsb (has_token uuid2) (users d) = false ->
  exists d',
    Pages.onRequest uuid2 login d
    = (jsonResponse
         (JObj [("user",
                 user_json {| user_id := users_seq d0 + 1;
                              user_name := text_of (b_name b1);
                              user_email := text_of (b_email b1);
                              user_university := text_of (b_university b1) |});
                ("token", JStr uuid2)]) 200, d')
    /\ findUserByToken uuid2 d'
       = Some {| user_id := users_seq d0 + 1;
                 user_name := text_of (b_name b1);
                 user_email := text_of (b_email b1);
                 user_university := text_of (b_university b1) |}.
Proof.
  intros Hreach Hm1 Hp1 Hb1 Hst Hm2 Hp2 Hb2 He Hpw d Hfresh.
  assert (Hd1 : reachable (snd (Pages.onRequest uuid1 register d0)))
    by now apply reachable_step.
  pose proof (run_reachable between _ Hd1) as Hd. fold d in Hd.
  pose proof (emails_unique_reachable d Hd) as Hemails.
  destruct (reachable_users_ok d Hd) as [Hids _ _].
  destruct (Pages.onRequest uuid1 register d0) as [answer d1] eqn:Hreg.
  cbn [fst snd] in *.
  rewrite (Pages_register_route _ _ _ Hm1 Hp1) in Hreg.
  destruct (registerUser_done _ _ _ _ _ _ Hb1 Hreg Hst)
    as (_ & Hemail & _ & Hpass & _ & Hins).
  apply insert_user_done in Hins as (_ & Husers & _).
  set (row0 := {| u_id := users_seq d0 + 1; u_name := text_of (b_name b1);
                  u_email := text_of (b_email b1);
                  u_university := text_of (b_university b1);
                  u_password := text_of (b_password b1);
                  u_token := Some uuid1 |}) in Husers.
  assert (Hin0 : In row0 (users d1))
    by (rewrite Husers; apply in_or_app; right; now left).
  destruct (account_kept_run between d1 row0 Hin0)
    as (row & Hin & Hid & Hname & Hmail & Huniv & Hpwd).
  fold d in Hin. clearbody d.
  cbn [row0 u_id u_name u_email u_university u_password] in *.
  assert (Hpub : {| user_id := u_id row; user_name := u_name row;
                    user_email := u_email row;
                    user_university := u_university row |}
                 = {| user_id := users_seq d0 + 1;
                      user_name := text_of (b_name b1);
                      user_email := text_of (b_email b1);
                      user_university := text_of (b_university b1) |})
    by (rewrite <- Hid, <- Hname, <- Hmail, <- Huniv; reflexivity).
  rewrite (Pages_login_route _ _ _ Hm2 Hp2).
  unfold loginUser. rewrite Hb2, He, Hpw, Hemail, Hpass. cbn [orb].
  assert (Hex : existsb (fun v => String.eqb (u_email v) (text_of (b_email b1))
                                  && String.eqb (u_password v)
                                                (text_of (b_password b1)))
                        (users d) = true).
  { apply existsb_exists. exists row. split; [assumption|].
    now rewrite <- Hmail, <- Hpwd, !String.eqb_refl. }
  unfold user_by_credentials.
  destruct (find_some_existsb _ _ Hex) as [found Hfound]. rewrite Hfound.
  apply find_some in Hfound as [Hfin Hmatch].
  apply andb_prop in Hmatch as [Hfe _]. apply String.eqb_eq in Hfe.
  assert (found = row)
    by (apply (unique_email _ _ _ Hemails Hfin Hin); congruence).
  subst found.
  assert (Hothers : existsb (fun v => has_token uuid2 v
                                      && negb (Z.eqb (u_id v) (u_id row)))
                            (users d) = false).
  { apply (RoundTrip.existsb_weaken
             _ _ _ (fun v H => proj1 (andb_prop _ _ H))).
    exact Hfresh. }
  unfold update_user_token. rewrite Hothers, andb_false_r.
  eexists. split.
  - rewrite Hpub. reflexivity.
  - unfold findUserByToken, user_by_token. cbn [users].
    assert (Hnow : existsb (has_token uuid2)
                     (map (set_token_of (u_id row) uuid2) (users d)) = true).
    { apply existsb_exists. exists (set_token_of (u_id row) uuid2 row).
      split; [now apply in_map|].
      unfold set_token_of. rewrite Z.eqb_refl.
      unfold has_token. cbn. apply String.eqb_refl. }
    destruct (find_some_existsb _ _ Hnow) as [holder Hholder].
    rewrite Hholder. apply find_some in Hholder as [Hhin Hht].
    apply in_map_iff in Hhin as (w & <- & Hw).
    unfold set_token_of in *.
    destruct (Z.eqb (u_id w) (u_id row)) eqn:E.
    + apply Z.eqb_eq in E. rewrite (row_of_id _ _ _ Hids Hw Hin E). cbn.
      now rewrite Hpub.
    + now rewrite (proj1 (existsb_false_forall _ _) Hfresh w Hw) in Hht.
Qed.

Lemma registered_account_logs_in_witness :
  exists d',
    Pages.onRequest
      "tok-bob-2"
      (post "/api/auth/login" None
            (Done (credentials None (Some "b@x.com") None (Some "hunter2"))))
      store
    = (jsonResponse (JObj [("user", user_json bob);
                           ("token", JStr "tok-bob-2")]) 200, d')
    /\ findUserByToken "tok-bob-2" d' = Some bob.
Proof.
  assert (Hreach : reachable only_alice).
  { unfold only_alice. cbn [run]. apply reachable_step, reachable_empty. }
  exact (registered_account_logs_in
           only_alice "tok-bob" "tok-bob-2" register_bob
           (post "/api/auth/login" None
                 (Done (credentials None (Some "b@x.com") None (Some "hunter2"))))
           (credentials (Some "Bob") (Some "b@x.com") (Some "PUC")
                        (Some "hunter2"))
           (credentials None (Some "b@x.com") None (Some "hunter2"))
           (tl (tl two_users))
           Hreach eq_refl eq_refl eq_refl eq_refl eq_refl eq_refl eq_refl
           eq_refl eq_refl eq_refl).
Defined.

(* ================================================================= *)
(** ** The envelope of every answer *)

Ltac json_shape :=
  repeat innermost_case; cbn [fst]; unfold json_response;
  do 2 eexists; reflexivity.

Section Envelope.

Variable uuid : string.
Variable request : request.
Variable d : db.
Variable userId : Z.

Lemma registerUser_json : json_response (fst (registerUser uuid request d)).
Proof. unfold registerUser. json_shape. Qed.

Lemma loginUser_json : json_response (fst (loginUser uuid request d)).
Proof. unfold loginUser. json_shape. Qed.

Lemma handleAuth_json (path : string) :
  json_response (fst (handleAuth uuid request path d)).
Proof.
  unfold handleAuth.
  repeat innermost_case;
    first [ apply registerUser_json | apply loginUser_json
          | cbn [fst]; unfold json_response; do 2 eexists; reflexivity ].
Qed.

Lemma getReports_json : json_response (fst (getReports request d userId)).
Proof. unfold getReports. json_shape. Qed.

Lemma getReport_json (id : string) :
  json_response (fst (getReport request d userId id)).
Proof. unfold getReport. json_shape. Qed.

Lemma createReport_json :
  json_response (fst (createReport uuid request d userId)).
Proof. unfold createReport. json_shape. Qed.

Lemma updateReport_json (id : string) :
  json_response (fst (updateReport request d userId id)).
Proof. unfold updateReport. json_shape. Qed.

Lemma deleteReport_json (id : string) :
  json_response (fst (deleteReport request d userId id)).
Proof. unfold deleteReport, delete_report. json_shape. Qed.

Lemma searchReports_json :
  json_response (fst (searchReports request d userId)).
Proof. unfold searchReports. json_shape. Qed.

Lemma getLists_json : json_response (fst (getLists request d userId)).
Proof. unfold getLists. json_shape. Qed.

Lemma createList_json : json_response (fst (createList request d userId)).
Proof. unfold createList. json_shape. Qed.

Lemma deleteList_json (id : string) :
  json_response (fst (Fixed.deleteList request d userId id)).
Proof. unfold Fixed.deleteList, delete_list. json_shape. Qed.

Lemma getList_json (id : string) :
  json_response (fst (Fixed.getList request d userId id)).
Proof. unfold Fixed.getList. json_shape. Qed.

Lemma updateList_json (id : string) :
  json_response (fst (Fixed.updateList request d userId id)).
Proof. unfold Fixed.updateList, update_list_name. json_shape. Qed.

End Envelope.

Ltac envelope :=
  first [ apply handleAuth_json | apply getReports_json | apply getReport_json
        | apply createReport_json | apply updateReport_json
        | apply deleteReport_json | apply searchReports_json
        | apply getLists_json | apply createList_json
        | apply deleteList_json | apply getList_json | apply updateList_json
        | cbn [fst]; unfold json_response; do 2 eexists; reflexivity ].

Lemma Pages_envelope (uuid : string) (request : request) (d : db) :
  (method request = "OPTIONS"
   /\ fst (Pages.onRequest uuid request d) = preflightResponse)
  \/ (method request <> "OPTIONS"
      /\ json_response (fst (Pages.onRequest uuid request d))).
Proof.
  unfold Pages.onRequest.
  destruct (String.eqb (method request) "OPTIONS") eqn:E.
  - left. apply String.eqb_eq in E. now split.
  - right. apply String.eqb_neq in E. split; [assumption|].
    repeat innermost_case; envelope.
Qed.

Lemma Fixed_envelope (uuid : string) (request : request) (d : db) :
  (method request = "OPTIONS"
   /\ fst (Fixed.onRequest uuid request d) = preflightResponse)
  \/ (method request <> "OPTIONS"
      /\ json_response (fst (Fixed.onRequest uuid request d))).
Proof.
  unfold Fixed.onRequest.
  destruct (String.eqb (method request) "OPTIONS") eqn:E.
  - left. apply String.eqb_eq in E. now split.
  - right. apply String.eqb_neq in E. split; [assumption|].
    repeat innermost_case; envelope.
Qed.

(** X16. Every answer of the two Pages functions carries the three CORS
    headers.  The answer to a preflight is 200 with no body, whatever
    its path and headers; every other answer is a JSON answer, with the
    content type application/json and a body, whether it reports
    success or an error. *)
Theorem answers_are_enveloped (uuid : string) (request : request) (d : db) :
  let pages := fst (Pages.onRequest uuid request d) in
  let fixed := fst (Fixed.onRequest uuid request d) in
  (incl corsHeaders (headers pages) /\ incl corsHeaders (headers fixed))
  /\ (method request = "OPTIONS" ->
      pages = preflightResponse /\ fixed = preflightResponse)
  /\ (method request <> "OPTIONS" ->
      (exists data status, pages = jsonResponse data status)
      /\ (exists data status, fixed = jsonResponse data status)).
Proof.
  intros pages fixed.
  destruct (Pages_envelope uuid request d) as [[Hm Hp] | [Hm Hp]];
    destruct (Fixed_envelope uuid request d) as [[Hm' Hf] | [Hm' Hf]];
    try contradiction; fold pages in Hp; fold fixed in Hf.
  - rewrite Hp, Hf. repeat split; try apply incl_refl. all: contradiction.
  - destruct Hp as (dp & sp & Hp), Hf as (df & sf & Hf).
    split; [|split].
    + rewrite Hp, Hf. split; apply incl_tl, incl_refl.
    + intros Ho. contradiction.
    + intros _. split; [now exists dp, sp | now exists df, sf].
Qed.

Lemma answers_are_enveloped_witness :
  exists data status,
    fst (Pages.onRequest "x" anonymous_put store) = jsonResponse data status.
Proof.
  destruct (answers_are_enveloped "x" anonymous_put store) as (_ & _ & H).
  destruct (H ltac:(discriminate)) as [Hp _]. exact Hp.
Defined.

(* ================================================================= *)
(** ** Lists *)

Lemma Pages_lists_route
      (uuid : string) (request : request) (d : db) (u : user) :
  session request d = Some u -> path_of request = "/lists" ->
  Pages.onRequest uuid request d
  = if String.eqb (method request) "OPTIONS" then (preflightResponse, d)
    else if String.eqb (method request) "GET"
    then getLists request d (user_id u)
    else if String.eqb (method request) "POST"
    then createList request d (user_id u)
    else (errorResponse "Method Not Allowed" 405, d).
Proof.
  intros Hs Hp.
  destruct (session_token _ _ _ Hs) as (token & Ht & Htr & Hu).
  unfold Pages.onRequest. rewrite Ht, Htr, Hu, Hp. reflexivity.
Qed.

(** X17. A successful POST /lists answers 201 with the key the store
    assigned, the next AUTOINCREMENT value, and the name; from then on
    GET /lists by the same user answers what it answered before
    followed by the new list, whose [created_at] is the time the POST
    was served. *)
Theorem created_list_is_listed
        (uuid : string) (create : request) (d d' : db) (u : user) (b : body)
        (answer : response) :
  session create d = Some u ->
  method create = "POST" -> path_of create = "/lists" ->
  req_json create = Done b ->
  Pages.onRequest uuid create d = (answer, d') ->
  status answer = 201 ->
  answer = jsonResponse (JObj [("id", JNum (lists_seq d + 1));
                               ("name", JStr (text_of (b_name b)))]) 201
  /\ forall uuid' fetch,
      session fetch d' = Some u ->
      method fetch = "GET" -> path_of fetch = "/lists" ->
      Pages.onRequest uuid' fetch d'
      = (jsonResponse
           (JArr (map list_json (lists_of (user_id u) d)
                  ++ [JObj [("id", JNum (lists_seq d + 1));
                            ("name", JStr (text_of (b_name b)));
                            ("user_id", JNum (user_id u));
                            ("created_at", JStr (served_at create))]])%list)
           200, d').
Proof.
  intros Hs Hm Hp Hb Hcreate Hst.
  rewrite (Pages_lists_route uuid _ _ _ Hs Hp), Hm in Hcreate.
  cbn [String.eqb Ascii.eqb Bool.eqb] in Hcreate.
  unfold createList in Hcreate. rewrite Hb in Hcreate.
  destruct (missing (b_name b));
    [injection Hcreate as <- <-; discriminate Hst|].
  destruct (insert_list _ _ _ d) as [[id d1]|m] eqn:E;
    injection Hcreate as <- <-; [|discriminate Hst].
  apply insert_list_done in E as (-> & Hlists & _).
  split; [reflexivity|].
  intros uuid' fetch Hs' Hm' Hp'.
  rewrite (Pages_lists_route uuid' _ _ _ Hs' Hp'), Hm'.
  cbn [String.eqb Ascii.eqb Bool.eqb].
  unfold getLists, lists_of. rewrite Hlists, filter_app, map_app.
  cbn [filter l_user_id]. now rewrite Z.eqb_refl.
Qed.

Lemma created_list_is_listed_witness :
  Pages.onRequest
    "x" (bodiless "GET" "/api/lists" as_alice)
    (snd (Pages.onRequest "x" (post "/api/lists" as_alice
                                     (Done (named "Section 2"))) store))
  = (jsonResponse
       (JArr [JObj [("id", JNum 1); ("name", JStr "Section 1");
                    ("user_id", JNum 1);
                    ("created_at", JStr "2025-03-01 10:00:00")];
              JObj [("id", JNum 2); ("name", JStr "Section 2");
                    ("user_id", JNum 1);
                    ("created_at", JStr "2025-03-01 10:00:00")]])
       200,
     snd (Pages.onRequest "x" (post "/api/lists" as_alice
                                     (Done (named "Section 2"))) store)).
Proof.
  destruct (created_list_is_listed
              "x" (post "/api/lists" as_alice (Done (named "Section 2")))
              store
              (snd (Pages.onRequest "x" (post "/api/lists" as_alice
                                               (Done (named "Section 2")))
                                    store))
              alice (named "Section 2")
              (fst (Pages.onRequest "x" (post "/api/lists" as_alice
                                               (Done (named "Section 2")))
                                    store))
              eq_refl eq_refl eq_refl eq_refl eq_refl eq_refl) as [_ H].
  exact (H "x" (bodiless "GET" "/api/lists" as_alice) eq_refl eq_refl eq_refl).
Defined.

(** ** The single-list routes of the corrected Pages function *)

Lemma Fixed_list_id_route
      (uuid : string) (request : request) (d : db) (u : user)
      (first listId : string) (more : list string) :
  session request d = Some u ->
  method request <> "OPTIONS" ->
  startsWith (path_of request) "/lists/" = true ->
  segments (path_of request) = first :: listId :: more ->
  Fixed.onRequest uuid request d
  = if String.eqb (method request) "DELETE"
    then Fixed.deleteList request d (user_id u) listId
    else if String.eqb (method request) "GET"
    then Fixed.getList request d (user_id u) listId
    else if String.eqb (method request) "PUT"
    then Fixed.updateList request d (user_id u) listId
    else (errorResponse "Method Not Allowed" 405, d).
Proof.
  intros Hs Hm Hp Hseg.
  destruct (session_token _ _ _ Hs) as (token & Ht & Htr & Hu).
  destruct (prefix_split _ _ Hp) as [r Hr].
  apply String.eqb_neq in Hm.
  unfold Fixed.onRequest.
  rewrite Hm, Ht, Htr, Hu, Hseg, Hr.
  route_eval. reflexivity.
Qed.

Lemma clear_list_unlisted (n : Z) (gone : list Z) (r : report_row) :
  gone <> [] -> Forall (fun m => m = n) gone ->
  unlisted n r (clear_list gone r).
Proof.
  intros Hne Hall. unfold clear_list, unlisted, same_list.
  destruct (r_list_id r) as [m|] eqn:E; [|rewrite E; repeat split].
  assert (Hex : existsb (Z.eqb m) gone = Z.eqb m n).
  { destruct gone as [|g gone]; [contradiction|].
    inversion Hall as [|? ? Hg Hrest]; subst. cbn [existsb].
    destruct (Z.eqb m n) eqn:Em; [reflexivity|]. cbn [orb].
    apply existsb_false_forall. rewrite Forall_forall in Hrest.
    intros x Hx. now rewrite (Hrest x Hx). }
  rewrite Hex. destruct (Z.eqb m n); cbn; rewrite ?E; repeat split.
Qed.

Lemma Forall2_map_same {A : Type} (R : A -> A -> Prop) (f : A -> A)
      (l : list A) :
  (forall x, R x (f x)) -> Forall2 R l (map f l).
Proof.
  intros H. induction l as [|x l IH]; cbn; constructor; auto.
Qed.

(** X18. When the corrected Pages function answers DELETE /lists/{id}
    with 200, no report is lost: the reports are the rows they were,
    every column as it was, except that those which referred to the
    list now refer to none (ON DELETE SET NULL).  The accounts are
    untouched and the caller's list is gone. *)
Theorem list_deletion_keeps_reports
        (uuid : string) (request : request) (d d' : db) (u : user)
        (first listId : string) (n : Z) (answer : response) :
  session request d = Some u ->
  method request = "DELETE" ->
  startsWith (path_of request) "/lists/" = true ->
  segments (path_of request) = [first; listId] ->
  parseInt listId = Some n ->
  Fixed.onRequest uuid request d = (answer, d') ->
  status answer = 200 ->
  Forall2 (unlisted n) (reports d) (reports d')
  /\ users d' = users d
  /\ lists d' = filter (fun l => negb (is_list n (user_id u) l)) (lists d).
Proof.
  intros Hs Hm Hp Hseg Hid Hdel Hst.
  rewrite (Fixed_delete_list_route uuid _ _ _ _ _ _ Hs Hm Hp Hseg) in Hdel.
  unfold Fixed.deleteList in Hdel.
  rewrite Hid, NumberFacts.parseInt_number_id in Hdel.
  destruct (list_by_id n d) as [existing|] eqn:El;
    [|injection Hdel as <- <-; discriminate Hst].
  destruct (Z.eqb (l_user_id existing) (user_id u)) eqn:Eo; cbn [negb] in Hdel;
    [|injection Hdel as <- <-; discriminate Hst].
  apply find_some in El as [Hin Hkey].
  unfold delete_list in Hdel.
  cbn [rows_affected is_zero] in Hdel. injection Hdel as <- <-.
  cbn [reports users lists]. split; [|split; reflexivity].
  apply Forall2_map_same. intros r. apply clear_list_unlisted.
  - intros Hnil. apply map_eq_nil in Hnil.
    assert (Hgone : In existing (filter (is_list n (user_id u)) (lists d))).
    { apply filter_In. split; [assumption|].
      unfold is_list. now rewrite Hkey, Eo. }
    now rewrite Hnil in Hgone.
  - apply Forall_forall. intros m Hm'.
    apply in_map_iff in Hm' as (l & <- & Hl).
    apply filter_In in Hl as [_ Hl]. unfold is_list in Hl.
    apply andb_prop in Hl as [Hl _]. now apply Z.eqb_eq.
Qed.

Lemma list_deletion_keeps_reports_witness :
  Forall2 (unlisted 1%Z) (reports store)
          (reports (snd (Fixed.onRequest
                           "x" (bodiless "DELETE" "/api/lists/1" as_alice)
                           store))).
Proof.
  destruct (list_deletion_keeps_reports
              "x" (bodiless "DELETE" "/api/lists/1" as_alice) store
              (snd (Fixed.onRequest
                      "x" (bodiless "DELETE" "/api/lists/1" as_alice) store))
              alice "lists" "1" 1%Z
              (fst (Fixed.onRequest
                      "x" (bodiless "DELETE" "/api/lists/1" as_alice) store))
              eq_refl eq_refl eq_refl eq_refl eq_refl eq_refl eq_refl)
    as [H _].
  exact H.
Defined.

(** X19. In the corrected Pages function a list is renamed and deleted
    by its owner only: when the caller owns no list with the key, GET,
    PUT and DELETE on /lists/{id} leave the store as it was.  GET
    answers 404 and DELETE answers 404 or 403; a PUT that carries a
    name is answered 200 all the same, although it renamed nothing. *)
Theorem foreign_list_untouched
        (uuid : string) (request : request) (d : db) (u : user)
        (first listId : string) (n : Z) :
  session request d = Some u ->
  startsWith (path_of request) "/lists/" = true ->
  segments (path_of request) = [first; listId] ->
  parseInt listId = Some n ->
  list_by_id_owner n (user_id u) d = None ->
  method request = "GET" \/ method request = "PUT"
  \/ method request = "DELETE" ->
  snd (Fixed.onRequest uuid request d) = d
  /\ (method request = "GET" ->
      fst (Fixed.onRequest uuid request d) = errorResponse "List not found" 404)
  /\ (method request = "DELETE" ->
      fst (Fixed.onRequest uuid request d) = errorResponse "List not found" 404
      \/ fst (Fixed.onRequest uuid request d)
         = errorResponse "Not authorized" 403)
  /\ (forall b, method request = "PUT" -> req_json request = Done b ->
      missing (b_name b) = false ->
      fst (Fixed.onRequest uuid request d)
      = jsonResponse (JObj [("message", JStr "List updated");
                            ("id", JNum n);
                            ("name", JStr (text_of (b_name b)))]) 200).
Proof.
  intros Hs Hp Hseg Hid Hnone Hm.
  assert (Ho : method request <> "OPTIONS")
    by (destruct Hm as [-> | [-> | ->]]; discriminate).
  rewrite (Fixed_list_id_route uuid _ _ _ _ _ _ Hs Ho Hp Hseg).
  assert (Hmiss : forall l, In l (lists d) -> is_list n (user_id u) l = false)
    by (intros l; exact (find_none _ _ Hnone l)).
  destruct Hm as [Hm | [Hm | Hm]]; rewrite Hm;
    cbn [String.eqb Ascii.eqb Bool.eqb].
  - unfold Fixed.getList.
    rewrite Hid, NumberFacts.parseInt_number_id, Hnone.
    cbn [fst snd]. repeat split; intros; discriminate.
  - unfold Fixed.updateList.
    destruct (req_json request) as [b|m];
      [|cbn [fst snd]; repeat split; intros; discriminate].
    destruct (missing (b_name b)) eqn:Ename;
      [cbn [fst snd]; repeat split; intros; try discriminate;
       match goal with H : Done _ = Done _ |- _ => injection H as <- end;
       congruence|].
    rewrite Hid, NumberFacts.parseInt_number_id.
    destruct (update_list_name (text_of (b_name b)) n (user_id u) d)
      as [k d1] eqn:E.
    assert (Hk : k = 0).
    { unfold update_list_name in E. injection E as <- _.
      now rewrite (filter_none _ _ Hmiss). }
    subst k. rewrite (update_list_nothing _ _ _ _ _ E).
    cbn [rows_affected is_zero fst snd].
    repeat split; intros; try discriminate.
    match goal with H : Done _ = Done _ |- _ => injection H as <- end.
    reflexivity.
  - unfold Fixed.deleteList.
    rewrite Hid, NumberFacts.parseInt_number_id.
    destruct (list_by_id n d) as [l|] eqn:El;
      [|cbn [fst snd]; repeat split; intros; try discriminate; now left].
    apply find_some in El as [Hin Hl].
    destruct (Z.eqb (l_user_id l) (user_id u)) eqn:Eo; cbn [negb];
      [|cbn [fst snd]; repeat split; intros; try discriminate; now right].
    exfalso. pose proof (Hmiss l Hin) as Hno.
    unfold is_list in Hno. now rewrite Hl, Eo in Hno.
Qed.

Lemma foreign_list_untouched_witness :
  Fixed.onRequest "x" (put "/api/lists/1" as_bob (named "Mine")) store
  = (jsonResponse (JObj [("message", JStr "List updated"); ("id", JNum 1);
                         ("name", JStr "Mine")]) 200, store).
Proof.
  destruct (foreign_list_untouched
              "x" (put "/api/lists/1" as_bob (named "Mine"))
              store bob "lists" "1" 1%Z
              eq_refl eq_refl eq_refl eq_refl eq_refl
              (or_intror (or_introl eq_refl))) as (Hd & _ & _ & Hput).
  specialize (Hput (named "Mine") eq_refl eq_refl eq_refl).
  destruct (Fixed.onRequest "x" (put "/api/lists/1" as_bob (named "Mine"))
                            store) as [answer d'].
  cbn [fst snd] in *. now subst.
Defined.

Lemma find_map_hit {A : Type} (f : A -> bool) (g : A -> A) (l : list A)
      (x : A) :
  (forall y, f y = true -> f (g y) = true) ->
  find f l = Some x ->
  find f (map (fun y => if f y then g y else y) l) = Some (g x).
Proof.
  intros Hg. induction l as [|y l IH]; [discriminate|].
  cbn [map find]. destruct (f y) eqn:E.
  - intros [= ->]. now rewrite (Hg x E).
  - rewrite E. exact IH.
Qed.

(** X20. When the corrected Pages function answers a PUT /lists/{id} on
    a list the caller owns with 200, GET /lists/{id} by the same user
    answers 200 with the list under its key and its new name; the
    rename changes neither the key, nor the owner, nor the time of
    creation. *)
Theorem renamed_list_is_read
        (uuid uuid' : string) (put fetch : request) (d d' : db) (u : user)
        (b : body) (answer : response) (first first' listId listId' : string)
        (n : Z) (l : list_row) :
  session put d = Some u -> method put = "PUT" ->
  startsWith (path_of put) "/lists/" = true ->
  segments (path_of put) = [first; listId] ->
  parseInt listId = Some n ->
  req_json put = Done b ->
  list_by_id_owner n (user_id u) d = Some l ->
  Fixed.onRequest uuid put d = (answer, d') ->
  status answer = 200 ->
  session fetch d' = Some u -> method fetch = "GET" ->
  startsWith (path_of fetch) "/lists/" = true ->
  segments (path_of fetch) = [first'; listId'] ->
  parseInt listId' = Some n ->
  Fixed.onRequest uuid' fetch d'
  = (jsonResponse (JObj [("id", JNum n); ("name", JStr (text_of (b_name b)));
                         ("user_id", JNum (user_id u));
                         ("created_at", JStr (l_created_at l))]) 200, d').
Proof.
  intros Hs Hm Hp Hseg Hid Hb Hown Hput Hst Hs' Hm' Hp' Hseg' Hid'.
  assert (Ho : method put <> "OPTIONS") by (rewrite Hm; discriminate).
  assert (Ho' : method fetch <> "OPTIONS") by (rewrite Hm'; discriminate).
  rewrite (Fixed_list_id_route uuid _ _ _ _ _ _ Hs Ho Hp Hseg), Hm in Hput.
  rewrite (Fixed_list_id_route uuid' _ _ _ _ _ _ Hs' Ho' Hp' Hseg'), Hm'.
  cbn [String.eqb Ascii.eqb Bool.eqb] in *.
  unfold Fixed.updateList in Hput. rewrite Hb in Hput.
  destruct (missing (b_name b));
    [injection Hput as <- <-; discriminate Hst|].
  rewrite Hid, NumberFacts.parseInt_number_id in Hput.
  unfold update_list_name in Hput.
  cbn [rows_affected is_zero] in Hput. injection Hput as <- <-.
  unfold Fixed.getList.
  rewrite Hid', NumberFacts.parseInt_number_id.
  unfold list_by_id_owner in *. cbn [lists].
  rewrite (find_map_hit
             (is_list n (user_id u))
             (fun l => {| l_id := l_id l; l_name := text_of (b_name b);
                          l_user_id := l_user_id l;
                          l_created_at := l_created_at l |})
             (lists d) l (fun x H => H) Hown).
  apply find_some in Hown as [_ Hl].
  unfold is_list in Hl. apply andb_prop in Hl as [Hk Howner].
  apply Z.eqb_eq in Hk, Howner. unfold list_json.
  cbn [l_id l_name l_user_id l_created_at].
  now rewrite Hk, Howner.
Qed.

Lemma renamed_list_is_read_witness :
  Fixed.onRequest
    "x" (bodiless "GET" "/api/lists/1" as_alice)
    (snd (Fixed.onRequest
            "x" (put "/api/lists/1" as_alice (named "Seccion A")) store))
  = (jsonResponse (JObj [("id", JNum 1); ("name", JStr "Seccion A");
                         ("user_id", JNum 1);
                         ("created_at", JStr "2025-03-01 10:00:00")]) 200,
     snd (Fixed.onRequest
            "x" (put "/api/lists/1" as_alice (named "Seccion A")) store)).
Proof.
  exact (renamed_list_is_read
           "x" "x"
           (put "/api/lists/1" as_alice (named "Seccion A"))
           (bodiless "GET" "/api/lists/1" as_alice)
           store
           (snd (Fixed.onRequest
                   "x" (put "/api/lists/1" as_alice (named "Seccion A")) store))
           alice (named "Seccion A")
           (fst (Fixed.onRequest
                   "x" (put "/api/lists/1" as_alice (named "Seccion A")) store))
           "lists" "lists" "1" "1" 1%Z
           {| l_id := 1; l_name := "Section 1"; l_user_id := 1;
              l_created_at := "2025-03-01 10:00:00" |}
           eq_refl eq_refl eq_refl eq_refl eq_refl eq_refl eq_refl eq_refl
           eq_refl eq_refl eq_refl eq_refl eq_refl eq_refl).
Defined.

(* ================================================================= *)
(** ** The two Pages functions compared *)

(** X21. The corrected Pages function answers as functions/api/[[route]].js
    does, and leaves the same store, on every request outside the
    routes it corrects: a path that is not /reports/search, not under
    /lists/, and, under /reports/, has no segment after the
    identifier. *)
Theorem fixed_agrees_elsewhere (uuid : string) (request : request) (d : db) :
  path_of request <> "/reports/search" ->
  startsWith (path_of request) "/lists/" = false ->
  (startsWith (path_of request) "/reports/" = true ->
   List.length (segments (path_of request)) <= 2) ->
  Fixed.onRequest uuid request d = Pages.onRequest uuid request d.
Proof.
  intros Hsearch Hlists Hsegs.
  apply String.eqb_neq in Hsearch.
  unfold Fixed.onRequest, Pages.onRequest.
  destruct (String.eqb (method request) "OPTIONS"); [reflexivity|].
  destruct (startsWith (path_of request) "/auth/"); [reflexivity|].
  destruct (extractToken request) as [token|]; [|reflexivity].
  destruct (negb (truthy token)); [reflexivity|].
  destruct (findUserByToken token d) as [u|]; [|reflexivity].
  cbv zeta. rewrite Hsearch, Hlists.
  destruct (String.eqb (path_of request) "/reports"); [reflexivity|].
  destruct (startsWith (path_of request) "/reports/"); [|reflexivity].
  specialize (Hsegs eq_refl).
  destruct (segments (path_of request)) as [|a [|b [|c more]]];
    try reflexivity.
  cbn in Hsegs. lia.
Qed.

Lemma fixed_agrees_elsewhere_witness :
  Fixed.onRequest "x" (bodiless "GET" "/api/reports/r1" as_alice) store
  = Pages.onRequest "x" (bodiless "GET" "/api/reports/r1" as_alice) store.
Proof.
  apply (fixed_agrees_elsewhere
           "x" (bodiless "GET" "/api/reports/r1" as_alice) store).
  - discriminate.
  - reflexivity.
  - intros _. cbn. lia.
Defined.

(* ================================================================= *)
(** ** Searching *)











(* ================================================================= *)
(** ** More on accounts and identifiers *)

(** X23. A wrong password never logs in: once an account is registered,
    whatever was served in between, a login with its email and another
    password is answered 401 and changes nothing; no other account can
    stand in, since the email is the account's alone. *)
Theorem wrong_password_refused
        (d0 : db) (uuid1 uuid2 : string) (register login : request)
        (b1 b2 : body) (between : history) :
  reachable d0 ->
  method register = "POST" -> path_of register = "/auth/register" ->
  req_json register = Done b1 ->
  status (fst (Pages.onRequest uuid1 register d0)) = 201 ->
  method login = "POST" -> path_of login = "/auth/login" ->
  req_json login = Done b2 ->
  b_email b2 = b_email b1 ->
  missing (b_password b2) = false ->
  text_of (b_password b2) <> text_of (b_password b1) ->
  let d := run between (snd (Pages.onRequest uuid1 register d0)) in
  Pages.onRequest uuid2 login d
  = (errorResponse "Invalid email or password." 401, d).
Proof.
  intros Hreach Hm1 Hp1 Hb1 Hst Hm2 Hp2 Hb2 He Hpresent Hwrong d.
  assert (Hd1 : reachable (snd (Pages.onRequest uuid1 register d0)))
    by now apply reachable_step.
  pose proof (run_reachable between _ Hd1) as Hd. fold d in Hd.
  pose proof (emails_unique_reachable d Hd) as Hemails.
  destruct (Pages.onRequest uuid1 register d0) as [answer d1] eqn:Hreg.
  cbn [fst snd] in *.
  rewrite (Pages_register_route _ _ _ Hm1 Hp1) in Hreg.
  destruct (registerUser_done _ _ _ _ _ _ Hb1 Hreg Hst)
    as (_ & Hemail & _ & _ & _ & Hins).
  apply insert_user_done in Hins as (_ & Husers & _).
  set (row0 := {| u_id := users_seq d0 + 1; u_name := text_of (b_name b1);
                  u_email := text_of (b_email b1);
                  u_university := text_of (b_university b1);
                  u_password := text_of (b_password b1);
                  u_token := Some uuid1 |}) in Husers.
  assert (Hin0 : In row0 (users d1))
    by (rewrite Husers; apply in_or_app; right; now left).
  destruct (account_kept_run between d1 row0 Hin0)
    as (row & Hin & _ & _ & Hmail & _ & Hpwd).
  fold d in Hin. clearbody d.
  cbn [row0 u_email u_password] in *.
  rewrite (Pages_login_route _ _ _ Hm2 Hp2).
  unfold loginUser. rewrite Hb2, He, Hemail, Hpresent. cbn [orb].
  unfold user_by_credentials.
  destruct (find _ (users d)) as [found|] eqn:E; [|reflexivity].
  exfalso. apply find_some in E as [Hfin Hmatch].
  apply andb_prop in Hmatch as [Hfe Hfp].
  apply String.eqb_eq in Hfe, Hfp.
  assert (found = row)
    by (apply (unique_email _ _ _ Hemails Hfin Hin); congruence).
  subst found. apply Hwrong. congruence.
Qed.

Lemma wrong_password_refused_witness :
  Pages.onRequest
    "x" (post "/api/auth/login" None
              (Done (credentials None (Some "b@x.com") None (Some "secret"))))
    store
  = (errorResponse "Invalid email or password." 401, store).
Proof.
  assert (Hreach : reachable only_alice).
  { unfold only_alice. cbn [run]. apply reachable_step, reachable_empty. }
  apply (wrong_password_refused
           only_alice "tok-bob" "x" register_bob
           (post "/api/auth/login" None
                 (Done (credentials None (Some "b@x.com") None (Some "secret"))))
           (credentials (Some "Bob") (Some "b@x.com") (Some "PUC")
                        (Some "hunter2"))
           (credentials None (Some "b@x.com") None (Some "secret"))
           (tl (tl two_users)) Hreach);
    try reflexivity.
  discriminate.
Defined.

(** X24. When the body of a successful POST /reports carries a
    non-empty [id], the answer is 201 with that [id], the report is
    stored under it for the caller, and it is the last row of the
    table; the rows that were there are as they were. *)
Theorem created_with_id_answers_id
        (uuid : string) (request : request) (d d' : db) (u : user) (b : body)
        (answer : response) (id : string) :
  session request d = Some u ->
  method request = "POST" -> path_of request = "/reports" ->
  req_json request = Done b ->
  b_id b = Some id -> id <> EmptyString ->
  Pages.onRequest uuid request d = (answer, d') ->
  status answer = 201 ->
  answer = jsonResponse (JObj [("id", JStr id)]) 201
  /\ reports d' = (reports d ++ [bound_row id (user_id u) b])%list
  /\ report_by_id id (user_id u) d' = Some (bound_row id (user_id u) b).
Proof.
  intros Hs Hm Hp Hb Hid Hne Hcreate Hst.
  rewrite (Pages_create_route uuid _ _ _ Hs Hm Hp) in Hcreate.
  unfold createReport in Hcreate. rewrite Hb, Hid in Hcreate.
  cbv zeta in Hcreate. cbn [missing text_of option_map] in Hcreate.
  rewrite (truthy_nonempty _ Hne) in Hcreate. cbn [negb] in Hcreate.
  destruct (insert_report _ d) as [d1|m] eqn:E;
    injection Hcreate as <- <-; [|discriminate Hst].
  apply insert_report_done in E as (-> & Hfresh & _).
  cbn [r_id bound_row] in Hfresh. cbn [set_reports reports].
  split; [reflexivity|]. split; [reflexivity|].
  unfold report_by_id. cbn [reports].
  apply RoundTrip.find_last.
  - apply (RoundTrip.existsb_weaken
             _ _ _ (fun r H => proj1 (andb_prop _ _ H))).
    exact Hfresh.
  - unfold is_report, owned_by. cbn [r_id r_user_id bound_row].
    now rewrite String.eqb_refl, Z.eqb_refl.
Qed.

Lemma created_with_id_answers_id_witness :
  fst (Pages.onRequest
         "unused" (post "/api/reports" as_bob
                        (Done (report_body (Some "r7") None))) store)
  = jsonResponse (JObj [("id", JStr "r7")]) 201.
Proof.
  destruct (created_with_id_answers_id
              "unused"
              (post "/api/reports" as_bob (Done (report_body (Some "r7") None)))
              store
              (snd (Pages.onRequest
                      "unused" (post "/api/reports" as_bob
                                     (Done (report_body (Some "r7") None)))
                      store))
              bob (report_body (Some "r7") None)
              (fst (Pages.onRequest
                      "unused" (post "/api/reports" as_bob
                                     (Done (report_body (Some "r7") None)))
                      store))
              "r7"
              eq_refl eq_refl eq_refl eq_refl eq_refl ltac:(discriminate)
              eq_refl eq_refl) as [H _].
  exact H.
Defined.

(* ================================================================= *)
(** ** The dispatch chain of the Worker *)

Lemma split_two (c : ascii) (a b : string) :
  no_char c a = true -> no_char c b = true ->
  split c (a ++ String c b) = [a; b].
Proof.
  intros Ha Hb. induction a as [|x a IH].
  - cbn. rewrite Ascii.eqb_refl. now rewrite (split_no_sep _ _ Hb).
  - cbn in Ha. apply andb_prop in Ha as [Hx Ha].
    apply negb_true_iff in Hx. cbn [append split]. rewrite Hx.
    now rewrite (IH Ha).
Qed.

(** X25. The Worker's chain dispatches /reports/{id} by the verb to the
    three report handlers with the identifier as it stands in the
    path, the empty identifier of the path /reports/ included, and
    answers any other verb 404; it dispatches DELETE /lists/{id} to
    [deleteList] and answers any other verb on that path 404. *)
Theorem Worker_dispatch_by_id (method id : string) (userId : Z) :
  no_char "/" id = true ->
  Worker.route method ("/reports/" ++ id) userId
  = (if String.eqb method "GET" then Worker.GetReport userId id
     else if String.eqb method "PUT" then Worker.UpdateReport userId id
     else if String.eqb method "DELETE" then Worker.DeleteReport userId id
     else Worker.Answer (errorResponse "Not Found" 404))
  /\ Worker.route method ("/lists/" ++ id) userId
     = (if String.eqb method "DELETE" then Worker.DeleteList userId id
        else Worker.Answer (errorResponse "Not Found" 404)).
Proof.
  intros Hid.
  assert (Hr : split "/" ("/reports/" ++ id) = [EmptyString; "reports"; id]).
  { change ("/reports/" ++ id) with (String "/" ("reports" ++ String "/" id)).
    cbn [split]. rewrite Ascii.eqb_refl.
    now rewrite (split_two "/" "reports" id eq_refl Hid). }
  assert (Hl : split "/" ("/lists/" ++ id) = [EmptyString; "lists"; id]).
  { change ("/lists/" ++ id) with (String "/" ("lists" ++ String "/" id)).
    cbn [split]. rewrite Ascii.eqb_refl.
    now rewrite (split_two "/" "lists" id eq_refl Hid). }
  unfold Worker.route. rewrite Hr, Hl. split.
  - destruct id; reflexivity.
  - destruct id; reflexivity.
Qed.

Lemma Worker_dispatch_by_id_witness :
  Worker.route "PUT" "/reports/" 1%Z = Worker.UpdateReport 1%Z EmptyString
  /\ Worker.route "DELETE" "/lists/7" 1%Z = Worker.DeleteList 1%Z "7".
Proof.
  split.
  - exact (proj1 (Worker_dispatch_by_id "PUT" EmptyString 1%Z eq_refl)).
  - exact (proj2 (Worker_dispatch_by_id "DELETE" "7" 1%Z eq_refl)).
Defined.
